(** * Panel utilities (lib/sdk/panel/utils.js): a shallow embedding

    The module drives a XUL arrow panel through the host DOM.  The embedding
    keeps the JavaScript shape of the code: every function of the module is a
    computation in a state-and-exception monad over a store that holds the
    DOM properties the module reads and writes, the observer table of the
    system event bus, the pending timers and a trace of the calls made to
    the host and to the collaborating modules. *)

From Stdlib Require Import QArith.
From stdpp Require Import gmap strings list fin_maps.

Local Open Scope string_scope.
Local Open Scope list_scope.
Local Open Scope nat_scope.

(** ** JavaScript numbers

    The code only adds, subtracts, multiplies, divides and compares numbers.
    The development is parametric in the arithmetic, so that what is proved
    about the control flow holds for IEEE doubles as well as for the exact
    rationals used where an arithmetic identity is needed. *)

Class Number (num : Type) : Type := {
  num_of_Z : Z -> num;
  num_add : num -> num -> num;
  num_sub : num -> num -> num;
  num_mul : num -> num -> num;
  num_div : num -> num -> num;
  num_gt : num -> num -> bool
}.

#[export] Instance Number_Q : Number Q := {
  num_of_Z := inject_Z;
  num_add := Qplus;
  num_sub := Qminus;
  num_mul := Qmult;
  num_div := Qdiv;
  num_gt := fun a b => negb (Qle_bool a b)
}.

(** A DOM node, document or other host object is known by its identity. *)
Abbreviation ref := nat.

Record FrameOptions : Type := {
  allowJavascript : bool;
  allowPlugins : bool;
  allowAuth : bool;
  allowWindowControl : bool;
  browser : bool;
  uri : string
}.

(** The closures [make] creates, named by the variables they capture.
    The closure of [onContentChange] is the one handed to the event bus, the
    others are DOM event listeners. *)
Inductive Observer : Type :=
  | Closure_onContentChange (panel : ref).

Inductive Handler : Type :=
  | Closure_onDisplayChange (panel backgroundFrame viewFrame : ref)
  | Closure_onContentReady (panel : ref)
  | Closure_onContentLoad (panel : ref)
  | Closure_onPanelStateChange (panel : ref).

Record Listener : Type := {
  l_target : ref;
  l_type : string;
  l_handler : Handler;
  l_capture : bool
}.

Inductive Exn : Type :=
  | TypeError (msg : string)
  | NotFoundError
  | HierarchyRequestError
  | InternalError (msg : string).

(** The outcome of a computation: a value, or a thrown exception. *)
Inductive Result (A : Type) : Type :=
  | Ok (a : A)
  | Throw (e : Exn).

Arguments Ok {A} a.
Arguments Throw {A} e.

#[global] Instance Observer_eq_dec : EqDecision Observer.
Proof. solve_decision. Defined.

#[global] Instance Handler_eq_dec : EqDecision Handler.
Proof. solve_decision. Defined.

Section Model.

Context {num : Type} {NUM : Number num}.

(** ** Data *)

(** A value assigned to a property of [node.style]: a string literal, a
    number, or the concatenation [n + "px"] of a number and the unit. *)
Inductive StyleValue : Type :=
  | CssText (text : string)
  | CssNumber (n : num)
  | CssPx (n : num).

Record Rect : Type := { rect_left : num; rect_top : num }.

Record Screen : Type := { availWidth : num; availHeight : num }.

Record Window : Type := {
  mozScreenPixelsPerCSSPixel : num;
  mozInnerScreenX : num;
  mozInnerScreenY : num;
  screen : Screen
}.

(** The only callback the module hands to [setTimeout] is [open], with its
    four arguments. *)
Inductive Task : Type :=
  | OpenTask (panel : ref) (width height : num) (anchor : option ref).

Record Timer : Type := { delay : nat; callback : Task }.

(** Calls that leave the module, in the order they are made. *)
Inductive Call : Type :=
  | OpenPopup (panel : ref) (anchor : option ref) (position : option string)
              (x y : option num)
  | HidePopup (panel : ref)
  | SizeTo (panel : ref) (width height : num)
  | Emit (type : option string) (subject : ref)
  | Notify (o : Observer) (type : option string) (subject : ref)
  | Subscribe (type : string) (o : Observer)
  | Unsubscribe (type : string) (o : option Observer)
  | CreateFrame (frame : ref) (options : FrameOptions)
  | ConsoleError (msg : string)
  | ConsoleException (e : Exn).

(** What the host owns and the module only reads: the shape of documents
    ([documentElement], [head], [defaultView], lookup by id and of anonymous
    nodes), layout and computed style, and of a panel its [state] and
    whether its binding has given it [openPopup] and [hidePopup] yet.  A
    window is known here by its document: [getMostRecentBrowserWindow] and
    [getOwnerBrowserWindow] give the document of the window, [addonWindow]
    the root element of the add-on window.  Whether a swap of the frame
    loaders of two frames fails, and with which error, is the host's too
    ([swapFails]). *)
Record Host : Type := {
  documentElement : ref -> option ref;
  doc_head : ref -> option ref;
  defaultView : ref -> option Window;
  getElementById : ref -> string -> option ref;
  getAnonymousElementByAttribute : ref -> ref -> string -> string -> option ref;
  clientWidth : ref -> num;
  clientHeight : ref -> num;
  getBoundingClientRect : ref -> Rect;
  getComputedStyle : ref -> string -> string;
  state : ref -> string;
  hasOpenPopup : ref -> bool;
  hasHidePopup : ref -> bool;
  getMostRecentBrowserWindow : option ref;
  getOwnerBrowserWindow : ref -> option ref;
  addonWindow : ref;
  platform : string;
  swapFails : ref -> ref -> option Exn
}.

(** The store.  The properties of the DOM objects are kept one map per
    property, keyed by the object: a property that is absent from its map
    reads as [null] or [undefined].  [panel_backgroundFrame] and
    [panel_onContentChange] are the two properties the module adds to a
    panel; [domListeners] is what [addEventListener] has registered,
    [observers] the table of the system event bus, [timers] the callbacks
    queued by [setTimeout], oldest first, and [next] the identity of the next
    node to be created. *)
Record State : Type := {
  parentNode : gmap ref ref;
  childNodes : gmap ref (list ref);
  ownerDocument : gmap ref ref;
  tagName : gmap ref string;
  nodeId : gmap ref string;
  textContent : gmap ref string;
  attributes : gmap (ref * string) string;
  styles : gmap (ref * string) StyleValue;
  contentDocument : gmap ref ref;
  panel_backgroundFrame : gmap ref ref;
  panel_onContentChange : gmap ref Observer;
  domListeners : list Listener;
  observers : list (string * Observer);
  timers : list Timer;
  trace : list Call;
  next : ref;
  host : Host
}.

(** Assignment to one component of the store. *)
Definition set_parentNode (v : gmap ref ref) (s : State) : State :=
  {| parentNode := v; childNodes := childNodes s; ownerDocument := ownerDocument s;
     tagName := tagName s; nodeId := nodeId s; textContent := textContent s; attributes
     := attributes s; styles := styles s; contentDocument := contentDocument s;
     panel_backgroundFrame := panel_backgroundFrame s; panel_onContentChange :=
     panel_onContentChange s; domListeners := domListeners s; observers := observers s;
     timers := timers s; trace := trace s; next := next s; host := host s |}.

Definition set_childNodes (v : gmap ref (list ref)) (s : State) : State :=
  {| parentNode := parentNode s; childNodes := v; ownerDocument := ownerDocument s;
     tagName := tagName s; nodeId := nodeId s; textContent := textContent s; attributes
     := attributes s; styles := styles s; contentDocument := contentDocument s;
     panel_backgroundFrame := panel_backgroundFrame s; panel_onContentChange :=
     panel_onContentChange s; domListeners := domListeners s; observers := observers s;
     timers := timers s; trace := trace s; next := next s; host := host s |}.

Definition set_ownerDocument (v : gmap ref ref) (s : State) : State :=
  {| parentNode := parentNode s; childNodes := childNodes s; ownerDocument := v; tagName
     := tagName s; nodeId := nodeId s; textContent := textContent s; attributes :=
     attributes s; styles := styles s; contentDocument := contentDocument s;
     panel_backgroundFrame := panel_backgroundFrame s; panel_onContentChange :=
     panel_onContentChange s; domListeners := domListeners s; observers := observers s;
     timers := timers s; trace := trace s; next := next s; host := host s |}.

Definition set_tagName (v : gmap ref string) (s : State) : State :=
  {| parentNode := parentNode s; childNodes := childNodes s; ownerDocument :=
     ownerDocument s; tagName := v; nodeId := nodeId s; textContent := textContent s;
     attributes := attributes s; styles := styles s; contentDocument := contentDocument
     s; panel_backgroundFrame := panel_backgroundFrame s; panel_onContentChange :=
     panel_onContentChange s; domListeners := domListeners s; observers := observers s;
     timers := timers s; trace := trace s; next := next s; host := host s |}.

Definition set_nodeId (v : gmap ref string) (s : State) : State :=
  {| parentNode := parentNode s; childNodes := childNodes s; ownerDocument :=
     ownerDocument s; tagName := tagName s; nodeId := v; textContent := textContent s;
     attributes := attributes s; styles := styles s; contentDocument := contentDocument
     s; panel_backgroundFrame := panel_backgroundFrame s; panel_onContentChange :=
     panel_onContentChange s; domListeners := domListeners s; observers := observers s;
     timers := timers s; trace := trace s; next := next s; host := host s |}.

Definition set_textContent (v : gmap ref string) (s : State) : State :=
  {| parentNode := parentNode s; childNodes := childNodes s; ownerDocument :=
     ownerDocument s; tagName := tagName s; nodeId := nodeId s; textContent := v;
     attributes := attributes s; styles := styles s; contentDocument := contentDocument
     s; panel_backgroundFrame := panel_backgroundFrame s; panel_onContentChange :=
     panel_onContentChange s; domListeners := domListeners s; observers := observers s;
     timers := timers s; trace := trace s; next := next s; host := host s |}.

Definition set_attributes (v : gmap (ref * string) string) (s : State) : State :=
  {| parentNode := parentNode s; childNodes := childNodes s; ownerDocument :=
     ownerDocument s; tagName := tagName s; nodeId := nodeId s; textContent :=
     textContent s; attributes := v; styles := styles s; contentDocument :=
     contentDocument s; panel_backgroundFrame := panel_backgroundFrame s;
     panel_onContentChange := panel_onContentChange s; domListeners := domListeners s;
     observers := observers s; timers := timers s; trace := trace s; next := next s;
     host := host s |}.

Definition set_styles (v : gmap (ref * string) StyleValue) (s : State) : State :=
  {| parentNode := parentNode s; childNodes := childNodes s; ownerDocument :=
     ownerDocument s; tagName := tagName s; nodeId := nodeId s; textContent :=
     textContent s; attributes := attributes s; styles := v; contentDocument :=
     contentDocument s; panel_backgroundFrame := panel_backgroundFrame s;
     panel_onContentChange := panel_onContentChange s; domListeners := domListeners s;
     observers := observers s; timers := timers s; trace := trace s; next := next s;
     host := host s |}.

Definition set_contentDocument (v : gmap ref ref) (s : State) : State :=
  {| parentNode := parentNode s; childNodes := childNodes s; ownerDocument :=
     ownerDocument s; tagName := tagName s; nodeId := nodeId s; textContent :=
     textContent s; attributes := attributes s; styles := styles s; contentDocument :=
     v; panel_backgroundFrame := panel_backgroundFrame s; panel_onContentChange :=
     panel_onContentChange s; domListeners := domListeners s; observers := observers s;
     timers := timers s; trace := trace s; next := next s; host := host s |}.

Definition set_panel_backgroundFrame (v : gmap ref ref) (s : State) : State :=
  {| parentNode := parentNode s; childNodes := childNodes s; ownerDocument :=
     ownerDocument s; tagName := tagName s; nodeId := nodeId s; textContent :=
     textContent s; attributes := attributes s; styles := styles s; contentDocument :=
     contentDocument s; panel_backgroundFrame := v; panel_onContentChange :=
     panel_onContentChange s; domListeners := domListeners s; observers := observers s;
     timers := timers s; trace := trace s; next := next s; host := host s |}.

Definition set_panel_onContentChange (v : gmap ref Observer) (s : State) : State :=
  {| parentNode := parentNode s; childNodes := childNodes s; ownerDocument :=
     ownerDocument s; tagName := tagName s; nodeId := nodeId s; textContent :=
     textContent s; attributes := attributes s; styles := styles s; contentDocument :=
     contentDocument s; panel_backgroundFrame := panel_backgroundFrame s;
     panel_onContentChange := v; domListeners := domListeners s; observers := observers
     s; timers := timers s; trace := trace s; next := next s; host := host s |}.

Definition set_domListeners (v : list Listener) (s : State) : State :=
  {| parentNode := parentNode s; childNodes := childNodes s; ownerDocument :=
     ownerDocument s; tagName := tagName s; nodeId := nodeId s; textContent :=
     textContent s; attributes := attributes s; styles := styles s; contentDocument :=
     contentDocument s; panel_backgroundFrame := panel_backgroundFrame s;
     panel_onContentChange := panel_onContentChange s; domListeners := v; observers :=
     observers s; timers := timers s; trace := trace s; next := next s; host := host s
     |}.

Definition set_observers (v : list (string * Observer)) (s : State) : State :=
  {| parentNode := parentNode s; childNodes := childNodes s; ownerDocument :=
     ownerDocument s; tagName := tagName s; nodeId := nodeId s; textContent :=
     textContent s; attributes := attributes s; styles := styles s; contentDocument :=
     contentDocument s; panel_backgroundFrame := panel_backgroundFrame s;
     panel_onContentChange := panel_onContentChange s; domListeners := domListeners s;
     observers := v; timers := timers s; trace := trace s; next := next s; host := host
     s |}.

Definition set_timers (v : list Timer) (s : State) : State :=
  {| parentNode := parentNode s; childNodes := childNodes s; ownerDocument :=
     ownerDocument s; tagName := tagName s; nodeId := nodeId s; textContent :=
     textContent s; attributes := attributes s; styles := styles s; contentDocument :=
     contentDocument s; panel_backgroundFrame := panel_backgroundFrame s;
     panel_onContentChange := panel_onContentChange s; domListeners := domListeners s;
     observers := observers s; timers := v; trace := trace s; next := next s; host :=
     host s |}.

Definition set_trace (v : list Call) (s : State) : State :=
  {| parentNode := parentNode s; childNodes := childNodes s; ownerDocument :=
     ownerDocument s; tagName := tagName s; nodeId := nodeId s; textContent :=
     textContent s; attributes := attributes s; styles := styles s; contentDocument :=
     contentDocument s; panel_backgroundFrame := panel_backgroundFrame s;
     panel_onContentChange := panel_onContentChange s; domListeners := domListeners s;
     observers := observers s; timers := timers s; trace := v; next := next s; host :=
     host s |}.

Definition set_next (v : ref) (s : State) : State :=
  {| parentNode := parentNode s; childNodes := childNodes s; ownerDocument :=
     ownerDocument s; tagName := tagName s; nodeId := nodeId s; textContent :=
     textContent s; attributes := attributes s; styles := styles s; contentDocument :=
     contentDocument s; panel_backgroundFrame := panel_backgroundFrame s;
     panel_onContentChange := panel_onContentChange s; domListeners := domListeners s;
     observers := observers s; timers := timers s; trace := trace s; next := v; host :=
     host s |}.

Definition set_host (v : Host) (s : State) : State :=
  {| parentNode := parentNode s; childNodes := childNodes s; ownerDocument :=
     ownerDocument s; tagName := tagName s; nodeId := nodeId s; textContent :=
     textContent s; attributes := attributes s; styles := styles s; contentDocument :=
     contentDocument s; panel_backgroundFrame := panel_backgroundFrame s;
     panel_onContentChange := panel_onContentChange s; domListeners := domListeners s;
     observers := observers s; timers := timers s; trace := trace s; next := next s;
     host := v |}.

(** ** The state-and-exception monad

    A JavaScript exception leaves the store as it was when it was thrown:
    nothing is rolled back, so the store is threaded through both outcomes. *)

Definition M (A : Type) : Type := State -> Result A * State.

Definition ret {A : Type} (a : A) : M A := fun s => (Ok a, s).

Definition throw {A : Type} (e : Exn) : M A := fun s => (Throw e, s).

Definition bind {A B : Type} (m : M A) (k : A -> M B) : M B :=
  fun s => match m s with
           | (Ok a, s') => k a s'
           | (Throw e, s') => (Throw e, s')
           end.

Definition gets {A : Type} (f : State -> A) : M A := fun s => (Ok (f s), s).

Definition modify (f : State -> State) : M unit := fun s => (Ok tt, f s).

Definition try_catch {A : Type} (m : M A) (handler : Exn -> M A) : M A :=
  fun s => match m s with
           | (Ok a, s') => (Ok a, s')
           | (Throw e, s') => handler e s'
           end.

Notation "'let!' x ':=' m 'in' k" := (bind m (fun x => k))
  (at level 10, x name, m at level 100, k at level 200).
Notation "m1 '>>' m2" := (bind m1 (fun _ => m2))
  (at level 100, m2 at level 200, right associativity).

(** Reading a property of [null] or [undefined] is a TypeError. *)
Definition deref {A : Type} (o : option A) (msg : string) : M A :=
  match o with
  | Some a => ret a
  | None => throw (TypeError msg)
  end.

Fixpoint forEach {A : Type} (l : list A) (f : A -> M unit) : M unit :=
  match l with
  | [] => ret tt
  | a :: l' => f a >> forEach l' f
  end.

Definition call (c : Call) : M unit :=
  modify (fun s => set_trace (trace s ++ [c]) s).

(** ** Host DOM primitives

    The tree operations follow the DOM standard: a node has at most one
    parent, inserting a node takes it out of the tree it was in, inserting a
    node under itself or one of its descendants is a HierarchyRequestError,
    and removing or inserting relative to a node that is not a child of the
    parent is a NotFoundError.  The adoption of a node by the document of
    its new parent is not modelled: [ownerDocument] is set at creation. *)

Definition children_of (s : State) (p : ref) : list ref :=
  default [] (childNodes s !! p).

Definition firstChild (s : State) (p : ref) : option ref :=
  head (children_of s p).

(** [a] is [x] or one of its ancestors; the walk up the parent chain is
    bounded by the number of parent links in the store. *)
Fixpoint ancestor_within (fuel : nat) (par : gmap ref ref) (a x : ref) : bool :=
  bool_decide (a = x) ||
  match fuel with
  | 0 => false
  | S fuel' => match par !! x with
               | Some q => ancestor_within fuel' par a q
               | None => false
               end
  end.

Definition inclusive_ancestor (s : State) (a x : ref) : bool :=
  ancestor_within (size (parentNode s)) (parentNode s) a x.

(** The DOM "remove" step: take [child] out of its parent's child list. *)
Definition unlink (child : ref) (s : State) : State :=
  match parentNode s !! child with
  | Some q =>
      set_parentNode (delete child (parentNode s))
        (set_childNodes
           (<[q := filter (fun c => c <> child) (children_of s q)]> (childNodes s)) s)
  | None => s
  end.

Definition link_last (parent child : ref) (s : State) : State :=
  set_parentNode (<[child := parent]> (parentNode s))
    (set_childNodes (<[parent := children_of s parent ++ [child]]> (childNodes s)) s).

Fixpoint insert_before (reference node : ref) (l : list ref) : list ref :=
  match l with
  | [] => [node]
  | c :: l' => if decide (c = reference) then node :: c :: l'
               else c :: insert_before reference node l'
  end.

Definition link_before (parent node reference : ref) (s : State) : State :=
  set_parentNode (<[node := parent]> (parentNode s))
    (set_childNodes
       (<[parent := insert_before reference node (children_of s parent)]>
          (childNodes s)) s).

Definition removeChild (parent child : ref) : M unit :=
  let! par := gets (fun s => parentNode s !! child) in
  if decide (par = Some parent) then modify (unlink child)
  else throw NotFoundError.

Definition appendChild (parent child : ref) : M unit :=
  let! cyclic := gets (fun s => inclusive_ancestor s child parent) in
  if cyclic then throw HierarchyRequestError
  else modify (fun s => link_last parent child (unlink child s)).

Definition insertBefore (parent node reference : ref) : M unit :=
  let! cyclic := gets (fun s => inclusive_ancestor s node parent) in
  if cyclic then throw HierarchyRequestError
  else
    let! par := gets (fun s => parentNode s !! reference) in
    if decide (par = Some parent) then
      if decide (node = reference) then ret tt
      else modify (fun s => link_before parent node reference (unlink node s))
    else throw NotFoundError.

(** [document.createElement] and [createElementNS]: a fresh node owned by
    the document, not yet in any tree. *)
Definition createElement (document : ref) (tag : string) : M ref :=
  let! r := gets next in
  modify (fun s =>
    set_next (S r)
      (set_tagName (<[r := tag]> (tagName s))
         (set_ownerDocument (<[r := document]> (ownerDocument s)) s))) >>
  ret r.

Definition createElementNS (document : ref) (namespaceURI tag : string) : M ref :=
  createElement document tag.

Definition setAttribute (node : ref) (name value : string) : M unit :=
  modify (fun s => set_attributes (<[(node, name) := value]> (attributes s)) s).

Definition set_style (node : ref) (property : string) (v : StyleValue) : M unit :=
  modify (fun s => set_styles (<[(node, property) := v]> (styles s)) s).

Definition addEventListener (target : ref) (type : string) (h : Handler)
    (capture : bool) : M unit :=
  modify (fun s =>
    set_domListeners
      (domListeners s ++
         [{| l_target := target; l_type := type; l_handler := h;
             l_capture := capture |}]) s).

(** ** Collaborating modules *)

Definition console_error (msg : string) : M unit := call (ConsoleError msg).

Definition console_exception (e : Exn) : M unit := call (ConsoleException e).

(** Modelled from the spec: [setTimeout] of the timers module.  The retry is
    "a rescheduled callback, not a blocking wait": the callback and its
    arguments are queued and control returns at once. *)
Definition setTimeout (task : Task) (ms : nat) : M unit :=
  modify (fun s => set_timers (timers s ++ [{| delay := ms; callback := task |}]) s).

(** Modelled from the spec: [on] and [off] of the system event bus, which
    the spec gives as "[on(eventName, handler)] / [off(eventName, handler)]
    / [emit(eventName, {subject})], process-wide, synchronous dispatch".  A
    handler is registered under a name at most once, and [off] leaves no
    registration of it under that name; both calls are recorded in the
    trace. *)
Definition events_on (type : string) (o : Observer) : M unit :=
  call (Subscribe type o) >>
  modify (fun s =>
    if decide ((type, o) ∈ observers s) then s
    else set_observers (observers s ++ [(type, o)]) s).

Definition events_off (type : string) (o : option Observer) : M unit :=
  call (Unsubscribe type o) >>
  match o with
  | Some o' =>
      modify (fun s =>
        set_observers (filter (fun r => r <> (type, o')) (observers s)) s)
  | None => ret tt
  end.

(** Modelled from the spec: [swapFrameLoaders] of the frame module, which
    "can swap the live navigation session between two frame instances
    without reloading content", and which can fail ("frame-swap-failure",
    "a swap failure is logged but does not block the visibility event"):
    when the host makes the swap fail the error is thrown and nothing has
    changed, otherwise the two frames exchange their content documents. *)
Definition put_contentDocument (frame : ref) (d : option ref)
    (m : gmap ref ref) : gmap ref ref :=
  match d with
  | Some d' => <[frame := d']> m
  | None => delete frame m
  end.

Definition swapFrameLoaders (a b : ref) : M unit :=
  let! failure := gets (fun s => swapFails (host s) a b) in
  match failure with
  | Some error => throw error
  | None =>
      modify (fun s =>
        let da := contentDocument s !! a in
        let db := contentDocument s !! b in
        set_contentDocument
          (put_contentDocument b da (put_contentDocument a db (contentDocument s)))
          s)
  end.

(** Modelled from the spec: [create] of the frame module, which "creates a
    content frame with a fixed configuration".  The frame is created in the
    document of [target] and appended to it ([make] relies on the panel being
    "a parent of viewFrame", and [dispose] on the background frame having a
    parent); the configuration is recorded in the trace. *)
Definition createFrame (target : ref) (options : FrameOptions) : M ref :=
  let! document := gets (fun s => ownerDocument s !! target) in
  let! document := deref document "target.ownerDocument is undefined" in
  let! frame :=
    createElement document (if browser options then "browser" else "iframe") in
  setAttribute frame "type" "content" >>
  setAttribute frame "src" (uri options) >>
  appendChild target frame >>
  call (CreateFrame frame options) >>
  ret frame.

(** ** The module *)

Definition XUL_NS : string :=
  "http://www.mozilla.org/keymaster/gatekeeper/there.is.only.xul".

Definition isOpen (s : State) (panel : ref) : bool :=
  bool_decide (state (host s) panel = "open").

Definition close (panel : ref) : M unit :=
  let! hidePopup := gets (fun s => hasHidePopup (host s) panel) in
  if hidePopup then call (HidePopup panel) else ret tt.

(** [panel.firstChild.style[property] = v] *)
Definition set_firstChild_style (panel : ref) (property : string)
    (v : StyleValue) : M unit :=
  let! frame := gets (fun s => firstChild s panel) in
  let! frame := deref frame "panel.firstChild is null" in
  set_style frame property v.

Definition resize (panel : ref) (width height : num) : M unit :=
  set_firstChild_style panel "width" (CssPx width) >>
  set_firstChild_style panel "height" (CssPx height).

Definition shimDefaultStyle (panel : ref) : M unit :=
  let! document := gets (fun s => ownerDocument s !! panel) in
  forEach ["panel-inner-arrowcontent"; "panel-arrowcontent"] (fun value =>
    let! document := deref document "document is undefined" in
    let! node := gets (fun s =>
      getAnonymousElementByAttribute (host s) document panel "class" value) in
    match node with
    | Some node' => set_style node' "padding" (CssNumber (num_of_Z 0))
    | None => ret tt
    end).

Definition two : num := num_of_Z 2.

(** The position token for an anchor whose top edge is at [screenY]. *)
Definition position_token (screenY : num) (scr : Screen) (width height : num)
    : string :=
  let vertical :=
    if num_gt screenY (num_add (num_div (availHeight scr) two) height)
    then "top" else "bottom" in
  let horizontal :=
    if num_gt screenY (num_add (num_div (availWidth scr) two) width)
    then "left" else "right" in
  let verticalInverse := if String.eqb vertical "top" then "bottom" else "top" in
  vertical +:+ "center " +:+ verticalInverse +:+ horizontal.

Definition anchor_screenX (rect : Rect) (window : Window) : num :=
  num_add (rect_left rect)
    (num_mul (mozInnerScreenX window) (mozScreenPixelsPerCSSPixel window)).

Definition anchor_screenY (rect : Rect) (window : Window) : num :=
  num_add (rect_top rect)
    (num_mul (mozInnerScreenY window) (mozScreenPixelsPerCSSPixel window)).

Definition display (panel : ref) (width height : num) (anchor : option ref)
    : M unit :=
  let! document := gets (fun s => ownerDocument s !! panel) in
  shimDefaultStyle panel >>
  let! placement :=
    match anchor with
    | None =>
        let! document := deref document "document is undefined" in
        let! root := gets (fun s => documentElement (host s) document) in
        let! root := deref root "document.documentElement is null" in
        let! cw := gets (fun s => clientWidth (host s) root) in
        let! ch := gets (fun s => clientHeight (host s) root) in
        ret (None,
             Some (num_sub (num_div cw two) (num_div width two)),
             Some (num_sub (num_div ch two) (num_div height two)))
    | Some anchor' =>
        let! rect := gets (fun s => getBoundingClientRect (host s) anchor') in
        let! adoc := gets (fun s => ownerDocument s !! anchor') in
        let! adoc := deref adoc "anchor.ownerDocument is null" in
        let! window := gets (fun s => defaultView (host s) adoc) in
        let! window := deref window "window is null" in
        let screenY := anchor_screenY rect window in
        let position := position_token screenY (screen window) width height in
        setAttribute panel "flip" "both" >>
        ret (Some position, None, None)
    end in
  let '(position, x, y) := placement in
  set_firstChild_style panel "width" (CssPx width) >>
  set_firstChild_style panel "height" (CssPx height) >>
  let! openPopup := gets (fun s => hasOpenPopup (host s) panel) in
  if openPopup then call (OpenPopup panel anchor position x y)
  else throw (TypeError "panel.openPopup is not a function").

Definition open (panel : ref) (width height : num) (anchor : option ref)
    : M unit :=
  let! openPopup := gets (fun s => hasOpenPopup (host s) panel) in
  if negb openPopup then setTimeout (OpenTask panel width height anchor) 50
  else display panel width height anchor.

Definition detach (panel : ref) : M unit :=
  let! parent := gets (fun s => parentNode s !! panel) in
  match parent with
  | Some parent' => removeChild parent' panel
  | None => ret tt
  end.

Definition default_document (document : option ref) : M ref :=
  match document with
  | Some d => ret d
  | None =>
      let! w := gets (fun s => getMostRecentBrowserWindow (host s)) in
      deref w "getMostRecentBrowserWindow() is null"
  end.

Definition attach (panel : ref) (document : option ref) : M unit :=
  let! document := default_document document in
  let! container := gets (fun s => getElementById (host s) document "mainPopupSet") in
  let! parent := gets (fun s => parentNode s !! panel) in
  if decide (container <> parent) then
    detach panel >>
    let! container := gets (fun s => getElementById (host s) document "mainPopupSet") in
    let! container := deref container "document.getElementById(...) is null" in
    appendChild container panel
  else ret tt.

Definition show (panel : ref) (width height : num) (focus : bool)
    (anchor : option ref) : M unit :=
  setAttribute panel "noautofocus" (if negb focus then "true" else "false") >>
  let! window := gets (fun s =>
    match anchor with
    | Some a => getOwnerBrowserWindow (host s) a
    | None => None
    end) in
  let! document := default_document window in
  attach panel (Some document) >>
  open panel width height anchor.

Definition setupPanelFrame (frame : ref) : M unit :=
  setAttribute frame "flex" "1" >>
  setAttribute frame "transparent" "transparent" >>
  setAttribute frame "showcaret" "true" >>
  setAttribute frame "autocompleteenabled" "true" >>
  let! platform := gets (fun s => platform (host s)) in
  if decide (platform = "darwin") then
    set_style frame "borderRadius" (CssText "6px") >>
    set_style frame "padding" (CssText "1px")
  else ret tt.

Definition EVENT_NAMES (type : string) : option string :=
  if decide (type = "popupshowing") then Some "sdk-panel-show"
  else if decide (type = "popuphiding") then Some "sdk-panel-hide"
  else if decide (type = "popupshown") then Some "sdk-panel-shown"
  else if decide (type = "popuphidden") then Some "sdk-panel-hidden"
  else if decide (type = "document-element-inserted")
       then Some "sdk-panel-content-changed"
  else if decide (type = "DOMContentLoaded") then Some "sdk-panel-content-loaded"
  else if decide (type = "load") then Some "sdk-panel-document-loaded"
  else None.

Definition getContentFrame (s : State) (panel : ref) : option ref :=
  if isOpen s panel then firstChild s panel else panel_backgroundFrame s !! panel.

Definition getContentDocument (panel : ref) : M (option ref) :=
  let! frame := gets (fun s => getContentFrame s panel) in
  let! frame := deref frame "getContentFrame(...) is null" in
  gets (fun s => contentDocument s !! frame).

Definition setURL (panel : ref) (url : string) : M unit :=
  let! frame := gets (fun s => getContentFrame s panel) in
  let! frame := deref frame "getContentFrame(...) is null" in
  setAttribute frame "src" url.

(** The themed wrapper node of the panel, under its current class or the one
    it had before bug 764755, and the node of the content document that
    receives the style: the head, or the root element when there is no
    head. *)
Definition themed_node (h : Host) (document panel : ref) : option ref :=
  match getAnonymousElementByAttribute h document panel
          "class" "panel-arrowcontent" with
  | Some n => Some n
  | None => getAnonymousElementByAttribute h document panel
              "class" "panel-inner-arrowcontent"
  end.

Definition style_container (h : Host) (contentDoc : ref) : option ref :=
  match doc_head h contentDoc with
  | Some hd => Some hd
  | None => documentElement h contentDoc
  end.

Definition STYLE_ID : string := "sdk-panel-style".

Definition style (panel : ref) : M unit :=
  try_catch
    (let! document := gets (fun s => ownerDocument s !! panel) in
     let! contentDocument := getContentDocument panel in
     let! document := deref document "document is undefined" in
     let! window := gets (fun s => defaultView (host s) document) in
     let! node := gets (fun s => themed_node (host s) document panel) in
     let! window := deref window "window is null" in
     let! node := deref node "getComputedStyle: argument 1 is not an object" in
     let! color := gets (fun s => getComputedStyle (host s) node "color") in
     let! contentDocument := deref contentDocument "contentDocument is null" in
     let! style := createElement contentDocument "style" in
     modify (fun s => set_nodeId (<[style := STYLE_ID]> (nodeId s)) s) >>
     modify (fun s =>
       set_textContent
         (<[style := "body { color: " +:+ color +:+ "; }"]> (textContent s)) s) >>
     let! container := gets (fun s => style_container (host s) contentDocument) in
     let! container := deref container "container is null" in
     let! first := gets (fun s => firstChild s container) in
     match first with
     | Some first' => insertBefore container style first'
     | None => appendChild container style
     end)
    (fun error =>
       console_error "Unable to apply panel style" >>
       console_exception error).

(** ** Event handlers and the event bus *)

(** The body of the closure [onContentChange] of [make]; [emit] is the bus
    it republishes on. *)
Definition onContentChange (emit : option string -> ref -> M unit) (panel : ref)
    (type : option string) (subject : ref) : M unit :=
  let document := subject in
  let! current := getContentDocument panel in
  if decide (Some document = current) then
    let! view := gets (fun s => defaultView (host s) document) in
    match view with
    | Some _ => emit (type ≫= EVENT_NAMES) panel
    | None => ret tt
    end
  else ret tt.

Definition run_observer (emit : option string -> ref -> M unit) (o : Observer)
    (type : option string) (subject : ref) : M unit :=
  match o with
  | Closure_onContentChange panel => onContentChange emit panel type subject
  end.

(** Modelled from the spec: [emit] of the system event bus, "process-wide,
    synchronous dispatch".  The emission is recorded, then every handler
    registered under the name is called in turn, each call being recorded
    before the handler runs.  A handler may emit in turn; [fuel] is the
    depth of call stack left, and running out of it is the engine's "too
    much recursion" error. *)
Fixpoint events_emit (fuel : nat) (type : option string) (subject : ref)
    : M unit :=
  call (Emit type subject) >>
  let! registered := gets (fun s =>
    filter (fun r => Some r.1 = type) (observers s)) in
  forEach registered (fun r =>
    match fuel with
    | 0 => throw (InternalError "too much recursion")
    | S fuel' =>
        call (Notify r.2 type subject) >>
        run_observer (events_emit fuel') r.2 type subject
    end).

Definition onDisplayChange (fuel : nat) (panel backgroundFrame viewFrame : ref)
    (type : string) : M unit :=
  try_catch (swapFrameLoaders backgroundFrame viewFrame)
            (fun error => console_exception error) >>
  events_emit fuel (EVENT_NAMES type) panel.

Definition onContentReady (fuel : nat) (panel : ref) (type : string)
    (target : ref) : M unit :=
  let! current := getContentDocument panel in
  if decide (Some target = current) then
    style panel >>
    events_emit fuel (EVENT_NAMES type) panel
  else ret tt.

Definition onContentLoad (fuel : nat) (panel : ref) (type : string)
    (target : ref) : M unit :=
  let! current := getContentDocument panel in
  if decide (Some target = current) then
    events_emit fuel (EVENT_NAMES type) panel
  else ret tt.

Definition onPanelStateChange (fuel : nat) (panel : ref) (type : string)
    : M unit :=
  events_emit fuel (EVENT_NAMES type) panel.

Definition run_handler (fuel : nat) (h : Handler) (type : string) (target : ref)
    : M unit :=
  match h with
  | Closure_onDisplayChange panel backgroundFrame viewFrame =>
      onDisplayChange fuel panel backgroundFrame viewFrame type
  | Closure_onContentReady panel => onContentReady fuel panel type target
  | Closure_onContentLoad panel => onContentLoad fuel panel type target
  | Closure_onPanelStateChange panel => onPanelStateChange fuel panel type
  end.

(** The host delivers an event of the given type and target to the
    listeners registered on [node]. *)
Definition dispatchEvent (fuel : nat) (node : ref) (type : string)
    (target : ref) : M unit :=
  let! registered := gets (fun s =>
    filter (fun l => l_target l = node /\ l_type l = type) (domListeners s)) in
  forEach registered (fun l => run_handler fuel (l_handler l) type target).

(** The host runs the oldest pending timer. *)
Definition run_timer : M unit :=
  let! pending := gets timers in
  match pending with
  | [] => ret tt
  | t :: rest =>
      modify (set_timers rest) >>
      match callback t with
      | OpenTask panel width height anchor => open panel width height anchor
      end
  end.

(** Between two turns of the event loop the host may change what it owns
    (construct the panel's binding, say): [retries hs] lets the host move to
    each of the states [hs] in turn and run the oldest pending timer
    there. *)
Definition host_step (h : Host) : M unit := modify (set_host h).

Fixpoint retries (hs : list Host) : M unit :=
  match hs with
  | [] => ret tt
  | h :: hs' => host_step h >> run_timer >> retries hs'
  end.

(** ** Creation and disposal *)

Definition frameOptions : FrameOptions :=
  {| allowJavascript := true;
     allowPlugins := true;
     allowAuth := true;
     allowWindowControl := false;
     browser := false;
     uri := "data:text/plain;charset=utf-8," |}.

Definition make (document : option ref) : M ref :=
  let! document := default_document document in
  let! panel := createElementNS document XUL_NS "panel" in
  setAttribute panel "type" "arrow" >>
  attach panel (Some document) >>
  let! addon := gets (fun s => addonWindow (host s)) in
  let! backgroundFrame := createFrame addon frameOptions in
  setupPanelFrame backgroundFrame >>
  let! viewFrame := createFrame panel frameOptions in
  setupPanelFrame viewFrame >>
  addEventListener panel "popupshowing"
    (Closure_onDisplayChange panel backgroundFrame viewFrame) false >>
  addEventListener panel "popuphiding"
    (Closure_onDisplayChange panel backgroundFrame viewFrame) false >>
  addEventListener panel "popupshown" (Closure_onPanelStateChange panel) false >>
  addEventListener panel "popuphidden" (Closure_onPanelStateChange panel) false >>
  addEventListener panel "DOMContentLoaded" (Closure_onContentReady panel) true >>
  addEventListener backgroundFrame "DOMContentLoaded"
    (Closure_onContentReady panel) true >>
  addEventListener panel "load" (Closure_onContentLoad panel) true >>
  addEventListener backgroundFrame "load" (Closure_onContentLoad panel) true >>
  events_on "document-element-inserted" (Closure_onContentChange panel) >>
  modify (fun s =>
    set_panel_backgroundFrame
      (<[panel := backgroundFrame]> (panel_backgroundFrame s)) s) >>
  modify (fun s =>
    set_panel_onContentChange
      (<[panel := Closure_onContentChange panel]> (panel_onContentChange s)) s) >>
  ret panel.

Definition dispose (panel : ref) : M unit :=
  let! frame := gets (fun s => panel_backgroundFrame s !! panel) in
  let! frame := deref frame "panel.backgroundFrame is null" in
  let! parent := gets (fun s => parentNode s !! frame) in
  let! parent := deref parent "panel.backgroundFrame.parentNode is null" in
  removeChild parent frame >>
  modify (fun s =>
    set_panel_backgroundFrame (delete panel (panel_backgroundFrame s)) s) >>
  let! handler := gets (fun s => panel_onContentChange s !! panel) in
  events_off "document-element-inserted" handler >>
  modify (fun s =>
    set_panel_onContentChange (delete panel (panel_onContentChange s)) s) >>
  detach panel.

(** ** Well-formed trees and counting

    The child lists and the parent links describe the same tree, and no node
    is listed twice. *)
Definition wf_tree (s : State) : Prop :=
  (forall c q : ref, parentNode s !! c = Some q <-> c ∈ children_of s q) /\
  (forall q : ref, NoDup (children_of s q)).

(** Nodes numbered from [next] on do not exist yet: they are in no tree. *)
Definition fresh_from_next (s : State) : Prop :=
  forall c q : ref, parentNode s !! c = Some q -> c < next s /\ q < next s.

(** The same two properties in a form that can be decided by computation. *)
Definition wf_tree_check (s : State) : Prop :=
  map_Forall (fun c q => c ∈ children_of s q) (parentNode s) /\
  map_Forall (fun q l => NoDup l /\ Forall (fun c => parentNode s !! c = Some q) l)
    (childNodes s).

Definition fresh_from_next_check (s : State) : Prop :=
  map_Forall (fun c q => c < next s /\ q < next s) (parentNode s).

(** The style nodes the module has injected among the children of a node. *)
Definition is_injected_style (s : State) (r : ref) : bool :=
  bool_decide (nodeId s !! r = Some STYLE_ID).

Definition injected_styles (s : State) (container : ref) : list ref :=
  List.filter (is_injected_style s) (children_of s container).

(** [n] calls of [style] in a row. *)
Fixpoint style_times (n : nat) (panel : ref) : M unit :=
  match n with
  | 0 => ret tt
  | S n' => style panel >> style_times n' panel
  end.

(** ** Vocabulary of the properties *)

(** A computation keeps [f] when [f] reads the same in the store it leaves,
    whatever the outcome. *)
Definition keeps {A B : Type} (f : State -> B) (m : M A) : Prop :=
  forall s r s', m s = (r, s') -> f s' = f s.

(** The tree operations touch the parent links and the child lists only. *)
Definition tree_independent {B : Type} (f : State -> B) : Prop :=
  forall s pn cn, f (set_parentNode pn (set_childNodes cn s)) = f s.

Definition contentReady_listener (target panel : ref) : Listener :=
  {| l_target := target; l_type := "DOMContentLoaded";
     l_handler := Closure_onContentReady panel; l_capture := true |}.

(** From [s] to [s'] the observer table is the same and the trace has only
    grown, every recorded notification being of a handler registered under
    the name of the event. *)
Definition notifies_registered (s0 s s' : State) : Prop :=
  observers s = observers s0 ->
  observers s' = observers s0 /\
  exists new,
    trace s' = trace s ++ new /\
    forall o t x, Notify o t x ∈ new ->
      exists t', t = Some t' /\ (t', o) ∈ observers s0.

(** The panel can be styled: the tree is well formed, the nodes in play
    exist, the themed node and its window are there, and the content
    document has the container [container], which is not the panel. *)
Definition stylable (s : State) (panel container : ref) : Prop :=
  wf_tree s /\ fresh_from_next s /\
  panel < next s /\ container < next s /\ container <> panel /\
  exists document frame contentDoc,
    ownerDocument s !! panel = Some document /\
    is_Some (defaultView (host s) document) /\
    is_Some (themed_node (host s) document panel) /\
    getContentFrame s panel = Some frame /\
    contentDocument s !! frame = Some contentDoc /\
    style_container (host s) contentDoc = Some container.

Definition link_first (parent node : ref) (s : State) : State :=
  set_parentNode (<[node := parent]> (parentNode s))
    (set_childNodes (<[parent := node :: children_of s parent]> (childNodes s)) s).

(** A node that is in no tree yet, and is numbered above all that are. *)
Definition above_tree (s : State) (node : ref) : Prop :=
  forall c q, parentNode s !! c = Some q -> c < node /\ q < node.

(** The store after [style] has created and labelled its node, before the
    node is inserted. *)
Definition with_style_node (contentDoc : ref) (color : string) (s : State)
    : State :=
  let node := next s in
  let s1 := set_next (S node)
              (set_tagName (<[node := "style"]> (tagName s))
                 (set_ownerDocument (<[node := contentDoc]> (ownerDocument s)) s)) in
  let s2 := set_nodeId (<[node := STYLE_ID]> (nodeId s1)) s1 in
  set_textContent
    (<[node := "body { color: " +:+ color +:+ "; }"]> (textContent s2)) s2.

(** ** A browser window to run the module in

    The chrome document [0] has the root element [1] and the popup container
    [2]; the add-on window's document [3] has the root [4]; [5] is an element
    of the chrome document that serves as anchor; [6] and [9] are content
    documents with the heads [7] and [10]; [8] is the anonymous
    "panel-arrowcontent" node of the panel; [11] is a second popup
    container, in the document [12].  Nodes created by the module are
    numbered from [100]. *)

Definition sample_window : Window :=
  {| mozScreenPixelsPerCSSPixel := num_of_Z 1;
     mozInnerScreenX := num_of_Z 10;
     mozInnerScreenY := num_of_Z 80;
     screen := {| availWidth := num_of_Z 1280; availHeight := num_of_Z 800 |} |}.

Definition sample_host (popupState : string) (bound : bool) : Host :=
  {| documentElement := fun d =>
       if decide (d = 0) then Some 1 else if decide (d = 3) then Some 4 else None;
     doc_head := fun d =>
       if decide (d = 6) then Some 7 else if decide (d = 9) then Some 10 else None;
     defaultView := fun d =>
       if decide (d = 0 \/ d = 6 \/ d = 9) then Some sample_window else None;
     getElementById := fun d id =>
       if decide (id = "mainPopupSet") then
         if decide (d = 0) then Some 2 else if decide (d = 12) then Some 11 else None
       else None;
     getAnonymousElementByAttribute := fun d node attr value =>
       if decide (d = 0 /\ node = 100 /\ attr = "class" /\ value = "panel-arrowcontent")
       then Some 8 else None;
     clientWidth := fun _ => num_of_Z 1000;
     clientHeight := fun _ => num_of_Z 600;
     getBoundingClientRect := fun _ =>
       {| rect_left := num_of_Z 200; rect_top := num_of_Z 20 |};
     getComputedStyle := fun _ _ => "rgb(0, 0, 0)";
     state := fun _ => popupState;
     hasOpenPopup := fun _ => bound;
     hasHidePopup := fun _ => bound;
     getMostRecentBrowserWindow := Some 0;
     getOwnerBrowserWindow := fun _ => Some 0;
     addonWindow := 4;
     platform := "linux";
     swapFails := fun _ _ => None |}.

Definition sample_state (popupState : string) (bound : bool) : State :=
  {| parentNode := {[ 1 := 0; 2 := 1; 5 := 1; 4 := 3; 7 := 6; 10 := 9; 11 := 12 ]};
     childNodes := {[ 0 := [1]; 1 := [2; 5]; 3 := [4]; 6 := [7]; 9 := [10];
                      12 := [11] ]};
     ownerDocument := {[ 1 := 0; 2 := 0; 5 := 0; 4 := 3; 7 := 6; 10 := 9; 11 := 12 ]};
     tagName := ∅;
     nodeId := {[ 2 := "mainPopupSet"; 11 := "mainPopupSet" ]};
     textContent := ∅;
     attributes := ∅;
     styles := ∅;
     contentDocument := ∅;
     panel_backgroundFrame := ∅;
     panel_onContentChange := ∅;
     domListeners := [];
     observers := [];
     timers := [];
     trace := [];
     next := 100;
     host := sample_host popupState bound |}.

(** The state after [make] has created the panel [100] with the background
    frame [101] and the view frame [102], and the host has loaded the
    content document [6] into the background frame and [9] into the view
    frame. *)
Definition made_state (popupState : string) (bound : bool) : State :=
  let s := (make (Some 0) (sample_state popupState bound)).2 in
  set_contentDocument {[ 101 := 6; 102 := 9 ]} s.

(** A host that is like [h] but makes every swap of frame loaders fail
    with the error [e]. *)
Definition with_failing_swap (e : Exn) (h : Host) : Host :=
  {| documentElement := documentElement h;
     doc_head := doc_head h;
     defaultView := defaultView h;
     getElementById := getElementById h;
     getAnonymousElementByAttribute := getAnonymousElementByAttribute h;
     clientWidth := clientWidth h;
     clientHeight := clientHeight h;
     getBoundingClientRect := getBoundingClientRect h;
     getComputedStyle := getComputedStyle h;
     state := state h;
     hasOpenPopup := hasOpenPopup h;
     hasHidePopup := hasHidePopup h;
     getMostRecentBrowserWindow := getMostRecentBrowserWindow h;
     getOwnerBrowserWindow := getOwnerBrowserWindow h;
     addonWindow := addonWindow h;
     platform := platform h;
     swapFails := fun _ _ => Some e |}.

(** The attributes and the styles of a frame once [setupPanelFrame] has run
    on it, the styles depending on the platform. *)
Definition panel_frame_attributes (frame : ref)
    (m : gmap (ref * string) string) : gmap (ref * string) string :=
  <[(frame, "autocompleteenabled") := "true"]>
    (<[(frame, "showcaret") := "true"]>
       (<[(frame, "transparent") := "transparent"]>
          (<[(frame, "flex") := "1"]> m))).

Definition panel_frame_styles (platform : string) (frame : ref)
    (m : gmap (ref * string) StyleValue) : gmap (ref * string) StyleValue :=
  if decide (platform = "darwin") then
    <[(frame, "padding") := CssText "1px"]>
      (<[(frame, "borderRadius") := CssText "6px"]> m)
  else m.

(** The attributes of a frame that the frame module has created with the
    given options. *)
Definition created_frame_attributes (frame : ref) (options : FrameOptions)
    (m : gmap (ref * string) string) : gmap (ref * string) string :=
  <[(frame, "src") := uri options]> (<[(frame, "type") := "content"]> m).

(** * Properties *)

Implicit Types (s : State) (panel : ref).

(** ** Reasoning about computations *)

Lemma bind_ok_inv {A B : Type} (m : M A) (k : A -> M B) s (b : B) s' :
  bind m k s = (Ok b, s') ->
  exists a s1, m s = (Ok a, s1) /\ k a s1 = (Ok b, s').
Proof.
  unfold bind. destruct (m s) as [[a|e] s1]; intros H.
  - exists a, s1. split; [reflexivity | exact H].
  - discriminate.
Qed.

Lemma bind_ok {A B : Type} (m : M A) (k : A -> M B) s (a : A) s1 :
  m s = (Ok a, s1) -> bind m k s = k a s1.
Proof. intros H. unfold bind. rewrite H. reflexivity. Qed.

(** Unfold the monad and the primitives down to plain functions on states. *)
Ltac munfold :=
  unfold set_firstChild_style, setAttribute, set_style, call, console_error,
    console_exception, setTimeout, deref, try_catch, bind, ret, throw, gets,
    modify in *.

(** ** isOpen, getContentFrame, getContentDocument *)

(** C9. [isOpen] holds exactly when [panel.state] is "open"; the content
    frame is the view frame ([panel.firstChild]) when the panel is open and
    the background frame otherwise, so where the two frames differ it is the
    view frame exactly when the panel is open; and the content document is the
    content document of that frame. *)
Theorem getContentFrame_follows_isOpen s panel :
  (isOpen s panel = true <-> state (host s) panel = "open") /\
  (isOpen s panel = true -> getContentFrame s panel = firstChild s panel) /\
  (isOpen s panel = false ->
   getContentFrame s panel = panel_backgroundFrame s !! panel) /\
  (firstChild s panel <> panel_backgroundFrame s !! panel ->
   (getContentFrame s panel = firstChild s panel <-> isOpen s panel = true) /\
   (getContentFrame s panel = panel_backgroundFrame s !! panel <->
    isOpen s panel = false)) /\
  (forall frame, getContentFrame s panel = Some frame ->
   getContentDocument panel s = (Ok (contentDocument s !! frame), s)).
Proof.
  unfold getContentFrame, isOpen.
  repeat split.
  - apply bool_decide_eq_true_1.
  - apply bool_decide_eq_true_2.
  - intros ->. reflexivity.
  - intros ->. reflexivity.
  - destruct (bool_decide _); [reflexivity | congruence].
  - intros ->. reflexivity.
  - destruct (bool_decide _); [congruence | reflexivity].
  - intros ->. reflexivity.
  - intros frame Hf. unfold getContentDocument. munfold.
    unfold getContentFrame, isOpen. rewrite Hf. reflexivity.
Qed.

(** ** close *)

(** C8. When the panel has no [hidePopup], [close] returns normally and
    leaves the store as it was, calling nothing; when it has one, [close]
    calls it, once, and does nothing else. *)
Theorem close_tolerates_missing_hidePopup s panel :
  (hasHidePopup (host s) panel = false -> close panel s = (Ok tt, s)) /\
  (hasHidePopup (host s) panel = true ->
   close panel s = (Ok tt, set_trace (trace s ++ [HidePopup panel]) s)).
Proof.
  unfold close. munfold. split; intros ->; reflexivity.
Qed.

(** ** display *)

Lemma position_token_cases (screenY : num) (scr : Screen) (width height : num) :
  let above := num_gt screenY (num_add (num_div (availHeight scr) two) height) in
  let beyond := num_gt screenY (num_add (num_div (availWidth scr) two) width) in
  let vertical := if above then "top" else "bottom" in
  let oppositeVertical := if above then "bottom" else "top" in
  let horizontal := if beyond then "left" else "right" in
  position_token screenY scr width height =
    vertical +:+ "center " +:+ oppositeVertical +:+ horizontal.
Proof.
  unfold position_token.
  destruct (num_gt screenY (num_add (num_div (availHeight scr) two) height));
    reflexivity.
Qed.

(** What [display] does when it is given an anchor and runs to its end. *)
Lemma display_anchor_inv s panel (width height : num) (anchor : ref) s' :
  display panel width height (Some anchor) s = (Ok tt, s') ->
  exists adoc window frame,
    ownerDocument s !! anchor = Some adoc /\
    defaultView (host s) adoc = Some window /\
    firstChild s panel = Some frame /\
    hasOpenPopup (host s) panel = true /\
    attributes s' = <[(panel, "flip") := "both"]> (attributes s) /\
    trace s' = trace s ++
      [OpenPopup panel (Some anchor)
         (Some (position_token
                  (anchor_screenY (getBoundingClientRect (host s) anchor) window)
                  (screen window) width height)) None None].
Proof.
  unfold display, shimDefaultStyle, forEach. munfold. simpl.
  intros H.
  repeat (case_match; simplify_eq/=); eauto 10.
Qed.

(** [display] runs to its end when the panel has an owner document, a first
    child and its [openPopup], and the anchor (if any) is in a window; the
    centred case needs the root element of the owner document instead. *)
Lemma display_anchor_runs s panel (width height : num) (anchor : ref)
    (document adoc : ref) (window : Window) (frame : ref) :
  ownerDocument s !! panel = Some document ->
  ownerDocument s !! anchor = Some adoc ->
  defaultView (host s) adoc = Some window ->
  firstChild s panel = Some frame ->
  hasOpenPopup (host s) panel = true ->
  exists s', display panel width height (Some anchor) s = (Ok tt, s').
Proof.
  unfold display, shimDefaultStyle, forEach. munfold.
  unfold firstChild, children_of. simpl.
  intros Hd Ha Hw Hf Ho. rewrite Hd. simpl.
  destruct (getAnonymousElementByAttribute _ _ _ _ "panel-inner-arrowcontent");
    destruct (getAnonymousElementByAttribute _ _ _ _ "panel-arrowcontent");
    simpl; rewrite Ha; simpl; rewrite Hw; simpl; rewrite Hf; simpl;
    rewrite Hf; simpl; rewrite Ho; eauto.
Qed.

Lemma display_centered_runs s panel (width height : num)
    (document root frame : ref) :
  ownerDocument s !! panel = Some document ->
  documentElement (host s) document = Some root ->
  firstChild s panel = Some frame ->
  hasOpenPopup (host s) panel = true ->
  exists s', display panel width height None s = (Ok tt, s').
Proof.
  unfold display, shimDefaultStyle, forEach. munfold.
  unfold firstChild, children_of. simpl.
  intros Hd Hr Hf Ho. rewrite Hd. simpl.
  destruct (getAnonymousElementByAttribute _ _ _ _ "panel-inner-arrowcontent");
    destruct (getAnonymousElementByAttribute _ _ _ _ "panel-arrowcontent");
    simpl; rewrite Hr; simpl; rewrite Hf; simpl;
    rewrite Hf; simpl; rewrite Ho; eauto.
Qed.

(** C1. With an anchor, the position token [display] hands to [openPopup]
    is [vertical + "center " + oppositeVertical + horizontal], where
    [vertical] is "top" iff the anchor's screen Y exceeds half the available
    height plus [height], and [horizontal] is "left" iff the anchor's screen Y
    (not X) exceeds half the available width plus [width]; above both
    thresholds the token is "topcenter bottomleft", above neither it is
    "bottomcenter topright". *)
Theorem display_anchor_position s panel (width height : num) (anchor : ref) s' :
  display panel width height (Some anchor) s = (Ok tt, s') ->
  exists adoc window,
    ownerDocument s !! anchor = Some adoc /\
    defaultView (host s) adoc = Some window /\
    let screenY :=
      num_add (rect_top (getBoundingClientRect (host s) anchor))
        (num_mul (mozInnerScreenY window) (mozScreenPixelsPerCSSPixel window)) in
    let above :=
      num_gt screenY
        (num_add (num_div (availHeight (screen window)) (num_of_Z 2)) height) in
    let beyond :=
      num_gt screenY
        (num_add (num_div (availWidth (screen window)) (num_of_Z 2)) width) in
    let vertical := if above then "top" else "bottom" in
    let oppositeVertical := if above then "bottom" else "top" in
    let horizontal := if beyond then "left" else "right" in
    let position := vertical +:+ "center " +:+ oppositeVertical +:+ horizontal in
    trace s' = trace s ++ [OpenPopup panel (Some anchor) (Some position) None None] /\
    (above = true -> beyond = true -> position = "topcenter bottomleft") /\
    (above = false -> beyond = false -> position = "bottomcenter topright").
Proof.
  intros H.
  destruct (display_anchor_inv _ _ _ _ _ _ H)
    as (adoc & window & frame & Hdoc & Hview & _ & _ & _ & Htrace).
  exists adoc, window. split; [exact Hdoc|]. split; [exact Hview|].
  cbv zeta. split; [|split].
  - rewrite Htrace, position_token_cases. reflexivity.
  - intros -> ->. reflexivity.
  - intros -> ->. reflexivity.
Qed.

(** What [display] does without an anchor when it runs to its end. *)
Lemma display_centered_inv s panel (width height : num) s' :
  display panel width height None s = (Ok tt, s') ->
  exists document root,
    ownerDocument s !! panel = Some document /\
    documentElement (host s) document = Some root /\
    attributes s' = attributes s /\
    trace s' = trace s ++
      [OpenPopup panel None None
         (Some (num_sub (num_div (clientWidth (host s) root) two)
                        (num_div width two)))
         (Some (num_sub (num_div (clientHeight (host s) root) two)
                        (num_div height two)))].
Proof.
  unfold display, shimDefaultStyle, forEach. munfold. simpl.
  intros H.
  repeat (case_match; simplify_eq/=); eauto 10.
Qed.

(** [display] sizes the first child of the panel, whatever the anchor. *)
Lemma display_sizes_firstChild s panel (width height : num) (anchor : option ref)
    s' frame :
  firstChild s panel = Some frame ->
  display panel width height anchor s = (Ok tt, s') ->
  styles s' !! (frame, "width") = Some (CssPx width) /\
  styles s' !! (frame, "height") = Some (CssPx height).
Proof.
  unfold display, shimDefaultStyle, forEach. munfold.
  unfold firstChild, children_of. simpl. intros Hf H.
  repeat (case_match; simplify_eq/=);
    (split; [rewrite lookup_insert_ne by congruence|]; apply lookup_insert_eq).
Qed.


(** ** resize *)

(** C3, amended. [resize] sets the width and the height of the style of
    [panel.firstChild] (the view frame) to [width + "px"] and [height + "px"],
    whether the panel is open or not, which is the resize [display] performs;
    it changes nothing else and calls nothing, so never [sizeTo]. *)
Theorem resize_sizes_firstChild s panel (width height : num) (frame : ref) :
  firstChild s panel = Some frame ->
  resize panel width height s =
    (Ok tt,
     set_styles (<[(frame, "height") := CssPx height]>
                   (<[(frame, "width") := CssPx width]> (styles s))) s) /\
  (forall s', resize panel width height s = (Ok tt, s') ->
     styles s' !! (frame, "width") = Some (CssPx width) /\
     styles s' !! (frame, "height") = Some (CssPx height) /\
     trace s' = trace s /\
     (forall p w h, SizeTo p w h ∈ trace s' -> SizeTo p w h ∈ trace s)) /\
  (forall anchor s', display panel width height anchor s = (Ok tt, s') ->
     styles s' !! (frame, "width") = Some (CssPx width) /\
     styles s' !! (frame, "height") = Some (CssPx height)).
Proof.
  intros Hf.
  assert (Hr : resize panel width height s =
    (Ok tt,
     set_styles (<[(frame, "height") := CssPx height]>
                   (<[(frame, "width") := CssPx width]> (styles s))) s)).
  { unfold resize. munfold. simpl. rewrite Hf. simpl. unfold firstChild in *.
    simpl. unfold children_of in *. simpl. rewrite Hf. reflexivity. }
  split; [exact Hr|]. split.
  - intros s' H. rewrite Hr in H. inversion H; subst; clear H. simpl.
    split; [rewrite lookup_insert_ne by congruence; apply lookup_insert_eq|].
    split; [apply lookup_insert_eq|]. split; [reflexivity|].
    intros p w h Hin. exact Hin.
  - intros anchor s' H. eapply display_sizes_firstChild; eauto.
Qed.

(** ** open *)

Lemma open_unavailable s panel (width height : num) (anchor : option ref) :
  hasOpenPopup (host s) panel = false ->
  open panel width height anchor s =
    (Ok tt,
     set_timers
       (timers s ++ [{| delay := 50; callback := OpenTask panel width height anchor |}])
       s).
Proof. intros H. unfold open. munfold. rewrite H. reflexivity. Qed.

Lemma open_available s panel (width height : num) (anchor : option ref) :
  hasOpenPopup (host s) panel = true ->
  open panel width height anchor s = display panel width height anchor s.
Proof. intros H. unfold open. munfold. rewrite H. reflexivity. Qed.

Lemma last_cons {A : Type} (a d : A) (l : list A) :
  List.last (a :: l) d = List.last l a.
Proof.
  revert a d. induction l as [|b l IH]; intros a d; [reflexivity|].
  change (List.last (a :: b :: l) d) with (List.last (b :: l) d).
  rewrite (IH b d), (IH b a). reflexivity.
Qed.

Lemma run_timer_cons s (t : Timer) (rest : list Timer) :
  timers s = t :: rest ->
  run_timer s =
    match callback t with
    | OpenTask panel width height anchor =>
        open panel width height anchor (set_timers rest s)
    end.
Proof.
  intros Ht. unfold run_timer, bind, gets, modify. rewrite Ht.
  destruct (callback t); reflexivity.
Qed.

Lemma retries_unavailable panel (width height : num) (anchor : option ref)
    (hs : list Host) :
  forall s,
    timers s = [{| delay := 50; callback := OpenTask panel width height anchor |}] ->
    Forall (fun h => hasOpenPopup h panel = false) hs ->
    retries hs s = (Ok tt, set_host (List.last hs (host s)) s).
Proof.
  induction hs as [|h hs IH]; intros s Ht Hall.
  - simpl. unfold ret. f_equal. destruct s; reflexivity.
  - inversion Hall as [|? ? Hh Hhs]; subst.
    rewrite last_cons.
    change (retries (h :: hs) s) with
      (bind (host_step h) (fun _ => bind run_timer (fun _ => retries hs)) s).
    rewrite (bind_ok _ _ s tt (set_host h s)) by reflexivity.
    erewrite bind_ok.
    2:{ rewrite (run_timer_cons (set_host h s) _ [] Ht). cbn [callback].
        apply open_unavailable. exact Hh. }
    rewrite IH; [|reflexivity|exact Hhs].
    f_equal. destruct s; simpl in *; subst; reflexivity.
Qed.


(** ** What always returns, and what only reads *)

(** [style] catches whatever its body throws: it always returns normally. *)
Lemma style_returns s panel : exists s1, style panel s = (Ok tt, s1).
Proof.
  unfold style, try_catch.
  match goal with |- context [match ?b s with _ => _ end] =>
    destruct (b s) as [[[]|e] s1] end.
  - eauto.
  - unfold console_error, console_exception, call, bind, modify. eauto.
Qed.

Lemma getContentDocument_state s panel : (getContentDocument panel s).2 = s.
Proof.
  unfold getContentDocument. munfold.
  destruct (getContentFrame s panel); reflexivity.
Qed.

(** ** Frame properties: what a computation leaves alone *)

Lemma keeps_ret {A B : Type} (f : State -> B) (a : A) : keeps f (ret a).
Proof. intros s r s' H. inversion H. reflexivity. Qed.

Lemma keeps_throw {A B : Type} (f : State -> B) (e : Exn) :
  keeps f (throw e : M A).
Proof. intros s r s' H. inversion H. reflexivity. Qed.

Lemma keeps_gets {A B : Type} (f : State -> B) (g : State -> A) :
  keeps f (gets g).
Proof. intros s r s' H. inversion H. reflexivity. Qed.

Lemma keeps_deref {A B : Type} (f : State -> B) (o : option A) (msg : string) :
  keeps f (deref o msg).
Proof. destruct o; [apply keeps_ret | apply keeps_throw]. Qed.

Lemma keeps_modify {B : Type} (f : State -> B) (g : State -> State) :
  (forall s, f (g s) = f s) -> keeps f (modify g).
Proof. intros Hg s r s' H. inversion H. apply Hg. Qed.

Lemma keeps_bind {A B C : Type} (f : State -> C) (m : M A) (k : A -> M B) :
  keeps f m -> (forall a, keeps f (k a)) -> keeps f (bind m k).
Proof.
  intros Hm Hk s r s' H. unfold bind in H.
  destruct (m s) as [[a|e] s1] eqn:E.
  - rewrite (Hk a _ _ _ H). exact (Hm _ _ _ E).
  - inversion H; subst. exact (Hm _ _ _ E).
Qed.

Lemma keeps_try_catch {A B : Type} (f : State -> B) (m : M A)
    (handler : Exn -> M A) :
  keeps f m -> (forall e, keeps f (handler e)) -> keeps f (try_catch m handler).
Proof.
  intros Hm Hh s r s' H. unfold try_catch in H.
  destruct (m s) as [[a|e] s1] eqn:E.
  - inversion H; subst. exact (Hm _ _ _ E).
  - rewrite (Hh e _ _ _ H). exact (Hm _ _ _ E).
Qed.

Lemma keeps_forEach {A B : Type} (f : State -> B) (l : list A) (g : A -> M unit) :
  (forall a, keeps f (g a)) -> keeps f (forEach l g).
Proof.
  intros Hg. induction l as [|a l IH]; simpl.
  - apply keeps_ret.
  - apply keeps_bind; [apply Hg | intros _; exact IH].
Qed.

(** Break a computation into its steps; what remains is that each update
    leaves the observed part of the store alone. *)
Ltac keeps_step :=
  first
    [ apply keeps_ret | apply keeps_throw | apply keeps_gets | apply keeps_deref
    | apply keeps_bind; [|intros ?]
    | apply keeps_try_catch; [|intros ?]
    | apply keeps_forEach; intros ?
    | apply keeps_modify; intros ?; try reflexivity
    | case_match ].

Ltac keeps_tac := repeat keeps_step.

Lemma unlink_other_fields (child : ref) s :
  ownerDocument (unlink child s) = ownerDocument s /\
  tagName (unlink child s) = tagName s /\
  nodeId (unlink child s) = nodeId s /\
  textContent (unlink child s) = textContent s /\
  attributes (unlink child s) = attributes s /\
  styles (unlink child s) = styles s /\
  contentDocument (unlink child s) = contentDocument s /\
  panel_backgroundFrame (unlink child s) = panel_backgroundFrame s /\
  panel_onContentChange (unlink child s) = panel_onContentChange s /\
  domListeners (unlink child s) = domListeners s /\
  observers (unlink child s) = observers s /\
  timers (unlink child s) = timers s /\
  trace (unlink child s) = trace s /\
  next (unlink child s) = next s /\
  host (unlink child s) = host s.
Proof. unfold unlink. destruct (parentNode s !! child); repeat split. Qed.

Lemma removeChild_ok s (parent child : ref) :
  parentNode s !! child = Some parent ->
  removeChild parent child s = (Ok tt, unlink child s).
Proof.
  intros H. unfold removeChild, bind, gets, modify. rewrite H.
  destruct (decide (Some parent = Some parent)); [reflexivity | congruence].
Qed.

(** [detach] always returns, and leaves the panel without a parent. *)
Lemma detach_run s panel : detach panel s = (Ok tt, unlink panel s).
Proof.
  unfold detach, bind, gets.
  destruct (parentNode s !! panel) as [q|] eqn:Hq.
  - apply removeChild_ok. exact Hq.
  - unfold unlink. rewrite Hq. reflexivity.
Qed.

Lemma unlink_parent_self s (child : ref) :
  parentNode (unlink child s) !! child = None.
Proof.
  unfold unlink. destruct (parentNode s !! child) eqn:H; cbn.
  - apply lookup_delete_eq.
  - exact H.
Qed.

Lemma unlink_parent_other s (child x : ref) :
  x <> child -> parentNode (unlink child s) !! x = parentNode s !! x.
Proof.
  intros Hne. unfold unlink. destruct (parentNode s !! child); cbn.
  - apply lookup_delete_ne. congruence.
  - reflexivity.
Qed.

Lemma children_of_unlink s (child q : ref) :
  children_of (unlink child s) q =
    if decide (parentNode s !! child = Some q)
    then filter (fun c => c <> child) (children_of s q)
    else children_of s q.
Proof.
  unfold unlink. destruct (parentNode s !! child) as [q0|] eqn:H.
  - unfold children_of at 1. cbn.
    destruct (decide (Some q0 = Some q)) as [Heq|Hne].
    + inversion Heq; subst. rewrite lookup_insert_eq. reflexivity.
    + rewrite lookup_insert_ne by congruence. reflexivity.
  - destruct (decide (None = Some q)); [discriminate | reflexivity].
Qed.

Lemma elem_of_children_of_unlink s (child q x : ref) :
  x ∈ children_of (unlink child s) q ->
  x ∈ children_of s q /\ (parentNode s !! child = Some q -> x <> child).
Proof.
  rewrite children_of_unlink.
  destruct (decide (parentNode s !! child = Some q)) as [Heq|Hne].
  - intros Hin. apply list_elem_of_filter in Hin as [Hx Hin]. auto.
  - intros Hin. split; [exact Hin | intros; contradiction].
Qed.

Lemma tree_independent_unlink {B : Type} (f : State -> B) (child : ref) s :
  tree_independent f -> f (unlink child s) = f s.
Proof.
  intros Hf. unfold unlink. destruct (parentNode s !! child); [apply Hf | reflexivity].
Qed.

Ltac tree_tac Hf :=
  keeps_tac;
  try (unfold link_last, link_before; rewrite ?Hf);
  try (apply tree_independent_unlink, Hf).

Lemma keeps_attach {B : Type} (f : State -> B) panel (document : option ref) :
  tree_independent f -> keeps f (attach panel document).
Proof. intros Hf. unfold attach, default_document. tree_tac Hf. Qed.

Lemma tree_independent_domListeners : tree_independent domListeners.
Proof. intros s pn cn. reflexivity. Qed.

Lemma keeps_createFrame_domListeners (target : ref) (options : FrameOptions) :
  keeps domListeners (createFrame target options).
Proof.
  unfold createFrame. tree_tac tree_independent_domListeners.
Qed.

Lemma keeps_setupPanelFrame_domListeners (frame : ref) :
  keeps domListeners (setupPanelFrame frame).
Proof. unfold setupPanelFrame. keeps_tac. Qed.

(** Computations made of reads and of updates that leave [f] alone by
    computation. *)
Lemma keeps_default_document {B : Type} (f : State -> B) (document : option ref) :
  keeps f (default_document document).
Proof. unfold default_document. keeps_tac. Qed.

Lemma keeps_createElementNS_domListeners (document : ref) (ns tag : string) :
  keeps domListeners (createElementNS document ns tag).
Proof. unfold createElementNS, createElement. keeps_tac. Qed.

Lemma keeps_setAttribute_domListeners (node : ref) (name value : string) :
  keeps domListeners (setAttribute node name value).
Proof. unfold setAttribute. keeps_tac. Qed.

Lemma events_on_inv (type : string) (o : Observer) s r s' :
  events_on type o s = (r, s') ->
  r = Ok tt /\
  (type, o) ∈ observers s' /\
  domListeners s' = domListeners s /\
  panel_backgroundFrame s' = panel_backgroundFrame s /\
  panel_onContentChange s' = panel_onContentChange s /\
  parentNode s' = parentNode s.
Proof.
  unfold events_on, call, bind, modify. cbn beta iota.
  intros H. injection H as <- <-.
  split; [reflexivity|].
  destruct (decide _) as [Hin|Hnin]; cbn.
  - repeat split. exact Hin.
  - repeat split. apply elem_of_app. right.
    apply list_elem_of_singleton. reflexivity.
Qed.

(** ** make *)

Lemma createFrame_inv (target : ref) (options : FrameOptions) s (frame : ref) s' :
  createFrame target options s = (Ok frame, s') ->
  frame = next s /\ next s' = S (next s) /\
  parentNode s' !! frame = Some target /\
  (forall x, x <> frame -> parentNode s' !! x = parentNode s !! x).
Proof.
  unfold createFrame. intros H.
  apply bind_ok_inv in H as (od & s0 & H0 & H). inversion H0; subst; clear H0.
  apply bind_ok_inv in H as (doc & s1 & H1 & H).
  destruct (ownerDocument s0 !! target); inversion H1; subst; clear H1.
  apply bind_ok_inv in H as (f & s2 & H2 & H).
  unfold createElement, bind, gets, modify, ret in H2.
  inversion H2; subst; clear H2.
  apply bind_ok_inv in H as ([] & s3 & H3 & H). inversion H3; subst; clear H3.
  apply bind_ok_inv in H as ([] & s4 & H4 & H). inversion H4; subst; clear H4.
  apply bind_ok_inv in H as ([] & s5 & H5 & H).
  apply bind_ok_inv in H as ([] & s6 & H6 & H). inversion H6; subst; clear H6.
  inversion H; subst; clear H.
  unfold appendChild, bind, gets, modify in H5.
  destruct (inclusive_ancestor _ _ _); inversion H5; subst; clear H5.
  match goal with |- context [unlink ?c ?X] =>
    destruct (unlink_other_fields c X) as (_&_&_&_&_&_&_&_&_&_&_&_&_&Hnext&_);
    pose proof (unlink_parent_other X c) as Hother
  end.
  split; [reflexivity|]. split; [cbn in *; exact Hnext|].
  split; [cbn; apply lookup_insert_eq|].
  intros x Hx. cbn. rewrite lookup_insert_ne by congruence.
  rewrite Hother by exact Hx. reflexivity.
Qed.

Lemma keeps_setupPanelFrame_tree (frame : ref) :
  keeps parentNode (setupPanelFrame frame) /\ keeps next (setupPanelFrame frame).
Proof. unfold setupPanelFrame. split; keeps_tac. Qed.

(** What [make] leaves behind when it returns a panel. *)
Lemma make_inv (document : option ref) s panel s' :
  make document s = (Ok panel, s') ->
  exists backgroundFrame viewFrame parent,
    panel_backgroundFrame s' !! panel = Some backgroundFrame /\
    parentNode s' !! backgroundFrame = Some parent /\
    panel_onContentChange s' !! panel = Some (Closure_onContentChange panel) /\
    ("document-element-inserted", Closure_onContentChange panel) ∈ observers s' /\
    domListeners s' = domListeners s ++
      [ {| l_target := panel; l_type := "popupshowing";
           l_handler := Closure_onDisplayChange panel backgroundFrame viewFrame;
           l_capture := false |};
        {| l_target := panel; l_type := "popuphiding";
           l_handler := Closure_onDisplayChange panel backgroundFrame viewFrame;
           l_capture := false |};
        {| l_target := panel; l_type := "popupshown";
           l_handler := Closure_onPanelStateChange panel; l_capture := false |};
        {| l_target := panel; l_type := "popuphidden";
           l_handler := Closure_onPanelStateChange panel; l_capture := false |};
        contentReady_listener panel panel;
        contentReady_listener backgroundFrame panel;
        {| l_target := panel; l_type := "load";
           l_handler := Closure_onContentLoad panel; l_capture := true |};
        {| l_target := backgroundFrame; l_type := "load";
           l_handler := Closure_onContentLoad panel; l_capture := true |} ].
Proof.
  unfold make. intros H.
  apply bind_ok_inv in H as (doc & s1 & H1 & H).
  apply bind_ok_inv in H as (p & s2 & H2 & H).
  apply bind_ok_inv in H as ([] & s3 & H3 & H).
  apply bind_ok_inv in H as ([] & s4 & H4 & H).
  apply bind_ok_inv in H as (addon & s5 & H5 & H).
  apply bind_ok_inv in H as (bf & s6 & H6 & H).
  apply bind_ok_inv in H as ([] & s7 & H7 & H).
  apply bind_ok_inv in H as (vf & s8 & H8 & H).
  apply bind_ok_inv in H as ([] & s9 & H9 & H).
  assert (Hl : domListeners s9 = domListeners s).
  { rewrite (keeps_setupPanelFrame_domListeners _ _ _ _ H9).
    rewrite (keeps_createFrame_domListeners _ _ _ _ _ H8).
    rewrite (keeps_setupPanelFrame_domListeners _ _ _ _ H7).
    rewrite (keeps_createFrame_domListeners _ _ _ _ _ H6).
    rewrite (keeps_gets domListeners _ _ _ _ H5).
    rewrite (keeps_attach _ _ _ tree_independent_domListeners _ _ _ H4).
    rewrite (keeps_setAttribute_domListeners _ _ _ _ _ _ H3).
    rewrite (keeps_createElementNS_domListeners _ _ _ _ _ _ H2).
    rewrite (keeps_default_document domListeners _ _ _ _ H1).
    reflexivity. }
  assert (Hpar : parentNode s9 !! bf = Some addon).
  { destruct (createFrame_inv _ _ _ _ _ H6) as (Hbf & Hn6 & Hp6 & _).
    destruct (createFrame_inv _ _ _ _ _ H8) as (Hvf & _ & _ & Hp8).
    destruct (keeps_setupPanelFrame_tree bf) as [Kp7 Kn7].
    destruct (keeps_setupPanelFrame_tree vf) as [Kp9 _].
    rewrite (Kp9 _ _ _ H9), Hp8.
    - rewrite (Kp7 _ _ _ H7). exact Hp6.
    - rewrite Hvf, Hbf, (Kn7 _ _ _ H7), Hn6. lia. }
  clear H1 H2 H3 H4 H5 H6 H7 H8 H9.
  do 8 (apply bind_ok_inv in H as ([] & ? & ? & H)).
  apply bind_ok_inv in H as ([] & s18 & Hon & H).
  apply bind_ok_inv in H as ([] & s19 & Hbf & H).
  apply bind_ok_inv in H as ([] & s20 & Hcc & H).
  apply events_on_inv in Hon as (_ & Hin & Hdl & _ & _ & Hpn).
  unfold addEventListener, modify, ret in *.
  simplify_eq. cbn in *.
  exists bf, vf, addon.
  split; [apply lookup_insert_eq|]. split; [rewrite Hpn; exact Hpar|].
  split; [apply lookup_insert_eq|].
  split; [exact Hin|].
  rewrite Hdl, Hl, <- !app_assoc. reflexivity.
Qed.

(** ** The event bus *)

(** Every emission is recorded first; what follows it in the trace is what
    the notified handlers did. *)
Lemma events_emit_records (fuel : nat) (type : option string) (subject : ref) :
  forall s, exists s1,
    events_emit fuel type subject s =
      bind (gets (fun s => filter (fun r => Some r.1 = type) (observers s)))
        (fun registered =>
           forEach registered (fun r =>
             match fuel with
             | 0 => throw (InternalError "too much recursion")
             | S fuel' =>
                 call (Notify r.2 type subject) >>
                 run_observer (events_emit fuel') r.2 type subject
             end)) s1 /\
    s1 = set_trace (trace s ++ [Emit type subject]) s.
Proof.
  intros s. eexists. split; [|reflexivity].
  destruct fuel; reflexivity.
Qed.

Lemma forEach_rel {A : Type} (R : State -> State -> Prop) (l : list A)
    (f : A -> M unit) :
  (forall s, R s s) ->
  (forall s1 s2 s3, R s1 s2 -> R s2 s3 -> R s1 s3) ->
  (forall a s r s', a ∈ l -> f a s = (r, s') -> R s s') ->
  forall s r s', forEach l f s = (r, s') -> R s s'.
Proof.
  intros Hrefl Htrans. induction l as [|a l IH]; intros Hf s r s' H.
  - inversion H; subst. apply Hrefl.
  - simpl in H. unfold bind in H. destruct (f a s) as [[[]|e] s1] eqn:E.
    + eapply Htrans.
      * eapply Hf; [apply elem_of_cons; left; reflexivity | exact E].
      * eapply IH; [|exact H]. intros b s2 r2 s3 Hb.
        apply Hf. apply elem_of_cons. right. exact Hb.
    + inversion H; subst.
      eapply Hf; [apply elem_of_cons; left; reflexivity | exact E].
Qed.

Lemma notifies_registered_refl s0 s : notifies_registered s0 s s.
Proof.
  intros Ho. split; [exact Ho|]. exists []. split.
  - rewrite app_nil_r. reflexivity.
  - intros o t x Hin. apply elem_of_nil in Hin. destruct Hin.
Qed.

Lemma notifies_registered_trans s0 s1 s2 s3 :
  notifies_registered s0 s1 s2 -> notifies_registered s0 s2 s3 ->
  notifies_registered s0 s1 s3.
Proof.
  intros H12 H23 Ho.
  destruct (H12 Ho) as (Ho2 & new1 & Ht1 & Hn1).
  destruct (H23 Ho2) as (Ho3 & new2 & Ht2 & Hn2).
  split; [exact Ho3|]. exists (new1 ++ new2). split.
  - rewrite Ht2, Ht1, app_assoc. reflexivity.
  - intros o t x Hin. apply elem_of_app in Hin as [Hin|Hin]; eauto.
Qed.

Lemma events_emit_notifies (fuel : nat) :
  forall (type : option string) (subject : ref) s r s',
    events_emit fuel type subject s = (r, s') ->
    observers s' = observers s /\
    exists rest,
      trace s' = trace s ++ Emit type subject :: rest /\
      forall o t x, Notify o t x ∈ rest ->
        exists t', t = Some t' /\ (t', o) ∈ observers s.
Proof.
  induction fuel as [|fuel IH]; intros type subject s r s' H.
  - destruct (events_emit_records 0 type subject s) as (s1 & Heq & ->).
    rewrite Heq in H. clear Heq. unfold bind, gets in H. cbn beta iota in H.
    apply (forEach_rel (notifies_registered s)) in H.
    + destruct (H eq_refl) as (Ho & new & Ht & Hn).
      split; [exact Ho|]. exists new. split; [|exact Hn].
      rewrite Ht. cbn. rewrite <- app_assoc. reflexivity.
    + apply notifies_registered_refl.
    + apply notifies_registered_trans.
    + intros a s2 r2 s3 _ Hthrow. inversion Hthrow; subst.
      apply notifies_registered_refl.
  - destruct (events_emit_records (S fuel) type subject s) as (s1 & Heq & ->).
    rewrite Heq in H. clear Heq. unfold bind at 1, gets in H. cbn beta iota in H.
    apply (forEach_rel (notifies_registered s)) in H.
    + destruct (H eq_refl) as (Ho & new & Ht & Hn).
      split; [exact Ho|]. exists new. split; [|exact Hn].
      rewrite Ht. cbn. rewrite <- app_assoc. reflexivity.
    + apply notifies_registered_refl.
    + apply notifies_registered_trans.
    + intros [t [p]] s2 r2 s3 Hin Hrun Ho.
      apply list_elem_of_filter in Hin as [Ht Hin]. cbn in Ht, Hin. subst type.
      unfold run_observer, onContentChange, call, bind, modify in Hrun.
      cbn [snd] in Hrun.
      match type of Hrun with context [getContentDocument ?q ?st] =>
        pose proof (getContentDocument_state st q) as Hst;
        destruct (getContentDocument q st) as [[current|e] s4]
      end; cbn in Hst; subst s4.
      * destruct (decide (Some subject = current)).
        -- unfold gets in Hrun.
           destruct (defaultView _ subject).
           ++ apply IH in Hrun as (Ho' & rest & Htr & Hn). cbn in Ho', Htr, Hn.
              split; [congruence|].
              exists (Notify (Closure_onContentChange p) (Some t) subject ::
                      Emit (Some t ≫= EVENT_NAMES) p :: rest).
              split; [rewrite Htr, <- app_assoc; reflexivity|].
              intros o t0 x Hx.
              apply elem_of_cons in Hx as [Hx|Hx].
              { inversion Hx; subst. exists t. split; [reflexivity|].
                cbn in Hin. exact Hin. }
              apply elem_of_cons in Hx as [Hx|Hx]; [discriminate|].
              destruct (Hn _ _ _ Hx) as (t' & -> & Hreg).
              exists t'. split; [reflexivity|]. rewrite <- Ho. exact Hreg.
           ++ inversion Hrun; subst. cbn. split; [exact Ho|].
              exists [Notify (Closure_onContentChange p) (Some t) subject].
              split; [reflexivity|]. intros o t0 x Hx.
              apply list_elem_of_singleton in Hx. inversion Hx; subst.
              exists t. split; [reflexivity|]. exact Hin.
        -- inversion Hrun; subst. cbn. split; [exact Ho|].
           exists [Notify (Closure_onContentChange p) (Some t) subject].
           split; [reflexivity|]. intros o t0 x Hx.
           apply list_elem_of_singleton in Hx. inversion Hx; subst.
           exists t. split; [reflexivity|]. exact Hin.
      * inversion Hrun; subst. cbn. split; [exact Ho|].
        exists [Notify (Closure_onContentChange p) (Some t) subject].
        split; [reflexivity|]. intros o t0 x Hx.
        apply list_elem_of_singleton in Hx. inversion Hx; subst.
        exists t. split; [reflexivity|]. exact Hin.
Qed.

(** ** dispose *)

(** C6. For a panel that has its background frame (attached to a parent)
    and its content-change handler, as [make] leaves it, [dispose] returns
    normally; it removes the background frame from its parent, clears
    [panel.backgroundFrame], calls [events.off] for the handler exactly once
    (its only call), after which the handler is not registered for
    "document-element-inserted", clears [panel.onContentChange] and detaches
    the panel.  From then on no emission notifies the handler of a
    "document-element-inserted" event. *)
Theorem dispose_releases s panel (frame parent : ref) (handler : Observer) :
  panel_backgroundFrame s !! panel = Some frame ->
  parentNode s !! frame = Some parent ->
  panel_onContentChange s !! panel = Some handler ->
  exists s',
    dispose panel s = (Ok tt, s') /\
    parentNode s' !! frame = None /\
    (frame ∉ children_of s' parent) /\
    panel_backgroundFrame s' !! panel = None /\
    trace s' =
      trace s ++ [Unsubscribe "document-element-inserted" (Some handler)] /\
    (("document-element-inserted", handler) ∉ observers s') /\
    panel_onContentChange s' !! panel = None /\
    parentNode s' !! panel = None /\
    (forall q, parentNode s !! panel = Some q -> panel ∉ children_of s' q) /\
    (forall fuel type subject r s'',
       events_emit fuel type subject s' = (r, s'') ->
       exists rest,
         trace s'' = trace s' ++ Emit type subject :: rest /\
         forall x, Notify handler (Some "document-element-inserted") x ∉ rest).
Proof.
  intros Hbf Hpar Hh.
  set (s1 := unlink frame s).
  set (s2 := set_panel_backgroundFrame (delete panel (panel_backgroundFrame s1)) s1).
  set (s3 := set_observers
               (filter (fun r => r <> ("document-element-inserted", handler))
                  (observers s2))
               (set_trace
                  (trace s2 ++
                     [Unsubscribe "document-element-inserted" (Some handler)]) s2)).
  set (s4 := set_panel_onContentChange (delete panel (panel_onContentChange s3)) s3).
  destruct (unlink_other_fields frame s)
    as (_&_&_&_&_&_&_&Hu_bf&Hu_cc&_&Hu_obs&_&Hu_tr&_&_).
  fold s1 in Hu_bf, Hu_cc, Hu_obs, Hu_tr.
  assert (Hrun : dispose panel s = (Ok tt, unlink panel s4)).
  { unfold dispose.
    rewrite (bind_ok _ _ s (Some frame) s) by (unfold gets; rewrite Hbf; reflexivity).
    rewrite (bind_ok _ _ s frame s) by reflexivity.
    rewrite (bind_ok _ _ s (Some parent) s) by (unfold gets; rewrite Hpar; reflexivity).
    rewrite (bind_ok _ _ s parent s) by reflexivity.
    rewrite (bind_ok _ _ s tt s1) by (apply removeChild_ok; exact Hpar).
    rewrite (bind_ok _ _ s1 tt s2) by reflexivity.
    rewrite (bind_ok _ _ s2 (Some handler) s2) by
      (unfold gets; cbn; fold s1; rewrite Hu_cc, Hh; reflexivity).
    rewrite (bind_ok _ _ s2 tt s3) by reflexivity.
    rewrite (bind_ok _ _ s3 tt s4) by reflexivity.
    apply detach_run. }
  assert (Hnotin : ("document-element-inserted", handler) ∉ observers s4).
  { cbn. intros Hin. apply list_elem_of_filter in Hin as [Hne _]. congruence. }
  destruct (unlink_other_fields panel s4)
    as (_&_&_&_&_&_&_&Hf_bf&Hf_cc&_&Hf_obs&_&Hf_tr&_&_).
  exists (unlink panel s4). split; [exact Hrun|].
  split.
  { destruct (decide (frame = panel)) as [->|Hne].
    - apply unlink_parent_self.
    - rewrite unlink_parent_other by exact Hne.
      change (parentNode s4) with (parentNode s1). apply unlink_parent_self. }
  split.
  { intros Hin. apply elem_of_children_of_unlink in Hin as [Hin _].
    change (children_of s4 parent) with (children_of s1 parent) in Hin.
    apply elem_of_children_of_unlink in Hin as [_ Hin]. exact (Hin Hpar eq_refl). }
  split; [rewrite Hf_bf; cbn; apply lookup_delete_eq|].
  split; [rewrite Hf_tr; cbn; fold s1; rewrite Hu_tr; reflexivity|].
  split; [rewrite Hf_obs; exact Hnotin|].
  split; [rewrite Hf_cc; cbn; apply lookup_delete_eq|].
  split; [apply unlink_parent_self|].
  split.
  { intros q Hq Hin. apply elem_of_children_of_unlink in Hin as [Hin Hx].
    change (children_of s4 q) with (children_of s1 q) in Hin.
    change (parentNode s4) with (parentNode s1) in Hx.
    destruct (decide (panel = frame)) as [->|Hne].
    - apply elem_of_children_of_unlink in Hin as [_ Hin]. exact (Hin Hq eq_refl).
    - apply Hx; [|reflexivity]. unfold s1.
      rewrite unlink_parent_other by exact Hne. exact Hq. }
  intros fuel type subject r s'' Hemit.
  destruct (events_emit_notifies _ _ _ _ _ _ Hemit) as (_ & rest & Ht & Hn).
  exists rest. split; [exact Ht|].
  intros x Hin. destruct (Hn _ _ _ Hin) as (t' & Heq & Hreg).
  inversion Heq; subst t'. rewrite Hf_obs in Hreg. exact (Hnotin Hreg).
Qed.

(** ** attach *)

Lemma unlink_idem s (child : ref) : unlink child (unlink child s) = unlink child s.
Proof.
  unfold unlink at 1. rewrite unlink_parent_self. reflexivity.
Qed.

Lemma wf_tree_unlink s (child : ref) : wf_tree s -> wf_tree (unlink child s).
Proof.
  intros [Hpc Hnd]. split.
  - intros x q. destruct (decide (x = child)) as [->|Hne].
    + rewrite unlink_parent_self. split; [discriminate|].
      intros Hin. apply elem_of_children_of_unlink in Hin as [Hin Hx].
      exfalso. apply Hx; [|reflexivity]. apply Hpc. exact Hin.
    + rewrite unlink_parent_other by exact Hne. rewrite Hpc.
      rewrite children_of_unlink.
      destruct (decide (parentNode s !! child = Some q)); [|reflexivity].
      rewrite list_elem_of_filter. tauto.
  - intros q. rewrite children_of_unlink.
    destruct (decide (parentNode s !! child = Some q)); [|apply Hnd].
    apply NoDup_filter, Hnd.
Qed.

Lemma children_of_link_last s (parent child q : ref) :
  children_of (link_last parent child s) q =
    if decide (q = parent) then children_of s parent ++ [child]
    else children_of s q.
Proof.
  unfold link_last. unfold children_of at 1. cbn.
  destruct (decide (q = parent)) as [->|Hne].
  - rewrite lookup_insert_eq. reflexivity.
  - rewrite lookup_insert_ne by congruence. reflexivity.
Qed.

Lemma wf_tree_link_last s (parent child : ref) :
  wf_tree s -> parentNode s !! child = None ->
  wf_tree (link_last parent child s).
Proof.
  intros [Hpc Hnd] Hnone.
  assert (Hnotin : forall q, child ∉ children_of s q).
  { intros q Hin. apply Hpc in Hin. congruence. }
  split.
  - intros x q. rewrite children_of_link_last.
    change (parentNode (link_last parent child s))
      with (<[child := parent]> (parentNode s)).
    destruct (decide (x = child)) as [->|Hne].
    + rewrite lookup_insert_eq.
      destruct (decide (q = parent)) as [->|Hq].
      * split; [intros _|reflexivity].
        apply elem_of_app. right. apply list_elem_of_singleton. reflexivity.
      * split; [intros Heq; congruence|]. intros Hin. destruct (Hnotin _ Hin).
    + rewrite lookup_insert_ne by congruence. rewrite Hpc.
      destruct (decide (q = parent)) as [->|Hq]; [|reflexivity].
      rewrite elem_of_app, list_elem_of_singleton. tauto.
  - intros q. rewrite children_of_link_last.
    destruct (decide (q = parent)) as [->|Hq]; [|apply Hnd].
    apply NoDup_app. split; [apply Hnd|]. split.
    + intros x Hin Hx. apply list_elem_of_singleton in Hx as ->.
      exact (Hnotin _ Hin).
    + apply NoDup_singleton.
Qed.

Lemma NoDup_occurs_once (l : list ref) (x : ref) :
  NoDup l -> x ∈ l -> length (filter (fun c => c = x) l) = 1.
Proof.
  induction l as [|a l IH]; intros Hnd Hin.
  - apply elem_of_nil in Hin. destruct Hin.
  - apply NoDup_cons in Hnd as [Ha Hnd].
    destruct (decide (a = x)) as [->|Hne].
    + rewrite filter_cons_True by reflexivity. cbn. f_equal.
      clear IH Hin. induction l as [|b l IHl]; [reflexivity|].
      rewrite filter_cons_False.
      * apply IHl; [|apply NoDup_cons in Hnd; tauto].
        intros Hx. apply Ha. apply elem_of_cons. right. exact Hx.
      * intros ->. apply Ha. apply elem_of_cons. left. reflexivity.
    + rewrite filter_cons_False by exact Hne.
      apply IH; [exact Hnd|].
      apply elem_of_cons in Hin as [->|Hin]; [congruence | exact Hin].
Qed.

(** The state [attach] leaves when the panel was not in the container. *)
Lemma attach_moves s panel (document container : ref) :
  getElementById (host s) document "mainPopupSet" = Some container ->
  parentNode s !! panel <> Some container ->
  inclusive_ancestor (unlink panel s) panel container = false ->
  attach panel (Some document) s =
    (Ok tt, link_last container panel (unlink panel s)).
Proof.
  intros Hc Hp Hanc.
  destruct (unlink_other_fields panel s)
    as (_&_&_&_&_&_&_&_&_&_&_&_&_&_&Hhost).
  unfold attach, default_document.
  rewrite (bind_ok _ _ s document s) by reflexivity.
  rewrite (bind_ok _ _ s (Some container) s) by (unfold gets; rewrite Hc; reflexivity).
  rewrite (bind_ok _ _ s (parentNode s !! panel) s) by reflexivity.
  destruct (decide (Some container <> parentNode s !! panel)) as [_|Hn];
    [|exfalso; apply Hn; congruence].
  rewrite (bind_ok _ _ s tt (unlink panel s)) by apply detach_run.
  rewrite (bind_ok _ _ (unlink panel s) (Some container) (unlink panel s)) by
    (unfold gets; rewrite Hhost, Hc; reflexivity).
  rewrite (bind_ok _ _ (unlink panel s) container (unlink panel s)) by reflexivity.
  unfold appendChild.
  rewrite (bind_ok _ _ (unlink panel s) false (unlink panel s)) by
    (unfold gets; rewrite Hanc; reflexivity).
  unfold modify. rewrite unlink_idem. reflexivity.
Qed.

Lemma attach_stays s panel (document container : ref) :
  getElementById (host s) document "mainPopupSet" = Some container ->
  parentNode s !! panel = Some container ->
  attach panel (Some document) s = (Ok tt, s).
Proof.
  intros Hc Hp. unfold attach, default_document.
  rewrite (bind_ok _ _ s document s) by reflexivity.
  rewrite (bind_ok _ _ s (Some container) s) by (unfold gets; rewrite Hc; reflexivity).
  rewrite (bind_ok _ _ s (parentNode s !! panel) s) by reflexivity.
  destruct (decide (Some container <> parentNode s !! panel)); [congruence|].
  reflexivity.
Qed.

(** [attach] detaches the panel before it looks the container up again and
    appends: when there is no container, or the container lies inside the
    panel, the panel has been taken out of its parent when the error is
    thrown. *)
Lemma attach_detached_without_container s panel (document q : ref) :
  getElementById (host s) document "mainPopupSet" = None ->
  parentNode s !! panel = Some q ->
  exists msg,
    attach panel (Some document) s = (Throw (TypeError msg), unlink panel s).
Proof.
  intros Hc Hp. eexists.
  destruct (unlink_other_fields panel s)
    as (_&_&_&_&_&_&_&_&_&_&_&_&_&_&Hhost).
  unfold attach, default_document.
  rewrite (bind_ok _ _ s document s) by reflexivity.
  rewrite (bind_ok _ _ s None s) by (unfold gets; rewrite Hc; reflexivity).
  rewrite (bind_ok _ _ s (Some q) s) by (unfold gets; rewrite Hp; reflexivity).
  destruct (decide (None <> Some q)) as [_|Hn]; [|exfalso; apply Hn; congruence].
  rewrite (bind_ok _ _ s tt (unlink panel s)) by apply detach_run.
  rewrite (bind_ok _ _ (unlink panel s) None (unlink panel s)) by
    (unfold gets; rewrite Hhost, Hc; reflexivity).
  reflexivity.
Qed.

Lemma attach_detached_inside_panel s panel (document container : ref) :
  getElementById (host s) document "mainPopupSet" = Some container ->
  parentNode s !! panel <> Some container ->
  inclusive_ancestor (unlink panel s) panel container = true ->
  attach panel (Some document) s = (Throw HierarchyRequestError, unlink panel s).
Proof.
  intros Hc Hp Hanc.
  destruct (unlink_other_fields panel s)
    as (_&_&_&_&_&_&_&_&_&_&_&_&_&_&Hhost).
  unfold attach, default_document.
  rewrite (bind_ok _ _ s document s) by reflexivity.
  rewrite (bind_ok _ _ s (Some container) s) by (unfold gets; rewrite Hc; reflexivity).
  rewrite (bind_ok _ _ s (parentNode s !! panel) s) by reflexivity.
  destruct (decide (Some container <> parentNode s !! panel)) as [_|Hn];
    [|exfalso; apply Hn; congruence].
  rewrite (bind_ok _ _ s tt (unlink panel s)) by apply detach_run.
  rewrite (bind_ok _ _ (unlink panel s) (Some container) (unlink panel s)) by
    (unfold gets; rewrite Hhost, Hc; reflexivity).
  rewrite (bind_ok _ _ (unlink panel s) container (unlink panel s)) by reflexivity.
  unfold appendChild.
  rewrite (bind_ok _ _ (unlink panel s) true (unlink panel s)) by
    (unfold gets; rewrite Hanc; reflexivity).
  reflexivity.
Qed.


(** ** style *)

Lemma ancestor_within_fresh (par : gmap ref ref) (n : ref) :
  (forall c q, par !! c = Some q -> q < n) ->
  forall fuel x, x < n -> ancestor_within fuel par n x = false.
Proof.
  intros Hpar. induction fuel as [|fuel IH]; intros x Hx; cbn.
  - rewrite bool_decide_eq_false_2 by lia. reflexivity.
  - rewrite bool_decide_eq_false_2 by lia. cbn.
    destruct (par !! x) as [q|] eqn:Hq; [|reflexivity].
    apply IH. exact (Hpar _ _ Hq).
Qed.

Lemma unlink_orphan s (child : ref) :
  parentNode s !! child = None -> unlink child s = s.
Proof. intros H. unfold unlink. rewrite H. reflexivity. Qed.

(** Inserting such a node before the first child, or appending it when
    there is none, puts it first. *)
Lemma insert_first_run s (container node : ref) :
  wf_tree s -> above_tree s node -> container < node ->
  (match firstChild s container with
   | Some first => insertBefore container node first
   | None => appendChild container node
   end) s = (Ok tt, link_first container node s).
Proof.
  intros [Hpc Hnd] Hfresh Hc.
  assert (Hanc : inclusive_ancestor s node container = false).
  { unfold inclusive_ancestor. apply ancestor_within_fresh; [|exact Hc].
    intros c q Hq. destruct (Hfresh _ _ Hq). lia. }
  assert (Horphan : parentNode s !! node = None).
  { destruct (parentNode s !! node) as [q|] eqn:Hq; [|reflexivity].
    destruct (Hfresh _ _ Hq). lia. }
  unfold firstChild.
  destruct (children_of s container) as [|first rest] eqn:Hch; cbn.
  - unfold appendChild, bind, gets, modify. rewrite Hanc.
    rewrite unlink_orphan by exact Horphan.
    unfold link_last, link_first. rewrite Hch. reflexivity.
  - assert (Hfirst : parentNode s !! first = Some container).
    { apply Hpc. rewrite Hch. apply elem_of_cons. left. reflexivity. }
    unfold insertBefore, bind, gets, modify. rewrite Hanc, Hfirst.
    destruct (decide (Some container = Some container)); [|congruence].
    destruct (decide (node = first)) as [->|_].
    { destruct (Hfresh _ _ Hfirst). lia. }
    rewrite unlink_orphan by exact Horphan.
    unfold link_before, link_first. rewrite Hch. cbn.
    destruct (decide (first = first)); [reflexivity | congruence].
Qed.

Lemma children_of_link_first s (parent node q : ref) :
  children_of (link_first parent node s) q =
    if decide (q = parent) then node :: children_of s parent
    else children_of s q.
Proof.
  unfold link_first. unfold children_of at 1. cbn.
  destruct (decide (q = parent)) as [->|Hne].
  - rewrite lookup_insert_eq. reflexivity.
  - rewrite lookup_insert_ne by congruence. reflexivity.
Qed.

Lemma wf_tree_link_first s (parent node : ref) :
  wf_tree s -> parentNode s !! node = None ->
  wf_tree (link_first parent node s).
Proof.
  intros [Hpc Hnd] Hnone.
  assert (Hnotin : forall q, node ∉ children_of s q).
  { intros q Hin. apply Hpc in Hin. congruence. }
  split.
  - intros x q. rewrite children_of_link_first.
    change (parentNode (link_first parent node s))
      with (<[node := parent]> (parentNode s)).
    destruct (decide (x = node)) as [->|Hne].
    + rewrite lookup_insert_eq.
      destruct (decide (q = parent)) as [->|Hq].
      * split; [intros _|reflexivity]. apply elem_of_cons. left. reflexivity.
      * split; [intros Heq; congruence|]. intros Hin. destruct (Hnotin _ Hin).
    + rewrite lookup_insert_ne by congruence. rewrite Hpc.
      destruct (decide (q = parent)) as [->|Hq]; [|reflexivity].
      rewrite elem_of_cons. tauto.
  - intros q. rewrite children_of_link_first.
    destruct (decide (q = parent)) as [->|Hq]; [|apply Hnd].
    apply NoDup_cons. split; [apply Hnotin | apply Hnd].
Qed.

Lemma try_catch_ok {A : Type} (m : M A) (handler : Exn -> M A) s (a : A) s' :
  m s = (Ok a, s') -> try_catch m handler s = (Ok a, s').
Proof. intros H. unfold try_catch. rewrite H. reflexivity. Qed.

Lemma getContentDocument_ok s panel (frame : ref) :
  getContentFrame s panel = Some frame ->
  getContentDocument panel s = (Ok (contentDocument s !! frame), s).
Proof.
  intros Hf. unfold getContentDocument, bind, gets, deref, ret.
  rewrite Hf. reflexivity.
Qed.

(** One call of [style] on a stylable panel: the new node becomes the first
    child of the container. *)
Lemma style_step s panel (container : ref) :
  stylable s panel container ->
  exists contentDoc color,
    style panel s =
      (Ok tt, link_first container (next s) (with_style_node contentDoc color s)).
Proof.
  intros (Hwf & Hfresh & Hp & Hc & Hne & doc & frame & cd &
          Hdoc & [w Hw] & [node Hnode] & Hframe & Hcd & Hcont).
  exists cd, (getComputedStyle (host s) node "color").
  unfold style. apply try_catch_ok.
  rewrite (bind_ok _ _ s (Some doc) s) by (unfold gets; rewrite Hdoc; reflexivity).
  rewrite (bind_ok _ _ s (Some cd) s) by
    (rewrite (getContentDocument_ok _ _ _ Hframe), Hcd; reflexivity).
  rewrite (bind_ok _ _ s doc s) by reflexivity.
  rewrite (bind_ok _ _ s (Some w) s) by (unfold gets; rewrite Hw; reflexivity).
  rewrite (bind_ok _ _ s (Some node) s) by
    (unfold gets; rewrite Hnode; reflexivity).
  rewrite (bind_ok _ _ s w s) by reflexivity.
  rewrite (bind_ok _ _ s node s) by reflexivity.
  rewrite (bind_ok _ _ s (getComputedStyle (host s) node "color") s) by reflexivity.
  rewrite (bind_ok _ _ s cd s) by reflexivity.
  erewrite bind_ok by reflexivity.
  erewrite bind_ok by reflexivity.
  erewrite bind_ok by reflexivity.
  erewrite bind_ok by
    (unfold gets; cbn [host set_textContent set_nodeId set_next set_tagName
                         set_ownerDocument];
     rewrite Hcont; reflexivity).
  erewrite bind_ok by reflexivity.
  erewrite bind_ok by reflexivity.
  apply (insert_first_run (with_style_node cd _ s)).
  - exact Hwf.
  - exact Hfresh.
  - exact Hc.
Qed.

Lemma stylable_step s panel (container contentDoc : ref) (color : string) :
  stylable s panel container ->
  stylable (link_first container (next s) (with_style_node contentDoc color s))
    panel container.
Proof.
  intros (Hwf & Hfresh & Hp & Hc & Hne & doc & frame & cd &
          Hdoc & Hw & Hnode & Hframe & Hcd & Hcont).
  assert (Horphan : parentNode s !! next s = None).
  { destruct (parentNode s !! next s) as [q|] eqn:Hq; [|reflexivity].
    destruct (Hfresh _ _ Hq). lia. }
  split; [apply wf_tree_link_first; [exact Hwf | exact Horphan]|].
  split.
  { intros c q. cbn. intros Hq.
    apply lookup_insert_Some in Hq as [[<- <-]|[_ Hq]]; [lia|].
    destruct (Hfresh _ _ Hq). lia. }
  split; [cbn; lia|]. split; [cbn; lia|]. split; [exact Hne|].
  exists doc, frame, cd.
  split; [cbn; rewrite lookup_insert_ne by lia; exact Hdoc|].
  split; [exact Hw|]. split; [exact Hnode|].
  split; [|split; [exact Hcd | exact Hcont]].
  unfold getContentFrame, firstChild in *.
  rewrite children_of_link_first.
  destruct (decide (panel = container)); [congruence|]. exact Hframe.
Qed.

Lemma injected_styles_step s panel (container contentDoc : ref) (color : string) :
  stylable s panel container ->
  injected_styles
    (link_first container (next s) (with_style_node contentDoc color s)) container =
  next s :: injected_styles s container.
Proof.
  intros (Hwf & Hfresh & _).
  unfold injected_styles. rewrite children_of_link_first.
  destruct (decide (container = container)); [|congruence].
  cbn [List.filter].
  assert (Hnew : is_injected_style
            (link_first container (next s) (with_style_node contentDoc color s))
            (next s) = true).
  { unfold is_injected_style. apply bool_decide_eq_true_2. cbn.
    apply lookup_insert_eq. }
  rewrite Hnew. f_equal.
  apply List.filter_ext_in. intros x Hx.
  unfold is_injected_style. cbn.
  rewrite lookup_insert_ne; [reflexivity|].
  apply list_elem_of_In in Hx. apply Hwf in Hx.
  destruct (Hfresh _ _ Hx). lia.
Qed.

(** C2, amended. On a stylable panel every call of [style] returns without
    logging an error and inserts one more node with the id
    "sdk-panel-style" as first child of the container, removing none: after
    [n] calls the children of the container are the [n] new nodes, the
    latest first, followed by the children it had, in their order; the
    nodes with that id among them are the [n] new ones, the latest first,
    followed by those there were, so the container holds [n] more such
    nodes than before. *)
Theorem style_accumulates (n : nat) :
  forall s panel (container : ref),
    stylable s panel container ->
    exists s',
      style_times n panel s = (Ok tt, s') /\
      stylable s' panel container /\
      length (injected_styles s' container) =
        n + length (injected_styles s container) /\
      trace s' = trace s /\
      next s' = n + next s /\
      children_of s' container =
        rev (seq (next s) n) ++ children_of s container /\
      injected_styles s' container =
        rev (seq (next s) n) ++ injected_styles s container /\
      (0 < n -> firstChild s' container = Some (n + next s - 1)).
Proof.
  induction n as [|n IH]; intros s panel container Hs.
  - exists s. split; [reflexivity|]. split; [exact Hs|].
    repeat (split; [reflexivity|]). intros Hn. lia.
  - destruct (style_step _ _ _ Hs) as (cd & color & Hstep).
    pose proof (stylable_step _ _ _ cd color Hs) as Hs1.
    destruct (IH _ _ _ Hs1) as (s' & Hrun & Hs' & Hlen & Htr & Hnx & Hch & Hinj & _).
    assert (Hnx1 : next (link_first container (next s) (with_style_node cd color s))
                   = S (next s)) by reflexivity.
    rewrite Hnx1 in Hnx, Hch, Hinj.
    rewrite children_of_link_first in Hch.
    destruct (decide (container = container)) as [_|Hne]; [|congruence].
    change (children_of (with_style_node cd color s) container)
      with (children_of s container) in Hch.
    rewrite (injected_styles_step _ _ _ _ _ Hs) in Hinj.
    assert (Hch' : children_of s' container =
              rev (seq (next s) (S n)) ++ children_of s container).
    { rewrite Hch. cbn [seq rev]. rewrite <- app_assoc. reflexivity. }
    exists s'. split.
    { cbn [style_times]. rewrite (bind_ok _ _ _ _ _ Hstep). exact Hrun. }
    split; [exact Hs'|]. split.
    { rewrite Hlen, (injected_styles_step _ _ _ _ _ Hs). cbn. lia. }
    split; [rewrite Htr; reflexivity|].
    split; [rewrite Hnx; lia|].
    split; [exact Hch'|].
    split.
    { rewrite Hinj. cbn [seq rev]. rewrite <- app_assoc. reflexivity. }
    intros _. unfold firstChild. rewrite Hch'.
    rewrite seq_S, rev_app_distr. cbn.
    f_equal. lia.
Qed.

(** ** The content-ready handler *)

(** C10. [make] registers the closure of [onContentReady] for
    "DOMContentLoaded" on the panel and on the background frame.  When that
    handler receives the event with the panel's current content document as
    target, it runs [style] (which always returns, and on a stylable panel
    leaves the new style node first in the container) and then emits
    "sdk-panel-content-loaded" from the state [style] left: the emission is
    the first thing recorded after it.  For any other target it does nothing:
    no styling, no emission. *)
Theorem onContentReady_styles_then_emits (fuel : nat) (document : option ref)
    s0 panel s1 :
  make document s0 = (Ok panel, s1) ->
  (exists backgroundFrame,
     panel_backgroundFrame s1 !! panel = Some backgroundFrame /\
     contentReady_listener panel panel ∈ domListeners s1 /\
     contentReady_listener backgroundFrame panel ∈ domListeners s1) /\
  forall s target,
    (getContentDocument panel s = (Ok (Some target), s) ->
     exists s2 rest,
       style panel s = (Ok tt, s2) /\
       (forall container,
          stylable s panel container ->
          firstChild s2 container = Some (next s) /\
          nodeId s2 !! next s = Some STYLE_ID /\
          trace s2 = trace s) /\
       run_handler fuel (Closure_onContentReady panel) "DOMContentLoaded" target s =
         events_emit fuel (Some "sdk-panel-content-loaded") panel s2 /\
       trace (events_emit fuel (Some "sdk-panel-content-loaded") panel s2).2 =
         trace s2 ++ Emit (Some "sdk-panel-content-loaded") panel :: rest) /\
    (forall current,
       getContentDocument panel s = (Ok current, s) ->
       current <> Some target ->
       run_handler fuel (Closure_onContentReady panel) "DOMContentLoaded" target s =
         (Ok tt, s)).
Proof.
  intros Hmake. split.
  - destruct (make_inv _ _ _ _ Hmake) as (bf & vf & par & Hbf & _ & _ & _ & Hl).
    exists bf. split; [exact Hbf|]. rewrite Hl.
    split; apply elem_of_app; right; rewrite !elem_of_cons; tauto.
  - intros s target. split.
    + intros Hcd. destruct (style_returns s panel) as (s2 & Hstyle).
      destruct (events_emit fuel (Some "sdk-panel-content-loaded") panel s2)
        as [r s3] eqn:Hemit.
      destruct (events_emit_notifies _ _ _ _ _ _ Hemit) as (_ & rest & Ht & _).
      exists s2, rest. split; [exact Hstyle|].
      split; [|split; [|rewrite Hemit; exact Ht]].
      * intros container Hs.
        destruct (style_step _ _ _ Hs) as (cd & color & Hstep).
        rewrite Hstyle in Hstep. inversion Hstep; subst s2.
        split; [|split; [cbn; apply lookup_insert_eq | reflexivity]].
        unfold firstChild. rewrite children_of_link_first.
        destruct (decide (container = container)); [reflexivity | congruence].
      * unfold run_handler, onContentReady.
        rewrite (bind_ok _ _ _ _ _ Hcd).
        destruct (decide (Some target = Some target)); [|congruence].
        rewrite (bind_ok _ _ _ _ _ Hstyle). reflexivity.
    + intros current Hcd Hne.
      unfold run_handler, onContentReady.
      rewrite (bind_ok _ _ _ _ _ Hcd).
      destruct (decide (Some target = current)); [congruence|reflexivity].
Qed.

(** ** Deciding the invariants *)

Lemma wf_tree_check_sound s : wf_tree_check s -> wf_tree s.
Proof.
  intros [Hp Hc]. split.
  - intros c q. split.
    + intros Hq. exact (Hp _ _ Hq).
    + unfold children_of. destruct (childNodes s !! q) as [l|] eqn:Hl; cbn.
      * intros Hin. destruct (Hc _ _ Hl) as [_ Hall].
        rewrite Forall_forall in Hall. apply Hall. exact Hin.
      * intros Hin. apply elem_of_nil in Hin. destruct Hin.
  - intros q. unfold children_of.
    destruct (childNodes s !! q) as [l|] eqn:Hl; cbn.
    + exact (proj1 (Hc _ _ Hl)).
    + apply NoDup_nil. exact I.
Qed.

Lemma fresh_from_next_check_sound s : fresh_from_next_check s -> fresh_from_next s.
Proof. intros H c q Hq. exact (H _ _ Hq). Qed.

(** * Further properties of the module *)

(** ** More on computations *)

Lemma bind_throw_inv {A B : Type} (m : M A) (k : A -> M B) s (e : Exn) s' :
  bind m k s = (Throw e, s') ->
  m s = (Throw e, s') \/ exists a s1, m s = (Ok a, s1) /\ k a s1 = (Throw e, s').
Proof.
  unfold bind. destruct (m s) as [[a|e0] s1]; intros H.
  - right. exists a, s1. split; [reflexivity | exact H].
  - left. inversion H; subst. reflexivity.
Qed.

Lemma bind_throw {A B : Type} (m : M A) (k : A -> M B) s (e : Exn) s1 :
  m s = (Throw e, s1) -> bind m k s = (Throw e, s1).
Proof. intros H. unfold bind. rewrite H. reflexivity. Qed.

Lemma filter_all (P : ref -> Prop) `{forall x, Decision (P x)} (l : list ref) :
  (forall x, x ∈ l -> P x) -> filter P l = l.
Proof.
  induction l as [|a l IH]; intros Hall; [reflexivity|].
  rewrite filter_cons_True by (apply Hall, elem_of_cons; left; reflexivity).
  f_equal. apply IH. intros x Hx. apply Hall, elem_of_cons. right. exact Hx.
Qed.

(** ** detach *)

(** X1. In a well-formed tree [detach] always returns; the panel is then in
    no child list and has no parent, every other node keeps its parent and
    the siblings keep their order, the tree is still well formed, and
    detaching again, or detaching a panel that has no parent, changes
    nothing. *)
Theorem detach_detaches s panel :
  wf_tree s ->
  exists s',
    detach panel s = (Ok tt, s') /\
    wf_tree s' /\
    parentNode s' !! panel = None /\
    (forall q, panel ∉ children_of s' q) /\
    (forall q, children_of s' q = filter (fun c => c <> panel) (children_of s q)) /\
    (forall x, x <> panel -> parentNode s' !! x = parentNode s !! x) /\
    detach panel s' = (Ok tt, s') /\
    (parentNode s !! panel = None -> s' = s).
Proof.
  intros Hwf. exists (unlink panel s).
  pose proof (wf_tree_unlink s panel Hwf) as Hwf'.
  split; [apply detach_run|]. split; [exact Hwf'|].
  split; [apply unlink_parent_self|].
  split.
  { intros q Hin. apply Hwf' in Hin. rewrite unlink_parent_self in Hin.
    discriminate. }
  split.
  { intros q. rewrite children_of_unlink.
    destruct (decide (parentNode s !! panel = Some q)) as [_|Hne]; [reflexivity|].
    symmetry. apply filter_all. intros x Hx ->. apply Hne, Hwf. exact Hx. }
  split; [intros x Hx; apply unlink_parent_other; exact Hx|].
  split.
  { rewrite detach_run, unlink_idem. reflexivity. }
  intros Hnone. apply unlink_orphan. exact Hnone.
Qed.

(** ** attach, when the document has no popup container *)

(** X2. When the document has no "mainPopupSet" element, [attach] leaves a
    panel that has no parent alone and returns normally, but it detaches a
    panel that has a parent and then throws a TypeError: the panel is left in
    no tree. *)
Theorem attach_without_container s panel (document : ref) :
  getElementById (host s) document "mainPopupSet" = None ->
  (parentNode s !! panel = None -> attach panel (Some document) s = (Ok tt, s)) /\
  (forall q, parentNode s !! panel = Some q ->
     exists msg,
       attach panel (Some document) s = (Throw (TypeError msg), unlink panel s) /\
       parentNode (unlink panel s) !! panel = None).
Proof.
  intros Hc. split.
  - intros Hp. unfold attach, default_document.
    rewrite (bind_ok _ _ s document s) by reflexivity.
    rewrite (bind_ok _ _ s None s) by (unfold gets; rewrite Hc; reflexivity).
    rewrite (bind_ok _ _ s None s) by (unfold gets; rewrite Hp; reflexivity).
    destruct (decide (None <> None)) as [Hn|_]; [congruence | reflexivity].
  - intros q Hp. eexists. split; [|apply unlink_parent_self].
    destruct (unlink_other_fields panel s)
      as (_&_&_&_&_&_&_&_&_&_&_&_&_&_&Hhost).
    unfold attach, default_document.
    rewrite (bind_ok _ _ s document s) by reflexivity.
    rewrite (bind_ok _ _ s None s) by (unfold gets; rewrite Hc; reflexivity).
    rewrite (bind_ok _ _ s (Some q) s) by (unfold gets; rewrite Hp; reflexivity).
    destruct (decide (None <> Some q)) as [_|Hn]; [|exfalso; apply Hn; congruence].
    rewrite (bind_ok _ _ s tt (unlink panel s)) by apply detach_run.
    rewrite (bind_ok _ _ (unlink panel s) None (unlink panel s)) by
      (unfold gets; rewrite Hhost, Hc; reflexivity).
    reflexivity.
Qed.


(** ** resize *)

(** X4. [resize] on a panel without a first child throws a TypeError and
    leaves the store as it was. *)
Theorem resize_without_child s panel (width height : num) :
  firstChild s panel = None ->
  exists msg, resize panel width height s = (Throw (TypeError msg), s).
Proof.
  intros Hf. eexists. unfold resize, set_firstChild_style.
  apply bind_throw.
  rewrite (bind_ok _ _ s None s) by (unfold gets; rewrite Hf; reflexivity).
  reflexivity.
Qed.

(** X5. Of two calls of [resize] in a row the second wins: the store is the
    one the second call alone would have left. *)
Theorem resize_last_wins s panel (w1 h1 w2 h2 : num) (frame : ref) :
  firstChild s panel = Some frame ->
  (resize panel w1 h1 >> resize panel w2 h2) s = resize panel w2 h2 s.
Proof.
  intros Hf.
  assert (Hr : forall (w h : num) s0,
            firstChild s0 panel = Some frame ->
            resize panel w h s0 =
              (Ok tt,
               set_styles (<[(frame, "height") := CssPx h]>
                             (<[(frame, "width") := CssPx w]> (styles s0))) s0)).
  { intros w h s0 H0. unfold resize, set_firstChild_style, set_style.
    unfold bind, gets, deref, ret, modify.
    unfold firstChild, children_of in *. cbn. rewrite H0. cbn. rewrite H0.
    reflexivity. }
  rewrite (bind_ok _ _ _ _ _ (Hr w1 h1 s Hf)).
  rewrite (Hr w2 h2) by exact Hf. rewrite (Hr w2 h2 s Hf).
  f_equal. cbn.
  assert (Hm : <[(frame, "height") := CssPx h2]>
                 (<[(frame, "width") := CssPx w2]>
                    (<[(frame, "height") := CssPx h1]>
                       (<[(frame, "width") := CssPx w1]> (styles s)))) =
               <[(frame, "height") := CssPx h2]>
                 (<[(frame, "width") := CssPx w2]> (styles s))).
  { apply map_eq. intros k. rewrite !lookup_insert.
    repeat case_decide; congruence. }
  rewrite Hm. destruct s; reflexivity.
Qed.

(** ** shimDefaultStyle *)

(** X6. For a panel that has an owner document [shimDefaultStyle] always
    returns, whether the two anonymous wrapper nodes exist or not: it sets
    the padding of those that exist to 0 and changes nothing else, so with
    neither node the store is as before. *)
Theorem shimDefaultStyle_pads_wrappers s panel (document : ref) :
  ownerDocument s !! panel = Some document ->
  exists s',
    shimDefaultStyle panel s = (Ok tt, s') /\
    s' = set_styles (styles s') s /\
    (forall n property,
       styles s' !! (n, property) =
         if decide (property = "padding" /\
                    (getAnonymousElementByAttribute (host s) document panel "class"
                       "panel-inner-arrowcontent" = Some n \/
                     getAnonymousElementByAttribute (host s) document panel "class"
                       "panel-arrowcontent" = Some n))
         then Some (CssNumber (num_of_Z 0))
         else styles s !! (n, property)) /\
    (getAnonymousElementByAttribute (host s) document panel "class"
       "panel-inner-arrowcontent" = None ->
     getAnonymousElementByAttribute (host s) document panel "class"
       "panel-arrowcontent" = None ->
     s' = s).
Proof.
  intros Hd. unfold shimDefaultStyle, forEach. munfold. cbn. rewrite Hd. cbn.
  destruct (getAnonymousElementByAttribute (host s) document panel "class"
              "panel-inner-arrowcontent") as [inner|] eqn:Hi; cbn;
    destruct (getAnonymousElementByAttribute (host s) document panel "class"
                "panel-arrowcontent") as [arrow|] eqn:Ha; cbn;
    eexists; (split; [reflexivity|]); (split; [destruct s; reflexivity|]);
    (split; [|intros; try discriminate; destruct s; reflexivity]);
    intros n property; cbn; rewrite ?lookup_insert;
    repeat (destruct (decide _)); simplify_eq; try reflexivity;
    exfalso; intuition (auto; congruence).
Qed.

(** ** The table of event names *)

(** X7. The translation of host event names is one to one, every system
    name starts with "sdk-panel-", and no system name is itself a host event
    name: an event the module has republished is never translated again. *)
Theorem EVENT_NAMES_one_to_one :
  (forall t1 t2 name,
     EVENT_NAMES t1 = Some name -> EVENT_NAMES t2 = Some name -> t1 = t2) /\
  (forall t name,
     EVENT_NAMES t = Some name ->
     String.prefix "sdk-panel-" name = true /\ EVENT_NAMES name = None).
Proof.
  split.
  - intros t1 t2 name. unfold EVENT_NAMES.
    repeat case_decide; intros Ha Hb; congruence.
  - intros t name. unfold EVENT_NAMES at 1.
    repeat case_decide; intros Ha; inversion Ha; subst; split; reflexivity.
Qed.

(** ** display, whatever its outcome *)

(** X8. [display] opens the popup exactly when it returns: on return the
    one call it has made is [openPopup] for the panel and the anchor it was
    given, and when it throws, which is always a TypeError, it has called
    nothing.  Either way it leaves the tree, the timers and the observers as
    they were. *)
Theorem display_opens_iff_returns s panel (width height : num)
    (anchor : option ref) (r : Result unit) s' :
  display panel width height anchor s = (r, s') ->
  parentNode s' = parentNode s /\ childNodes s' = childNodes s /\
  timers s' = timers s /\ observers s' = observers s /\
  ((r = Ok tt /\
    exists position x y,
      trace s' = trace s ++ [OpenPopup panel anchor position x y]) \/
   (exists msg, r = Throw (TypeError msg) /\ trace s' = trace s)).
Proof.
  unfold display, shimDefaultStyle, forEach. munfold. simpl.
  intros H.
  destruct anchor;
    repeat (case_match; simplify_eq/=);
    (split; [reflexivity|]); (split; [reflexivity|]);
    (split; [reflexivity|]); (split; [reflexivity|]);
    first [ left; split; [reflexivity|]; eauto
          | right; eauto ].
Qed.

(** ** style, when it cannot apply the style *)

Lemma tree_on_throw_bind {A B : Type} (m : M A) (k : A -> M B) :
  keeps parentNode m -> keeps childNodes m ->
  (forall a s e s', k a s = (Throw e, s') ->
     parentNode s' = parentNode s /\ childNodes s' = childNodes s) ->
  forall s e s', bind m k s = (Throw e, s') ->
    parentNode s' = parentNode s /\ childNodes s' = childNodes s.
Proof.
  intros Kp Kc Hk s e s' H.
  apply bind_throw_inv in H as [H|(a & s1 & Hm & H)].
  - split; [exact (Kp _ _ _ H) | exact (Kc _ _ _ H)].
  - destruct (Hk _ _ _ _ H) as [Hp Hc].
    rewrite Hp, Hc. split; [exact (Kp _ _ _ Hm) | exact (Kc _ _ _ Hm)].
Qed.

Lemma appendChild_throw (parent child : ref) s (e : Exn) s' :
  appendChild parent child s = (Throw e, s') -> s' = s.
Proof.
  unfold appendChild, bind, gets, modify, throw.
  destruct (inclusive_ancestor s child parent); intros H; inversion H.
  reflexivity.
Qed.

Lemma insertBefore_throw (parent node reference : ref) s (e : Exn) s' :
  insertBefore parent node reference s = (Throw e, s') -> s' = s.
Proof.
  unfold insertBefore, bind, gets, modify, throw, ret.
  destruct (inclusive_ancestor s node parent); [intros H; inversion H; reflexivity|].
  destruct (decide (parentNode s !! reference = Some parent));
    [|intros H; inversion H; reflexivity].
  destruct (decide (node = reference)); intros H; inversion H.
Qed.

Lemma tree_independent_trace : tree_independent trace.
Proof. intros s pn cn. reflexivity. Qed.

Lemma keeps_getContentDocument {B : Type} (f : State -> B) panel :
  keeps f (getContentDocument panel).
Proof. unfold getContentDocument. keeps_tac. Qed.

(** X9. [style] never throws.  Either it logs nothing, or, a step having
    failed (no themed node, no window, no content document, no container),
    it has logged exactly the error "Unable to apply panel style" and then
    the exception, and the tree is as it was. *)
Theorem style_logs_and_returns s panel :
  exists s',
    style panel s = (Ok tt, s') /\
    (trace s' = trace s \/
     exists e,
       trace s' =
         trace s ++ [ConsoleError "Unable to apply panel style"; ConsoleException e] /\
       parentNode s' = parentNode s /\ childNodes s' = childNodes s).
Proof.
  unfold style, try_catch.
  match goal with |- context [match ?b s with _ => _ end] =>
    set (body := b); destruct (body s) as [[[]|e] s1] eqn:Hbody end.
  - exists s1. split; [reflexivity|]. left.
    assert (K : keeps trace body).
    { unfold body, createElement. tree_tac tree_independent_trace. }
    exact (K _ _ _ Hbody).
  - eexists. split; [reflexivity|]. right. exists e.
    assert (K : keeps trace body).
    { unfold body, createElement. tree_tac tree_independent_trace. }
    cbn. rewrite (K _ _ _ Hbody), <- app_assoc. split; [reflexivity|].
    revert Hbody. unfold body. clear.
    revert s e s1.
    apply tree_on_throw_bind; [keeps_tac..|]; intros document.
    apply tree_on_throw_bind; [apply keeps_getContentDocument..|]; intros cd.
    do 7 (apply tree_on_throw_bind; [keeps_tac..|]; intros ?).
    apply tree_on_throw_bind;
      [unfold createElement; keeps_tac..|]; intros node.
    do 4 (apply tree_on_throw_bind; [keeps_tac..|]; intros ?).
    apply tree_on_throw_bind; [keeps_tac..|]; intros first.
    intros s e s' H. destruct first as [first|].
    + apply insertBefore_throw in H. subst. split; reflexivity.
    + apply appendChild_throw in H. subst. split; reflexivity.
Qed.

(** ** dispose, once it has run *)

(** The store [dispose] leaves, written out. *)
Lemma dispose_run s panel (frame parent : ref) (handler : Observer) :
  panel_backgroundFrame s !! panel = Some frame ->
  parentNode s !! frame = Some parent ->
  panel_onContentChange s !! panel = Some handler ->
  dispose panel s =
    (Ok tt,
     unlink panel
       (set_panel_onContentChange (delete panel (panel_onContentChange s))
          (set_observers
             (filter (fun r => r <> ("document-element-inserted", handler))
                (observers s))
             (set_trace
                (trace s ++ [Unsubscribe "document-element-inserted" (Some handler)])
                (set_panel_backgroundFrame (delete panel (panel_backgroundFrame s))
                   (unlink frame s)))))).
Proof.
  intros Hbf Hpar Hh.
  destruct (unlink_other_fields frame s)
    as (_&_&_&_&_&_&_&Hu_bf&Hu_cc&_&Hu_obs&_&Hu_tr&_&_).
  unfold dispose.
  rewrite (bind_ok _ _ s (Some frame) s) by (unfold gets; rewrite Hbf; reflexivity).
  rewrite (bind_ok _ _ s frame s) by reflexivity.
  rewrite (bind_ok _ _ s (Some parent) s) by (unfold gets; rewrite Hpar; reflexivity).
  rewrite (bind_ok _ _ s parent s) by reflexivity.
  rewrite (bind_ok _ _ s tt (unlink frame s)) by (apply removeChild_ok; exact Hpar).
  erewrite bind_ok by reflexivity.
  erewrite (bind_ok _ _ _ (Some handler)) by
    (unfold gets; cbn; rewrite Hu_cc, Hh; reflexivity).
  erewrite bind_ok by reflexivity.
  erewrite bind_ok by reflexivity.
  rewrite detach_run. cbn. rewrite Hu_bf, Hu_cc, Hu_obs, Hu_tr. reflexivity.
Qed.

(** X10. A panel cannot be disposed twice: after [dispose] has run, a
    second [dispose] throws a TypeError (the background frame is gone) and
    changes nothing. *)
Theorem dispose_twice_throws s panel (frame parent : ref) (handler : Observer) :
  panel_backgroundFrame s !! panel = Some frame ->
  parentNode s !! frame = Some parent ->
  panel_onContentChange s !! panel = Some handler ->
  exists s' msg,
    dispose panel s = (Ok tt, s') /\
    dispose panel s' = (Throw (TypeError msg), s').
Proof.
  intros Hbf Hpar Hh. eexists. eexists.
  split; [apply (dispose_run _ _ _ _ _ Hbf Hpar Hh)|].
  match goal with |- dispose _ ?st = _ => set (s' := st) end.
  assert (Hnone : panel_backgroundFrame s' !! panel = None).
  { unfold s'.
    match goal with |- context [unlink panel ?X] =>
      destruct (unlink_other_fields panel X) as (_&_&_&_&_&_&_&->&_) end.
    cbn. apply lookup_delete_eq. }
  unfold dispose.
  rewrite (bind_ok _ _ s' None s') by (unfold gets; rewrite Hnone; reflexivity).
  reflexivity.
Qed.

(** X11. [dispose] removes no DOM listener: the listeners [make] registered
    on the panel and on the background frame are still there.  For a panel
    that is not open the content frame is then missing, so the content
    handlers that are still registered throw a TypeError at whatever event
    reaches them, having done nothing. *)
Theorem dispose_leaves_dom_listeners s panel (frame parent : ref)
    (handler : Observer) :
  panel_backgroundFrame s !! panel = Some frame ->
  parentNode s !! frame = Some parent ->
  panel_onContentChange s !! panel = Some handler ->
  exists s',
    dispose panel s = (Ok tt, s') /\
    domListeners s' = domListeners s /\
    (isOpen s panel = false ->
     getContentFrame s' panel = None /\
     forall fuel type target,
       exists msg,
         run_handler fuel (Closure_onContentReady panel) type target s' =
           (Throw (TypeError msg), s') /\
         run_handler fuel (Closure_onContentLoad panel) type target s' =
           (Throw (TypeError msg), s')).
Proof.
  intros Hbf Hpar Hh. eexists.
  split; [apply (dispose_run _ _ _ _ _ Hbf Hpar Hh)|].
  match goal with |- domListeners ?st = _ /\ _ => set (s' := st) end.
  assert (Hfields : domListeners s' = domListeners s /\
                    panel_backgroundFrame s' !! panel = None /\
                    host s' = host s).
  { unfold s'.
    match goal with |- context [unlink panel ?X] =>
      destruct (unlink_other_fields panel X)
        as (_&_&_&_&_&_&_&->&_&->&_&_&_&_&->) end.
    destruct (unlink_other_fields frame s)
      as (_&_&_&_&_&_&_&_&_&Hdl&_&_&_&_&Hhost).
    cbn. rewrite Hdl, Hhost.
    split; [reflexivity|]. split; [apply lookup_delete_eq | reflexivity]. }
  destruct Hfields as (Hdl & Hnone & Hhost).
  split; [exact Hdl|].
  intros Hclosed.
  assert (Hframe : getContentFrame s' panel = None).
  { unfold getContentFrame, isOpen in *. rewrite Hhost, Hclosed. exact Hnone. }
  split; [exact Hframe|].
  intros fuel type target. eexists.
  assert (Hcd : forall B (k : option ref -> M B),
            bind (getContentDocument panel) k s' =
              (Throw (TypeError "getContentFrame(...) is null"), s')).
  { intros B k. apply bind_throw. unfold getContentDocument.
    rewrite (bind_ok _ _ s' None s') by (unfold gets; rewrite Hframe; reflexivity).
    reflexivity. }
  split; unfold run_handler, onContentReady, onContentLoad; apply Hcd.
Qed.

(** ** The handlers that only republish *)

Lemma keeps_events_emit {B : Type} (f : State -> B) :
  (forall s t, f (set_trace t s) = f s) ->
  forall fuel type subject, keeps f (events_emit fuel type subject).
Proof.
  intros Hf. induction fuel as [|fuel IH]; intros type subject s r s' H.
  - destruct (events_emit_records 0 type subject s) as (s1 & Heq & ->).
    rewrite Heq in H. clear Heq.
    rewrite <- (Hf s (trace s ++ [Emit type subject])).
    revert H. generalize (set_trace (trace s ++ [Emit type subject]) s).
    clear s. intros s H. revert s r s' H.
    change (keeps f
      (bind (gets (fun s => filter (fun r => Some r.1 = type) (observers s)))
         (fun registered =>
            forEach registered (fun _ => throw (InternalError "too much recursion"))))).
    keeps_tac.
  - destruct (events_emit_records (S fuel) type subject s) as (s1 & Heq & ->).
    rewrite Heq in H. clear Heq.
    rewrite <- (Hf s (trace s ++ [Emit type subject])).
    revert H. generalize (set_trace (trace s ++ [Emit type subject]) s).
    clear s. intros s H. revert s r s' H.
    change (keeps f
      (bind (gets (fun s => filter (fun r => Some r.1 = type) (observers s)))
         (fun registered =>
            forEach registered (fun r =>
              call (Notify r.2 type subject) >>
              run_observer (events_emit fuel) r.2 type subject)))).
    apply keeps_bind; [apply keeps_gets|]. intros registered.
    apply keeps_forEach. intros [t [p]].
    apply keeps_bind; [apply keeps_modify; intros s; apply Hf|]. intros _.
    unfold run_observer, onContentChange. cbn [snd].
    apply keeps_bind; [apply keeps_getContentDocument|]. intros current.
    destruct (decide (Some subject = current)); [|apply keeps_ret].
    apply keeps_bind; [apply keeps_gets|]. intros [w|]; [apply IH | apply keeps_ret].
Qed.

(** An emission changes the trace and nothing else. *)
Lemma events_emit_only_trace (fuel : nat) (type : option string) (subject : ref)
    s (r : Result unit) s' :
  events_emit fuel type subject s = (r, s') -> s' = set_trace (trace s') s.
Proof.
  intros H.
  pose proof (keeps_events_emit
    (fun s => (parentNode s, childNodes s, ownerDocument s, tagName s, nodeId s,
               textContent s, attributes s, styles s, contentDocument s,
               panel_backgroundFrame s, panel_onContentChange s, domListeners s,
               observers s, timers s, next s, host s))
    (fun _ _ => eq_refl) fuel type subject s r s' H) as K.
  destruct s, s'. cbn in K. inversion K; subst. reflexivity.
Qed.

Lemma getContentDocument_result s panel :
  getContentDocument panel s =
    (match getContentFrame s panel with
     | Some frame => Ok (contentDocument s !! frame)
     | None => Throw (TypeError "getContentFrame(...) is null")
     end, s).
Proof.
  unfold getContentDocument, bind, gets, deref, ret, throw.
  destruct (getContentFrame s panel); reflexivity.
Qed.

(** X12. The handlers [onContentLoad] and [onPanelStateChange] only
    republish: whatever happens they change nothing in the store but the
    trace.  [onPanelStateChange] always emits the translated name;
    [onContentLoad] emits it when the target is the panel's current content
    document and does nothing at all for any other target. *)
Theorem load_and_state_handlers_only_emit (fuel : nat) s panel (type : string)
    (target : ref) :
  (forall r s',
     run_handler fuel (Closure_onPanelStateChange panel) type target s = (r, s') ->
     s' = set_trace (trace s') s /\
     exists rest, trace s' = trace s ++ Emit (EVENT_NAMES type) panel :: rest) /\
  (forall r s',
     run_handler fuel (Closure_onContentLoad panel) type target s = (r, s') ->
     s' = set_trace (trace s') s /\
     (getContentDocument panel s = (Ok (Some target), s) ->
      exists rest, trace s' = trace s ++ Emit (EVENT_NAMES type) panel :: rest) /\
     (forall current,
        getContentDocument panel s = (Ok current, s) -> current <> Some target ->
        r = Ok tt /\ s' = s)).
Proof.
  split.
  - intros r s' H. unfold run_handler, onPanelStateChange in H.
    split; [exact (events_emit_only_trace _ _ _ _ _ _ H)|].
    destruct (events_emit_notifies _ _ _ _ _ _ H) as (_ & rest & Ht & _).
    exists rest. exact Ht.
  - intros r s' H. unfold run_handler, onContentLoad in H.
    unfold bind in H.
    rewrite (getContentDocument_result s panel) in *.
    destruct (getContentFrame s panel) as [frame|].
    + destruct (decide (Some target = contentDocument s !! frame)) as [Heq|Hne].
      * split; [exact (events_emit_only_trace _ _ _ _ _ _ H)|].
        split.
        -- intros _.
           destruct (events_emit_notifies _ _ _ _ _ _ H) as (_ & rest & Ht & _).
           exists rest. exact Ht.
        -- intros current Hc Hcur. inversion Hc; subst. congruence.
      * inversion H; subst. split; [destruct s'; reflexivity|].
        split; [intros Hc; inversion Hc; congruence|].
        intros; split; reflexivity.
    + inversion H; subst. split; [destruct s'; reflexivity|].
      split; [intros Hc; inversion Hc|]. intros current Hc. inversion Hc.
Qed.

(** ** The content-change handler and the documents of other panels *)

(** An event whose name has no translation is republished, if at all, under
    no name. *)
Lemma events_emit_untranslated (fuel : nat) :
  forall (type : option string) (subject : ref) s r s',
    type ≫= EVENT_NAMES = None ->
    events_emit fuel type subject s = (r, s') ->
    exists rest,
      trace s' = trace s ++ Emit type subject :: rest /\
      forall t y, Emit t y ∈ rest -> t = None.
Proof.
  induction fuel as [|fuel IH]; intros type subject s r s' Hnone H.
  - destruct (events_emit_records 0 type subject s) as (s1 & Heq & ->).
    rewrite Heq in H. clear Heq. unfold bind, gets in H. cbn beta iota in H.
    apply (forEach_rel (fun s1 s2 => exists new,
             trace s2 = trace s1 ++ new /\
             forall t y, Emit t y ∈ new -> t = None)) in H.
    + destruct H as (new & Ht & Hn). exists new. split; [|exact Hn].
      rewrite Ht. cbn. rewrite <- app_assoc. reflexivity.
    + intros s0. exists []. split; [rewrite app_nil_r; reflexivity|].
      intros t y Hin. apply elem_of_nil in Hin. destruct Hin.
    + intros s1 s2 s3 (n1 & H1 & Hn1) (n2 & H2 & Hn2). exists (n1 ++ n2).
      split; [rewrite H2, H1, app_assoc; reflexivity|].
      intros t y Hin. apply elem_of_app in Hin as [Hin|Hin]; eauto.
    + intros a s2 r2 s3 _ Hthrow. inversion Hthrow; subst.
      exists []. split; [rewrite app_nil_r; reflexivity|].
      intros t y Hin. apply elem_of_nil in Hin. destruct Hin.
  - destruct (events_emit_records (S fuel) type subject s) as (s1 & Heq & ->).
    rewrite Heq in H. clear Heq. unfold bind at 1, gets in H. cbn beta iota in H.
    apply (forEach_rel (fun s1 s2 => exists new,
             trace s2 = trace s1 ++ new /\
             forall t y, Emit t y ∈ new -> t = None)) in H.
    + destruct H as (new & Ht & Hn). exists new. split; [|exact Hn].
      rewrite Ht. cbn. rewrite <- app_assoc. reflexivity.
    + intros s0. exists []. split; [rewrite app_nil_r; reflexivity|].
      intros t y Hin. apply elem_of_nil in Hin. destruct Hin.
    + intros s1 s2 s3 (n1 & H1 & Hn1) (n2 & H2 & Hn2). exists (n1 ++ n2).
      split; [rewrite H2, H1, app_assoc; reflexivity|].
      intros t y Hin. apply elem_of_app in Hin as [Hin|Hin]; eauto.
    + intros [t [p]] s2 r2 s3 _ Hrun.
      unfold run_observer, onContentChange, call, bind, modify in Hrun.
      cbn [snd] in Hrun.
      rewrite getContentDocument_result in Hrun.
      assert (Hnothing : forall st : State,
                st = set_trace
                       (trace s2 ++ [Notify (Closure_onContentChange p) type subject])
                       s2 ->
                exists new, trace st = trace s2 ++ new /\
                            forall t0 y, Emit t0 y ∈ new -> t0 = None).
      { intros st ->. eexists. split; [reflexivity|].
        intros t0 y Hin. apply list_elem_of_singleton in Hin. discriminate. }
      destruct (getContentFrame _ p) as [frame|];
        [|inversion Hrun; subst; apply Hnothing; reflexivity].
      destruct (decide _); [|inversion Hrun; subst; apply Hnothing; reflexivity].
      unfold gets in Hrun.
      destruct (defaultView _ subject);
        [|inversion Hrun; subst; apply Hnothing; reflexivity].
      rewrite Hnone in Hrun.
      apply IH in Hrun as (rest & Htr & Hn); [|reflexivity].
      cbn in Htr.
      exists (Notify (Closure_onContentChange p) type subject ::
              Emit None p :: rest).
      split; [rewrite Htr, <- app_assoc; reflexivity|].
      intros t0 y Hin.
      apply elem_of_cons in Hin as [Hin|Hin]; [discriminate|].
      apply elem_of_cons in Hin as [Hin|Hin]; [inversion Hin; reflexivity|].
      exact (Hn _ _ Hin).
Qed.

(** X13. No cross-talk on the event bus: when "document-element-inserted"
    is emitted for a document, "sdk-panel-content-changed" is republished
    only for panels whose handler is registered and whose current content
    document is that very document, shown in a window; no other panel
    republishes it. *)
Theorem content_change_without_cross_talk (fuel : nat) (subject : ref) s
    (r : Result unit) s' :
  events_emit fuel (Some "document-element-inserted") subject s = (r, s') ->
  exists rest,
    trace s' =
      trace s ++ Emit (Some "document-element-inserted") subject :: rest /\
    forall panel,
      Emit (Some "sdk-panel-content-changed") panel ∈ rest ->
      getContentDocument panel s = (Ok (Some subject), s) /\
      is_Some (defaultView (host s) subject) /\
      ("document-element-inserted", Closure_onContentChange panel) ∈ observers s.
Proof.
  intros H.
  set (cond := fun panel : ref =>
    getContentDocument panel s = (Ok (Some subject), s) /\
    is_Some (defaultView (host s) subject) /\
    ("document-element-inserted", Closure_onContentChange panel) ∈ observers s).
  set (R := fun s1 s2 : State =>
    s1 = set_trace (trace s1) s ->
    s2 = set_trace (trace s2) s /\
    exists new, trace s2 = trace s1 ++ new /\
      forall panel, Emit (Some "sdk-panel-content-changed") panel ∈ new ->
                    cond panel).
  assert (Rrefl : forall s1, R s1 s1).
  { intros s1 Hs1. split; [exact Hs1|]. exists [].
    split; [rewrite app_nil_r; reflexivity|].
    intros p Hin. apply elem_of_nil in Hin. destruct Hin. }
  assert (Rtrans : forall s1 s2 s3, R s1 s2 -> R s2 s3 -> R s1 s3).
  { intros s1 s2 s3 H12 H23 Hs1.
    destruct (H12 Hs1) as (Hs2 & n1 & Ht1 & Hn1).
    destruct (H23 Hs2) as (Hs3 & n2 & Ht2 & Hn2).
    split; [exact Hs3|]. exists (n1 ++ n2).
    split; [rewrite Ht2, Ht1, app_assoc; reflexivity|].
    intros p Hin. apply elem_of_app in Hin as [Hin|Hin]; eauto. }
  assert (Hfinish : forall st : State,
    R (set_trace (trace s ++ [Emit (Some "document-element-inserted") subject]) s) st ->
    exists rest,
      trace st = trace s ++ Emit (Some "document-element-inserted") subject :: rest /\
      forall panel, Emit (Some "sdk-panel-content-changed") panel ∈ rest ->
                    cond panel).
  { intros st HR. destruct HR as (_ & new & Ht & Hn); [destruct s; reflexivity|].
    exists new. split; [|exact Hn].
    rewrite Ht. cbn. rewrite <- app_assoc. reflexivity. }
  destruct fuel as [|fuel].
  - destruct (events_emit_records 0 (Some "document-element-inserted") subject s)
      as (s1 & Heq & ->).
    rewrite Heq in H. clear Heq. unfold bind, gets in H. cbn beta iota in H.
    apply Hfinish. revert H. apply forEach_rel; [exact Rrefl | exact Rtrans|].
    intros a s2 r2 s3 _ Hthrow. inversion Hthrow; subst. apply Rrefl.
  - destruct (events_emit_records (S fuel) (Some "document-element-inserted")
                subject s) as (s1 & Heq & ->).
    rewrite Heq in H. clear Heq. unfold bind at 1, gets in H. cbn beta iota in H.
    apply Hfinish. revert H. apply forEach_rel; [exact Rrefl | exact Rtrans|].
    intros [t [p]] s2 r2 s3 Hin Hrun Hs2.
    apply list_elem_of_filter in Hin as [Ht Hin]. cbn in Ht, Hin.
    inversion Ht; subst t. clear Ht.
    unfold run_observer, onContentChange, call, bind, modify in Hrun.
    cbn [snd] in Hrun.
    rewrite getContentDocument_result in Hrun.
    set (s2' := set_trace
                  (trace s2 ++
                     [Notify (Closure_onContentChange p)
                        (Some "document-element-inserted") subject]) s2) in *.
    assert (Hs2' : s2' = set_trace (trace s2') s).
    { unfold s2'. rewrite Hs2. destruct s; reflexivity. }
    assert (Hquiet : R s2 s2').
    { intros _. split; [exact Hs2'|]. eexists. split; [reflexivity|].
      intros q Hq. apply list_elem_of_singleton in Hq. discriminate. }
    assert (Hframe : getContentFrame s2' p = getContentFrame s p).
    { rewrite Hs2'. reflexivity. }
    assert (Hcdoc : contentDocument s2' = contentDocument s).
    { rewrite Hs2'. reflexivity. }
    assert (Hhost : host s2' = host s) by (rewrite Hs2'; reflexivity).
    assert (Hobs : observers s2' = observers s) by (rewrite Hs2'; reflexivity).
    rewrite Hframe, Hcdoc in Hrun.
    destruct (getContentFrame s p) as [frame|] eqn:Hf;
      [|inversion Hrun; subst; apply Hquiet; exact Hs2].
    destruct (decide (Some subject = contentDocument s !! frame)) as [Hdoc|];
      [|inversion Hrun; subst; apply Hquiet; exact Hs2].
    unfold gets in Hrun. rewrite Hhost in Hrun.
    destruct (defaultView (host s) subject) as [w|] eqn:Hw;
      [|inversion Hrun; subst; apply Hquiet; exact Hs2].
    pose proof (events_emit_only_trace _ _ _ _ _ _ Hrun) as Hs3.
    apply events_emit_untranslated in Hrun as (rest & Htr & Hn); [|reflexivity].
    split; [rewrite Hs3, Hs2'; destruct s; reflexivity|].
    exists (Notify (Closure_onContentChange p)
              (Some "document-element-inserted") subject ::
            Emit (Some "sdk-panel-content-changed") p :: rest).
    split; [rewrite Htr; unfold s2'; cbn; rewrite <- app_assoc; reflexivity|].
    intros q Hq.
    apply elem_of_cons in Hq as [Hq|Hq]; [discriminate|].
    apply elem_of_cons in Hq as [Hq|Hq].
    + inversion Hq; subst q. unfold cond.
      rewrite getContentDocument_result, Hf, <- Hdoc.
      split; [reflexivity|].
      split; [eexists; first [exact Hw | reflexivity]|].
      exact Hin.
    + apply Hn in Hq. discriminate.
Qed.

(** ** The display handler and the active content document *)

Lemma lookup_put_contentDocument (frame x : ref) (d : option ref)
    (m : gmap ref ref) :
  put_contentDocument frame d m !! x =
    if decide (frame = x) then d else m !! x.
Proof.
  unfold put_contentDocument. destruct d as [d|].
  - rewrite lookup_insert. destruct (decide (frame = x)); reflexivity.
  - rewrite lookup_delete. destruct (decide (frame = x)); reflexivity.
Qed.


(** ** make, from start to end *)

Lemma wf_tree_ext s s' :
  parentNode s' = parentNode s -> childNodes s' = childNodes s ->
  wf_tree s -> wf_tree s'.
Proof.
  unfold wf_tree, children_of. intros -> ->. exact (fun H => H).
Qed.

Lemma fresh_from_next_ext s s' :
  parentNode s' = parentNode s -> next s <= next s' ->
  fresh_from_next s -> fresh_from_next s'.
Proof.
  unfold fresh_from_next. intros -> Hle Hf c q Hq.
  destruct (Hf _ _ Hq). lia.
Qed.

Lemma fresh_orphan s (n : ref) :
  fresh_from_next s -> next s <= n -> parentNode s !! n = None.
Proof.
  intros Hf Hn. destruct (parentNode s !! n) as [q|] eqn:Hq; [|reflexivity].
  destruct (Hf _ _ Hq). lia.
Qed.

Lemma fresh_childless s (n : ref) :
  wf_tree s -> fresh_from_next s -> next s <= n -> children_of s n = [].
Proof.
  intros [Hpc _] Hf Hn.
  destruct (children_of s n) as [|c l] eqn:Hch; [reflexivity|].
  assert (Hc : parentNode s !! c = Some n).
  { apply Hpc. rewrite Hch. apply elem_of_cons. left. reflexivity. }
  destruct (Hf _ _ Hc). lia.
Qed.

Lemma fresh_children s (q c : ref) :
  wf_tree s -> fresh_from_next s -> c ∈ children_of s q -> c < next s.
Proof.
  intros [Hpc _] Hf Hin. apply Hpc in Hin. destruct (Hf _ _ Hin). lia.
Qed.

Lemma fresh_not_ancestor s (n x : ref) :
  fresh_from_next s -> next s <= n -> x < n ->
  inclusive_ancestor s n x = false.
Proof.
  intros Hf Hn Hx. unfold inclusive_ancestor.
  apply ancestor_within_fresh; [|exact Hx].
  intros c q Hq. destruct (Hf _ _ Hq). lia.
Qed.

Lemma fresh_from_next_link_last s (parent child : ref) :
  fresh_from_next s -> parent < next s -> child < next s ->
  fresh_from_next (link_last parent child s).
Proof.
  intros Hf Hp Hc c q. unfold link_last. cbn.
  destruct (decide (c = child)) as [->|Hne].
  - rewrite lookup_insert_eq. intros [= <-]. lia.
  - rewrite lookup_insert_ne by congruence. apply Hf.
Qed.

(** The frame module's [create] on a target that is in the store: the new
    frame is the next node, appended to the target. *)
Lemma createFrame_run (target : ref) (options : FrameOptions) s (document : ref) :
  wf_tree s -> fresh_from_next s -> target < next s ->
  ownerDocument s !! target = Some document ->
  exists s',
    createFrame target options s = (Ok (next s), s') /\
    wf_tree s' /\ fresh_from_next s' /\
    parentNode s' = <[next s := target]> (parentNode s) /\
    (forall q, children_of s' q =
       if decide (q = target) then children_of s target ++ [next s]
       else children_of s q) /\
    next s' = S (next s) /\
    ownerDocument s' = <[next s := document]> (ownerDocument s) /\
    trace s' = trace s ++ [CreateFrame (next s) options] /\
    observers s' = observers s /\ host s' = host s /\
    panel_backgroundFrame s' = panel_backgroundFrame s /\
    panel_onContentChange s' = panel_onContentChange s /\
    contentDocument s' = contentDocument s /\
    domListeners s' = domListeners s /\
    attributes s' = created_frame_attributes (next s) options (attributes s) /\
    styles s' = styles s.
Proof.
  intros Hwf Hf Ht Hod.
  set (tag := if browser options then "browser" else "iframe").
  set (s1 := set_next (S (next s))
               (set_tagName (<[next s := tag]> (tagName s))
                  (set_ownerDocument (<[next s := document]> (ownerDocument s)) s))).
  set (s2 := set_attributes (<[(next s, "type") := "content"]> (attributes s1)) s1).
  set (s3 := set_attributes (<[(next s, "src") := uri options]> (attributes s2)) s2).
  set (s4 := link_last target (next s) s3).
  set (s5 := set_trace (trace s4 ++ [CreateFrame (next s) options]) s4).
  assert (Hwf3 : wf_tree s3) by (apply (wf_tree_ext s); [reflexivity..|exact Hwf]).
  assert (Hf3 : fresh_from_next s3).
  { apply (fresh_from_next_ext s); [reflexivity| cbn; lia |exact Hf]. }
  assert (Horphan : parentNode s3 !! next s = None).
  { change (parentNode s3) with (parentNode s). apply fresh_orphan; [exact Hf|lia]. }
  assert (Hanc : inclusive_ancestor s3 (next s) target = false).
  { unfold inclusive_ancestor. change (parentNode s3) with (parentNode s).
    apply (fresh_not_ancestor s); [exact Hf | lia | exact Ht]. }
  exists s5. split.
  - unfold createFrame.
    rewrite (bind_ok _ _ s (Some document) s) by (unfold gets; rewrite Hod; reflexivity).
    rewrite (bind_ok _ _ s document s) by reflexivity.
    rewrite (bind_ok _ _ s (next s) s1) by reflexivity.
    rewrite (bind_ok _ _ s1 tt s2) by reflexivity.
    rewrite (bind_ok _ _ s2 tt s3) by reflexivity.
    rewrite (bind_ok _ _ s3 tt s4).
    + reflexivity.
    + unfold appendChild.
      rewrite (bind_ok _ _ s3 false s3) by (unfold gets; rewrite Hanc; reflexivity).
      unfold modify. rewrite unlink_orphan by exact Horphan. reflexivity.
  - assert (Hwf4 : wf_tree s4) by (apply wf_tree_link_last; assumption).
    assert (Hf4 : fresh_from_next s4).
    { apply fresh_from_next_link_last; [exact Hf3 | cbn; lia | cbn; lia]. }
    split; [apply (wf_tree_ext s4); [reflexivity..|exact Hwf4]|].
    split; [apply (fresh_from_next_ext s4); [reflexivity|reflexivity|exact Hf4]|].
    split; [reflexivity|].
    split.
    { intros q. change (children_of s5 q) with (children_of s4 q).
      unfold s4. rewrite children_of_link_last. reflexivity. }
    repeat split.
Qed.

Lemma setupPanelFrame_run (frame : ref) s :
  exists s',
    setupPanelFrame frame s = (Ok tt, s') /\
    parentNode s' = parentNode s /\ childNodes s' = childNodes s /\
    next s' = next s /\ ownerDocument s' = ownerDocument s /\
    trace s' = trace s /\ observers s' = observers s /\ host s' = host s /\
    panel_backgroundFrame s' = panel_backgroundFrame s /\
    panel_onContentChange s' = panel_onContentChange s /\
    contentDocument s' = contentDocument s /\
    domListeners s' = domListeners s /\
    attributes s' = panel_frame_attributes frame (attributes s) /\
    styles s' = panel_frame_styles (platform (host s)) frame (styles s).
Proof.
  unfold setupPanelFrame, setAttribute, set_style, bind, modify, gets, ret.
  unfold panel_frame_styles.
  cbn. destruct (decide _); eexists; (split; [reflexivity|]); repeat split.
Qed.

(** The store [make] leaves, field by field, when the document has the
    popup container and the add-on window is in the store. *)
Lemma make_run (od : option ref) s (document container addonDoc : ref) :
  wf_tree s -> fresh_from_next s ->
  default_document od s = (Ok document, s) ->
  getElementById (host s) document "mainPopupSet" = Some container ->
  container < next s ->
  addonWindow (host s) < next s ->
  ownerDocument s !! addonWindow (host s) = Some addonDoc ->
  exists s',
    make od s = (Ok (next s), s') /\
    wf_tree s' /\ fresh_from_next s' /\
    parentNode s' =
      <[S (S (next s)) := next s]>
        (<[S (next s) := addonWindow (host s)]>
           (<[next s := container]> (parentNode s))) /\
    (forall q, children_of s' q =
       if decide (q = next s) then [S (S (next s))]
       else (if decide (q = container) then children_of s q ++ [next s]
             else children_of s q) ++
            (if decide (q = addonWindow (host s)) then [S (next s)] else [])) /\
    next s' = S (S (S (next s))) /\ host s' = host s /\
    panel_backgroundFrame s' = <[next s := S (next s)]> (panel_backgroundFrame s) /\
    panel_onContentChange s' =
      <[next s := Closure_onContentChange (next s)]> (panel_onContentChange s) /\
    observers s' =
      (if decide (("document-element-inserted", Closure_onContentChange (next s))
                    ∈ observers s)
       then observers s
       else observers s ++
              [("document-element-inserted", Closure_onContentChange (next s))]) /\
    trace s' = trace s ++
      [CreateFrame (S (next s)) frameOptions;
       CreateFrame (S (S (next s))) frameOptions;
       Subscribe "document-element-inserted" (Closure_onContentChange (next s))] /\
    contentDocument s' = contentDocument s /\
    attributes s' =
      panel_frame_attributes (S (S (next s)))
        (created_frame_attributes (S (S (next s))) frameOptions
           (panel_frame_attributes (S (next s))
              (created_frame_attributes (S (next s)) frameOptions
                 (<[(next s, "type") := "arrow"]> (attributes s))))) /\
    styles s' =
      panel_frame_styles (platform (host s)) (S (S (next s)))
        (panel_frame_styles (platform (host s)) (S (next s)) (styles s)).
Proof.
  intros Hwf Hf Hdoc Hc Hcl Hal Haod.
  set (n := next s) in *.
  set (s2 := set_next (S n)
               (set_tagName (<[n := "panel"]> (tagName s))
                  (set_ownerDocument (<[n := document]> (ownerDocument s)) s))).
  set (s3 := set_attributes (<[(n, "type") := "arrow"]> (attributes s2)) s2).
  set (s4 := link_last container n s3).
  assert (Hwf3 : wf_tree s3) by (apply (wf_tree_ext s); [reflexivity..|exact Hwf]).
  assert (Hf3 : fresh_from_next s3).
  { apply (fresh_from_next_ext s); [reflexivity| cbn; lia |exact Hf]. }
  assert (Horphan : parentNode s3 !! n = None).
  { change (parentNode s3) with (parentNode s). apply fresh_orphan; [exact Hf|unfold n; lia]. }
  assert (Hattach : attach n (Some document) s3 = (Ok tt, s4)).
  { unfold s4. rewrite <- (unlink_orphan s3 n Horphan) at 2.
    apply attach_moves.
    - exact Hc.
    - rewrite Horphan. discriminate.
    - rewrite unlink_orphan by exact Horphan.
      unfold inclusive_ancestor. change (parentNode s3) with (parentNode s).
      apply (fresh_not_ancestor s); [exact Hf | unfold n; lia | exact Hcl]. }
  assert (Hwf4 : wf_tree s4) by (apply wf_tree_link_last; assumption).
  assert (Hf4 : fresh_from_next s4).
  { apply fresh_from_next_link_last; [exact Hf3 | cbn; lia | cbn; lia]. }
  destruct (createFrame_run (addonWindow (host s)) frameOptions s4 addonDoc)
    as (s6 & Hrun6 & Hwf6 & Hf6 & Hpn6 & Hch6 & Hn6 & Hod6 & Htr6 & Hob6 & Hh6
        & Hbf6 & Hcc6 & Hcd6 & Hdl6 & Hat6 & Hst6);
    [exact Hwf4 | exact Hf4 | cbn; lia | | ].
  { cbn. rewrite lookup_insert_ne by (unfold n; lia). exact Haod. }
  destruct (setupPanelFrame_run (S n) s6)
    as (s7 & Hrun7 & Hpn7 & Hcn7 & Hn7 & Hod7 & Htr7 & Hob7 & Hh7 & Hbf7 & Hcc7
        & Hcd7 & Hdl7 & Hat7 & Hst7).
  assert (Hwf7 : wf_tree s7) by (apply (wf_tree_ext s6); assumption).
  assert (Hf7 : fresh_from_next s7).
  { apply (fresh_from_next_ext s6); [assumption | lia | assumption]. }
  destruct (createFrame_run n frameOptions s7 document)
    as (s8 & Hrun8 & Hwf8 & Hf8 & Hpn8 & Hch8 & Hn8 & Hod8 & Htr8 & Hob8 & Hh8
        & Hbf8 & Hcc8 & Hcd8 & Hdl8 & Hat8 & Hst8);
    [exact Hwf7 | exact Hf7 | rewrite Hn7, Hn6; cbn; lia | | ].
  { rewrite Hod7, Hod6. cbn. rewrite lookup_insert_ne by lia.
    apply lookup_insert_eq. }
  destruct (setupPanelFrame_run (S (S n)) s8)
    as (s9 & Hrun9 & Hpn9 & Hcn9 & Hn9 & Hod9 & Htr9 & Hob9 & Hh9 & Hbf9 & Hcc9
        & Hcd9 & Hdl9 & Hat9 & Hst9).
  change (next s4) with (S n) in *.
  assert (Hn7' : next s7 = S (S n)) by (rewrite Hn7; exact Hn6).
  rewrite Hn7' in *.
  unfold make.
  rewrite (bind_ok _ _ s document s) by exact Hdoc.
  rewrite (bind_ok _ _ s n s2) by reflexivity.
  rewrite (bind_ok _ _ s2 tt s3) by reflexivity.
  rewrite (bind_ok _ _ s3 tt s4) by exact Hattach.
  rewrite (bind_ok _ _ s4 (addonWindow (host s)) s4) by reflexivity.
  rewrite (bind_ok _ _ s4 (S n) s6) by exact Hrun6.
  rewrite (bind_ok _ _ s6 tt s7) by exact Hrun7.
  rewrite (bind_ok _ _ s7 (S (S n)) s8) by exact Hrun8.
  rewrite (bind_ok _ _ s8 tt s9) by exact Hrun9.
  do 8 (erewrite bind_ok by reflexivity).
  match goal with |- context [bind (events_on ?t ?o) _ ?st] =>
    destruct (events_on t o st) as [r10 s10] eqn:Hon end.
  assert (Hon' := Hon).
  apply events_on_inv in Hon' as (-> & _ & _ & Hbf10 & Hcc10 & Hpn10).
  rewrite (bind_ok _ _ _ tt s10) by exact Hon.
  unfold events_on, call, bind, modify in Hon. cbn beta iota in Hon.
  injection Hon as Hs10.
  do 2 (erewrite bind_ok by reflexivity).
  eexists. split; [reflexivity|].
  assert (Hcn10 : childNodes s10 = childNodes s9).
  { rewrite <- Hs10. destruct (decide _); reflexivity. }
  assert (Hpn10' : parentNode s10 = parentNode s9) by exact Hpn10.
  assert (Hnx10 : next s10 = next s9).
  { rewrite <- Hs10. destruct (decide _); reflexivity. }
  assert (Hh10 : host s10 = host s9).
  { rewrite <- Hs10. destruct (decide _); reflexivity. }
  assert (Hcd10 : contentDocument s10 = contentDocument s9).
  { rewrite <- Hs10. destruct (decide _); reflexivity. }
  assert (Hat10 : attributes s10 = attributes s9).
  { rewrite <- Hs10. destruct (decide _); reflexivity. }
  assert (Hst10 : styles s10 = styles s9).
  { rewrite <- Hs10. destruct (decide _); reflexivity. }
  assert (Htr10 : trace s10 = trace s9 ++
            [Subscribe "document-element-inserted" (Closure_onContentChange n)]).
  { rewrite <- Hs10. destruct (decide _); reflexivity. }
  assert (Hob10 : observers s10 =
            if decide (("document-element-inserted", Closure_onContentChange n)
                         ∈ observers s9)
            then observers s9
            else observers s9 ++
                   [("document-element-inserted", Closure_onContentChange n)]).
  { rewrite <- Hs10. cbn. destruct (decide _); reflexivity. }
  assert (Hwf9 : wf_tree s9) by (apply (wf_tree_ext s8); assumption).
  assert (Hf9 : fresh_from_next s9).
  { apply (fresh_from_next_ext s8); [assumption | lia | assumption]. }
  split; [apply (wf_tree_ext s9); assumption|].
  split; [apply (fresh_from_next_ext s9); [assumption | cbn; lia | assumption]|].
  split.
  { cbn. rewrite Hpn10', Hpn9, Hpn8, Hpn7, Hpn6. reflexivity. }
  split.
  { intros q. unfold children_of at 1. cbn. rewrite Hcn10, Hcn9.
    change (default [] (childNodes s8 !! q)) with (children_of s8 q).
    rewrite Hch8. unfold children_of at 1 2. rewrite Hcn7.
    change (default [] (childNodes s6 !! n)) with (children_of s6 n).
    change (default [] (childNodes s6 !! q)) with (children_of s6 q).
    rewrite !Hch6. unfold s4. rewrite !children_of_link_last.
    change (children_of s3) with (children_of s).
    assert (Hnil : children_of s n = []).
    { apply fresh_childless; [exact Hwf | exact Hf | unfold n; lia]. }
    repeat (destruct (decide _) as [?|?]); try lia; try subst q;
      rewrite ?Hnil, ?app_nil_r; try reflexivity; try congruence. }
  split; [cbn; rewrite Hnx10, Hn9, Hn8; reflexivity|].
  split; [cbn; rewrite Hh10, Hh9, Hh8, Hh7, Hh6; reflexivity|].
  split; [cbn; rewrite Hbf10; cbn; rewrite Hbf9, Hbf8, Hbf7, Hbf6; reflexivity|].
  split; [cbn; rewrite Hcc10; cbn; rewrite Hcc9, Hcc8, Hcc7, Hcc6; reflexivity|].
  split.
  { cbn. rewrite Hob10. cbn. rewrite Hob9, Hob8, Hob7, Hob6. reflexivity. }
  split.
  { cbn. rewrite Htr10. cbn. rewrite Htr9, Htr8, Htr7, Htr6, <- !app_assoc.
    reflexivity. }
  split; [cbn; rewrite Hcd10; cbn; rewrite Hcd9, Hcd8, Hcd7, Hcd6; reflexivity|].
  split.
  { cbn. rewrite Hat10. cbn. rewrite Hat9, Hat8, Hat7, Hat6. reflexivity. }
  cbn. rewrite Hst10. cbn. rewrite Hst9, Hst8, Hst7, Hst6.
  rewrite ?Hh8, ?Hh7, ?Hh6. reflexivity.
Qed.

(** X15. In a well-formed store, for a document that has the popup
    container and with the add-on window in place, [make] returns a new
    panel: a child of the container whose one child is the view frame,
    with the background frame appended to the add-on window and recorded on
    the panel, so that the content frame is the view frame when the popup is
    open and the background frame otherwise.  The tree stays well formed,
    no existing node changes parent, no other panel's record changes, every
    observer stays registered and the panel's own is registered, and the
    calls made are the creation of the two frames with the fixed options
    and the subscription. *)
Theorem make_builds_panel (od : option ref) s (document container addonDoc : ref) :
  wf_tree s -> fresh_from_next s ->
  default_document od s = (Ok document, s) ->
  getElementById (host s) document "mainPopupSet" = Some container ->
  container < next s ->
  addonWindow (host s) < next s ->
  ownerDocument s !! addonWindow (host s) = Some addonDoc ->
  exists s',
    let panel := next s in
    let backgroundFrame := S (next s) in
    let viewFrame := S (S (next s)) in
    make od s = (Ok panel, s') /\
    wf_tree s' /\ fresh_from_next s' /\
    parentNode s' !! panel = Some container /\
    children_of s' panel = [viewFrame] /\
    panel_backgroundFrame s' !! panel = Some backgroundFrame /\
    parentNode s' !! backgroundFrame = Some (addonWindow (host s)) /\
    getContentFrame s' panel =
      Some (if isOpen s panel then viewFrame else backgroundFrame) /\
    (forall x, x < next s -> parentNode s' !! x = parentNode s !! x) /\
    (forall p, p <> panel ->
       panel_backgroundFrame s' !! p = panel_backgroundFrame s !! p) /\
    ("document-element-inserted", Closure_onContentChange panel) ∈ observers s' /\
    (forall o, o ∈ observers s -> o ∈ observers s') /\
    trace s' = trace s ++
      [CreateFrame backgroundFrame frameOptions;
       CreateFrame viewFrame frameOptions;
       Subscribe "document-element-inserted" (Closure_onContentChange panel)].
Proof.
  intros Hwf Hf Hdoc Hc Hcl Hal Haod.
  destruct (make_run od s document container addonDoc Hwf Hf Hdoc Hc Hcl Hal Haod)
    as (s' & Hmake & Hwf' & Hf' & Hpn & Hch & Hnx & Hh & Hbf & Hcc & Hob & Htr
        & Hcd & Hat & Hst).
  exists s'. cbn zeta.
  split; [exact Hmake|]. split; [exact Hwf'|]. split; [exact Hf'|].
  split.
  { rewrite Hpn, !lookup_insert_ne by lia. apply lookup_insert_eq. }
  assert (Hchp : children_of s' (next s) = [S (S (next s))]).
  { rewrite Hch. destruct (decide (next s = next s)); [reflexivity|congruence]. }
  split; [exact Hchp|].
  split; [rewrite Hbf; apply lookup_insert_eq|].
  split.
  { rewrite Hpn, lookup_insert_ne by lia. apply lookup_insert_eq. }
  split.
  { unfold getContentFrame, isOpen, firstChild. rewrite Hh, Hchp, Hbf.
    rewrite lookup_insert_eq. destruct (bool_decide _); reflexivity. }
  split.
  { intros x Hx. rewrite Hpn, !lookup_insert_ne by lia. reflexivity. }
  split.
  { intros p Hp. rewrite Hbf, lookup_insert_ne by congruence. reflexivity. }
  split.
  { rewrite Hob. destruct (decide _) as [Hin|_]; [exact Hin|].
    apply elem_of_app. right. apply list_elem_of_singleton. reflexivity. }
  split; [|exact Htr].
  intros o Ho. rewrite Hob. destruct (decide _); [exact Ho|].
  apply elem_of_app. left. exact Ho.
Qed.

Lemma lookup_panel_frame_attributes_ne (frame x : ref) (name : string)
    (m : gmap (ref * string) string) :
  x <> frame -> panel_frame_attributes frame m !! (x, name) = m !! (x, name).
Proof.
  intros Hne. unfold panel_frame_attributes.
  rewrite !lookup_insert_ne by congruence. reflexivity.
Qed.

Lemma lookup_created_frame_attributes_ne (frame x : ref) (name : string)
    (options : FrameOptions) (m : gmap (ref * string) string) :
  x <> frame ->
  created_frame_attributes frame options m !! (x, name) = m !! (x, name).
Proof.
  intros Hne. unfold created_frame_attributes.
  rewrite !lookup_insert_ne by congruence. reflexivity.
Qed.

Lemma lookup_frame_attributes_alike (f g : ref) (name : string)
    (options : FrameOptions) (m1 m2 : gmap (ref * string) string) :
  m1 !! (f, name) = m2 !! (g, name) ->
  panel_frame_attributes f (created_frame_attributes f options m1) !! (f, name) =
  panel_frame_attributes g (created_frame_attributes g options m2) !! (g, name).
Proof.
  intros Hm. unfold panel_frame_attributes, created_frame_attributes.
  rewrite !lookup_insert.
  repeat case_decide; simplify_eq; try reflexivity; try congruence.
Qed.

Lemma lookup_panel_frame_styles_ne (pf : string) (frame x : ref) (prop : string)
    (m : gmap (ref * string) StyleValue) :
  x <> frame -> panel_frame_styles pf frame m !! (x, prop) = m !! (x, prop).
Proof.
  intros Hne. unfold panel_frame_styles. destruct (decide _); [|reflexivity].
  rewrite !lookup_insert_ne by congruence. reflexivity.
Qed.

Lemma lookup_panel_frame_styles_alike (pf : string) (f g : ref) (prop : string)
    (m1 m2 : gmap (ref * string) StyleValue) :
  m1 !! (f, prop) = m2 !! (g, prop) ->
  panel_frame_styles pf f m1 !! (f, prop) = panel_frame_styles pf g m2 !! (g, prop).
Proof.
  intros Hm. unfold panel_frame_styles. destruct (decide _); [|exact Hm].
  rewrite !lookup_insert.
  repeat case_decide; simplify_eq; try reflexivity; try congruence.
Qed.

(** X16. [make] sets its two frames up alike: when the new nodes carry no
    attribute and no style beforehand, the background frame and the view
    frame end with the same value under every attribute name and every
    style property, the source of both being the data URI of the options.
    The rounded border and the padding are set on the darwin platform only:
    elsewhere [make] changes no style at all. *)
Theorem make_sets_frames_up_alike (od : option ref) s
    (document container addonDoc : ref) :
  wf_tree s -> fresh_from_next s ->
  default_document od s = (Ok document, s) ->
  getElementById (host s) document "mainPopupSet" = Some container ->
  container < next s ->
  addonWindow (host s) < next s ->
  ownerDocument s !! addonWindow (host s) = Some addonDoc ->
  (forall x name, next s <= x -> attributes s !! (x, name) = None) ->
  (forall x prop, next s <= x -> styles s !! (x, prop) = None) ->
  exists s',
    let panel := next s in
    let backgroundFrame := S (next s) in
    let viewFrame := S (S (next s)) in
    make od s = (Ok panel, s') /\
    (forall name,
       attributes s' !! (backgroundFrame, name) =
       attributes s' !! (viewFrame, name)) /\
    (forall prop,
       styles s' !! (backgroundFrame, prop) = styles s' !! (viewFrame, prop)) /\
    attributes s' !! (viewFrame, "src") = Some "data:text/plain;charset=utf-8," /\
    attributes s' !! (viewFrame, "flex") = Some "1" /\
    attributes s' !! (panel, "type") = Some "arrow" /\
    (forall x name, x < next s ->
       attributes s' !! (x, name) = attributes s !! (x, name)) /\
    (platform (host s) <> "darwin" -> styles s' = styles s) /\
    (platform (host s) = "darwin" ->
     styles s' !! (viewFrame, "borderRadius") = Some (CssText "6px") /\
     styles s' !! (viewFrame, "padding") = Some (CssText "1px")).
Proof.
  intros Hwf Hf Hdoc Hc Hcl Hal Haod Hattr Hsty.
  destruct (make_run od s document container addonDoc Hwf Hf Hdoc Hc Hcl Hal Haod)
    as (s' & Hmake & Hwf' & Hf' & Hpn & Hch & Hnx & Hh & Hbf & Hcc & Hob & Htr
        & Hcd & Hat & Hst).
  exists s'. cbn zeta.
  split; [exact Hmake|].
  split.
  { intros name. rewrite Hat.
    rewrite lookup_panel_frame_attributes_ne by lia.
    rewrite lookup_created_frame_attributes_ne by lia.
    apply lookup_frame_attributes_alike.
    rewrite lookup_panel_frame_attributes_ne by lia.
    rewrite lookup_created_frame_attributes_ne by lia.
    rewrite !lookup_insert_ne by (intros [=]; lia).
    rewrite !Hattr by lia. reflexivity. }
  split.
  { intros prop. rewrite Hst.
    rewrite lookup_panel_frame_styles_ne by lia.
    apply lookup_panel_frame_styles_alike.
    rewrite lookup_panel_frame_styles_ne by lia.
    rewrite !Hsty by lia. reflexivity. }
  split.
  { rewrite Hat. unfold panel_frame_attributes at 1.
    rewrite !lookup_insert_ne by (intros [=]).
    unfold created_frame_attributes at 1. apply lookup_insert_eq. }
  split.
  { rewrite Hat. unfold panel_frame_attributes at 1.
    rewrite !lookup_insert_ne by (intros [=]). apply lookup_insert_eq. }
  split.
  { rewrite Hat.
    rewrite lookup_panel_frame_attributes_ne by lia.
    rewrite lookup_created_frame_attributes_ne by lia.
    rewrite lookup_panel_frame_attributes_ne by lia.
    rewrite lookup_created_frame_attributes_ne by lia.
    apply lookup_insert_eq. }
  split.
  { intros x name Hx. rewrite Hat.
    rewrite lookup_panel_frame_attributes_ne by lia.
    rewrite lookup_created_frame_attributes_ne by lia.
    rewrite lookup_panel_frame_attributes_ne by lia.
    rewrite lookup_created_frame_attributes_ne by lia.
    apply lookup_insert_ne. intros [=]. lia. }
  split.
  { intros Hpf. rewrite Hst. unfold panel_frame_styles.
    destruct (decide (platform (host s) = "darwin")); [contradiction | reflexivity]. }
  intros Hpf. rewrite Hst. unfold panel_frame_styles.
  destruct (decide (platform (host s) = "darwin")); [|contradiction].
  split.
  - rewrite lookup_insert_ne by (intros [=]). apply lookup_insert_eq.
  - apply lookup_insert_eq.
Qed.

(** ** make, then dispose *)

(** X17. A panel that is disposed right after it was made leaves the
    existing tree as it was: every node that existed keeps its parent and
    its children, the panel and the background frame are in no tree (the
    view frame stays in the panel), the panel's records are cleared, and the
    observer table is the one before [make], less the panel's own observer. *)
Theorem make_then_dispose (od : option ref) s (document container addonDoc : ref) :
  wf_tree s -> fresh_from_next s ->
  default_document od s = (Ok document, s) ->
  getElementById (host s) document "mainPopupSet" = Some container ->
  container < next s ->
  addonWindow (host s) < next s ->
  ownerDocument s !! addonWindow (host s) = Some addonDoc ->
  exists s'',
    (let! panel := make od in dispose panel) s = (Ok tt, s'') /\
    wf_tree s'' /\
    (forall x, x < next s ->
       parentNode s'' !! x = parentNode s !! x /\
       children_of s'' x = children_of s x) /\
    parentNode s'' !! next s = None /\
    parentNode s'' !! S (next s) = None /\
    parentNode s'' !! S (S (next s)) = Some (next s) /\
    panel_backgroundFrame s'' !! next s = None /\
    panel_onContentChange s'' !! next s = None /\
    observers s'' =
      filter (fun r => r <> ("document-element-inserted",
                             Closure_onContentChange (next s)))
        (observers s).
Proof.
  intros Hwf Hf Hdoc Hc Hcl Hal Haod.
  destruct (make_run od s document container addonDoc Hwf Hf Hdoc Hc Hcl Hal Haod)
    as (s' & Hmake & Hwf' & Hf' & Hpn & Hch & Hnx & Hh & Hbf & Hcc & Hob & Htr
        & Hcd & Hat & Hst).
  assert (Hpbf : panel_backgroundFrame s' !! next s = Some (S (next s))).
  { rewrite Hbf. apply lookup_insert_eq. }
  assert (Hpar : parentNode s' !! S (next s) = Some (addonWindow (host s))).
  { rewrite Hpn, lookup_insert_ne by lia. apply lookup_insert_eq. }
  assert (Hparp : parentNode s' !! next s = Some container).
  { rewrite Hpn, !lookup_insert_ne by lia. apply lookup_insert_eq. }
  assert (Hocc : panel_onContentChange s' !! next s =
                   Some (Closure_onContentChange (next s))).
  { rewrite Hcc. apply lookup_insert_eq. }
  pose proof (dispose_run s' _ _ _ _ Hpbf Hpar Hocc) as Hdisp.
  set (sA := unlink (S (next s)) s') in Hdisp.
  match type of Hdisp with context [unlink (next s) ?X] =>
    set (sB := X) in Hdisp end.
  assert (HpB : parentNode sB = parentNode sA) by reflexivity.
  assert (HcB : forall q, children_of sB q = children_of sA q) by reflexivity.
  assert (HpB_panel : parentNode sB !! next s = Some container).
  { rewrite HpB. unfold sA. rewrite unlink_parent_other by lia. exact Hparp. }
  exists (unlink (next s) sB). split.
  { rewrite (bind_ok _ _ s (next s) s') by exact Hmake. exact Hdisp. }
  split.
  { apply wf_tree_unlink. apply (wf_tree_ext sA); [reflexivity..|].
    apply wf_tree_unlink. exact Hwf'. }
  split.
  { intros x Hx. split.
    - rewrite unlink_parent_other by lia. rewrite HpB. unfold sA.
      rewrite unlink_parent_other by lia.
      rewrite Hpn, !lookup_insert_ne by lia. reflexivity.
    - assert (Hfn : forall m, next s <= m ->
                filter (fun c => c <> m) (children_of s x) = children_of s x).
      { intros m Hm. apply filter_all. intros c Hin.
        pose proof (fresh_children s x c Hwf Hf Hin). lia. }
      rewrite children_of_unlink, HpB_panel, HcB. unfold sA.
      rewrite children_of_unlink, Hpar, Hch.
      destruct (decide (x = next s)) as [|_]; [lia|].
      destruct (decide (Some container = Some x)) as [[= <-]|Hxc];
        destruct (decide (Some (addonWindow (host s)) = Some container))
          as [[= Heq]|Hxa];
        try (destruct (decide (Some (addonWindow (host s)) = Some x))
               as [[= <-]|Hxa']);
        repeat (destruct (decide _) as [?|?]); try congruence;
        rewrite ?filter_app;
        repeat first
          [ rewrite Hfn by lia
          | rewrite filter_cons_True by lia
          | rewrite filter_cons_False by lia
          | rewrite filter_nil
          | rewrite app_nil_r ];
        try reflexivity. }
  split; [apply unlink_parent_self|].
  split.
  { rewrite unlink_parent_other by lia. rewrite HpB. apply unlink_parent_self. }
  split.
  { rewrite unlink_parent_other by lia. rewrite HpB. unfold sA.
    rewrite unlink_parent_other by lia. rewrite Hpn. apply lookup_insert_eq. }
  destruct (unlink_other_fields (next s) sB)
    as (_&_&_&_&_&_&_&Hu_bf&Hu_cc&_&Hu_obs&_&_&_&_).
  split; [rewrite Hu_bf; cbn; apply lookup_delete_eq|].
  split; [rewrite Hu_cc; cbn; apply lookup_delete_eq|].
  rewrite Hu_obs. cbn. rewrite Hob.
  destruct (decide _) as [_|_]; [reflexivity|].
  rewrite filter_app, filter_cons_False, filter_nil, app_nil_r; [reflexivity|].
  intros Hne. apply Hne. reflexivity.
Qed.

(** ** show *)

Lemma default_document_host (w : option ref) s s1 (document : ref) :
  host s1 = host s ->
  default_document w s = (Ok document, s) ->
  default_document w s1 = (Ok document, s1).
Proof.
  intros Hh. unfold default_document, bind, gets, deref, ret, throw.
  destruct w as [d|].
  - intros [= ->]. reflexivity.
  - rewrite Hh. destruct (getMostRecentBrowserWindow (host s)); intros [= ->].
    reflexivity.
Qed.

(** What [open] does, by the availability of the popup's [openPopup]. *)
Lemma open_outcome s panel (width height : num) (anchor : option ref)
    (r : Result unit) s' :
  open panel width height anchor s = (r, s') ->
  parentNode s' = parentNode s /\ childNodes s' = childNodes s /\
  (forall name, name <> "flip" ->
     attributes s' !! (panel, name) = attributes s !! (panel, name)) /\
  (hasOpenPopup (host s) panel = false ->
     r = Ok tt /\ trace s' = trace s /\
     timers s' = timers s ++
       [{| delay := 50; callback := OpenTask panel width height anchor |}]) /\
  (hasOpenPopup (host s) panel = true ->
     timers s' = timers s /\
     ((r = Ok tt /\
       exists position x y,
         trace s' = trace s ++ [OpenPopup panel anchor position x y]) \/
      (exists msg, r = Throw (TypeError msg) /\ trace s' = trace s))).
Proof.
  unfold open. rewrite (bind_ok _ _ s (hasOpenPopup (host s) panel) s) by reflexivity.
  destruct (hasOpenPopup (host s) panel) eqn:Hop; cbn [negb].
  - unfold display, shimDefaultStyle, forEach. munfold. simpl.
    intros H.
    destruct anchor;
      repeat (case_match; simplify_eq/=);
      (split; [reflexivity|]); (split; [reflexivity|]);
      (split; [intros name Hname; try reflexivity;
               apply lookup_insert_ne; congruence|]);
      (split; [intros [=]|]); intros _; (split; [reflexivity|]);
      first [ left; split; [reflexivity|]; eauto
            | right; eauto ].
  - unfold setTimeout, modify. intros [= <- <-].
    split; [reflexivity|]. split; [reflexivity|].
    split; [reflexivity|]. split; [|intros [=]].
    intros _. repeat split.
Qed.

(** X18. [show] sets the focus flag, attaches the panel to the popup
    container of the document it resolves (the anchor's browser window, or
    the most recent one), and only then opens: whatever [open] does next,
    the panel is a child of that container in a well-formed tree and
    carries [noautofocus] as the negation of [focus].  While [openPopup] is
    not available the call returns with nothing called and one retry queued
    with the same arguments; once it is, the popup is opened for the same
    anchor, or the failure is a TypeError with nothing called. *)
Theorem show_attaches_then_opens s panel (width height : num) (focus : bool)
    (anchor : option ref) (document container : ref) :
  wf_tree s ->
  default_document
    (match anchor with
     | Some a => getOwnerBrowserWindow (host s) a
     | None => None
     end) s = (Ok document, s) ->
  getElementById (host s) document "mainPopupSet" = Some container ->
  parentNode s !! panel = Some container \/
    inclusive_ancestor (unlink panel s) panel container = false ->
  exists r s',
    show panel width height focus anchor s = (r, s') /\
    wf_tree s' /\
    parentNode s' !! panel = Some container /\
    attributes s' !! (panel, "noautofocus") =
      Some (if focus then "false" else "true") /\
    (hasOpenPopup (host s) panel = false ->
       r = Ok tt /\ trace s' = trace s /\
       timers s' = timers s ++
         [{| delay := 50; callback := OpenTask panel width height anchor |}]) /\
    (hasOpenPopup (host s) panel = true ->
       timers s' = timers s /\
       ((r = Ok tt /\
         exists position x y,
           trace s' = trace s ++ [OpenPopup panel anchor position x y]) \/
        (exists msg, r = Throw (TypeError msg) /\ trace s' = trace s))).
Proof.
  intros Hwf Hdoc Hc Hpos.
  set (v := if negb focus then "true" else "false").
  set (s1 := set_attributes (<[(panel, "noautofocus") := v]> (attributes s)) s).
  assert (Hwf1 : wf_tree s1) by (apply (wf_tree_ext s); [reflexivity..|exact Hwf]).
  assert (Hattach : exists s2,
    attach panel (Some document) s1 = (Ok tt, s2) /\ wf_tree s2 /\
    parentNode s2 !! panel = Some container /\
    attributes s2 = attributes s1 /\ host s2 = host s /\
    timers s2 = timers s /\ trace s2 = trace s).
  { destruct (decide (parentNode s !! panel = Some container)) as [Hin|Hout].
    - exists s1. split; [apply (attach_stays s1 _ _ container); assumption|].
      split; [exact Hwf1|]. split; [exact Hin|]. repeat split.
    - destruct Hpos as [Hin|Hanc]; [contradiction|].
      assert (Hpu : parentNode (unlink panel s1) = parentNode (unlink panel s)).
      { unfold unlink. change (parentNode s1) with (parentNode s).
        destruct (parentNode s !! panel); reflexivity. }
      exists (link_last container panel (unlink panel s1)).
      split.
      { apply attach_moves; [exact Hc | exact Hout |].
        unfold inclusive_ancestor. rewrite Hpu. exact Hanc. }
      destruct (unlink_other_fields panel s1)
        as (_&_&_&_&Hu_at&_&_&_&_&_&_&Hu_tm&Hu_tr&_&Hu_h).
      split.
      { apply wf_tree_link_last; [apply wf_tree_unlink; exact Hwf1|].
        apply unlink_parent_self. }
      split; [apply lookup_insert_eq|].
      split; [exact Hu_at|]. split; [exact Hu_h|].
      split; [exact Hu_tm | exact Hu_tr]. }
  destruct Hattach as (s2 & Hrun2 & Hwf2 & Hp2 & Hat2 & Hh2 & Htm2 & Htr2).
  destruct (open panel width height anchor s2) as [r s'] eqn:Hopen.
  exists r, s'. split.
  { unfold show.
    rewrite (bind_ok _ _ s tt s1) by reflexivity.
    erewrite (bind_ok _ _ s1 _ s1) by reflexivity.
    rewrite (bind_ok _ _ s1 document s1) by
      (apply (default_document_host _ s); [reflexivity | exact Hdoc]).
    rewrite (bind_ok _ _ s1 tt s2) by exact Hrun2.
    exact Hopen. }
  apply open_outcome in Hopen as (Hpn & Hcn & Hattr & Hoff & Hon).
  split; [apply (wf_tree_ext s2); assumption|].
  split; [rewrite Hpn; exact Hp2|].
  split.
  { rewrite Hattr by discriminate. rewrite Hat2. unfold s1, v. cbn.
    rewrite lookup_insert_eq. destruct focus; reflexivity. }
  rewrite Hh2, Htm2, Htr2 in *. split; assumption.
Qed.

End Model.

Notation "'let!' x ':=' m 'in' k" := (bind m (fun x => k))
  (at level 10, x name, m at level 100, k at level 200).
Notation "m1 '>>' m2" := (bind m1 (fun _ => m2))
  (at level 100, m2 at level 200, right associativity).

(** * Exact arithmetic, and the module at work in the sample window *)

Local Open Scope Q_scope.

(** Over the rationals halving distributes over subtraction. *)
Lemma halving_distributes_Q (a b : Q) :
  num_sub (num_div a (num_of_Z 2)) (num_div b (num_of_Z 2)) ==
  num_div (num_sub a b) (num_of_Z 2).
Proof. cbn. change (inject_Z 2) with 2. field. Qed.

Lemma made_state_wf (popupState : string) (bound : bool) :
  wf_tree (made_state (num := Q) popupState bound).
Proof.
  apply wf_tree_check_sound.
  refine (bool_decide_unpack _ _). vm_compute. exact I.
Qed.

Local Close Scope Q_scope.

(** The sample panel over the rationals: closed or open, with its binding
    constructed or not yet. *)
Local Abbreviation closed_panel := (made_state (num := Q) "closed" true).
Local Abbreviation open_panel := (made_state (num := Q) "open" true).
Local Abbreviation unbound_panel := (made_state (num := Q) "closed" false).
Local Abbreviation open_unbound_panel := (made_state (num := Q) "open" false).

Lemma made_state_fresh (popupState : string) (bound : bool) :
  fresh_from_next (made_state (num := Q) popupState bound).
Proof.
  apply fresh_from_next_check_sound.
  refine (bool_decide_unpack _ _). vm_compute. exact I.
Qed.

(** An anchor high on a large screen, and one far down a small screen. *)
Example position_token_below :
  position_token 100%Q {| availWidth := 1280%Q; availHeight := 800%Q |} 300%Q 200%Q
  = "bottomcenter topright".
Proof. reflexivity. Qed.

Example position_token_above :
  position_token 900%Q {| availWidth := 1000%Q; availHeight := 800%Q |} 300%Q 200%Q
  = "topcenter bottomleft".
Proof. reflexivity. Qed.

(** The token depends on the anchor's vertical coordinate alone: far to the
    right but high up, the popup still goes to the right. *)
Example position_token_ignores_screenX :
  position_token
    (anchor_screenY {| rect_left := 5000%Q; rect_top := 20%Q |} sample_window)
    (screen sample_window) 300%Q 200%Q
  = "bottomcenter topright".
Proof. reflexivity. Qed.

(** [display] on the sample panel, anchored at the element [5]. *)
Lemma display_anchor_position_witness :
  exists s',
    display 100 300%Q 200%Q (Some 5) closed_panel = (Ok tt, s') /\
    trace s' =
      (trace closed_panel ++
         [OpenPopup 100 (Some 5) (Some "bottomcenter topright") None None])%list.
Proof.
  exists (display 100 300%Q 200%Q (Some 5) closed_panel).2.
  assert (H : display 100 300%Q 200%Q (Some 5) closed_panel =
              (Ok tt, (display 100 300%Q 200%Q (Some 5) closed_panel).2))
    by (vm_compute; reflexivity).
  split; [exact H|].
  destruct (display_anchor_position _ _ _ _ _ _ H)
    as (adoc & window & Hd & Hw & Ht & _ & Hlow).
  rewrite Ht. f_equal. f_equal. f_equal. f_equal.
  vm_compute in Hd. injection Hd as <-.
  vm_compute in Hw. injection Hw as <-.
  apply Hlow; reflexivity.
Defined.


(** The sample panel, closed, is stylable: its content document is [6],
    whose head [7] is the container. *)
Lemma made_state_stylable : stylable closed_panel 100 7.
Proof.
  split; [apply made_state_wf|]. split; [apply made_state_fresh|].
  split; [vm_compute; lia|]. split; [vm_compute; lia|]. split; [lia|].
  exists 0, 101, 6.
  split; [vm_compute; reflexivity|].
  split; [eexists; vm_compute; reflexivity|].
  split; [eexists; vm_compute; reflexivity|].
  split; [vm_compute; reflexivity|].
  split; vm_compute; reflexivity.
Qed.

(** C2 as stated fails: two calls of [style] on the sample panel leave two
    style nodes with the id "sdk-panel-style" in the head of its content
    document, the later one first. *)
Lemma style_twice_counterexample :
  (style_times 2 100 closed_panel).1 = Ok tt /\
  injected_styles (style_times 2 100 closed_panel).2 7 = [104; 103] /\
  length (injected_styles (style_times 2 100 closed_panel).2 7) <> 1.
Proof.
  split; [vm_compute; reflexivity|].
  split; [vm_compute; reflexivity|].
  vm_compute. discriminate.
Qed.

Lemma style_accumulates_witness :
  exists s',
    style_times 3 100 closed_panel = (Ok tt, s') /\
    length (injected_styles s' 7) = 3 /\
    children_of s' 7 = [105; 104; 103] /\
    injected_styles s' 7 = [105; 104; 103] /\
    firstChild s' 7 = Some 105.
Proof.
  destruct (style_accumulates 3 _ _ _ made_state_stylable)
    as (s' & Hrun & _ & Hlen & _ & _ & Hch & Hinj & Hfirst).
  exists s'. split; [exact Hrun|].
  split; [rewrite Hlen; vm_compute; reflexivity|].
  split; [rewrite Hch; vm_compute; reflexivity|].
  split; [rewrite Hinj; vm_compute; reflexivity|].
  rewrite Hfirst by lia. vm_compute. reflexivity.
Defined.

(** C3 as stated fails: while the sample panel is closed its content frame
    is the background frame [101], and [resize] sizes the view frame [102]
    and leaves [101] alone. *)
Lemma resize_closed_counterexample :
  isOpen closed_panel 100 = false /\
  getContentFrame closed_panel 100 = Some 101 /\
  (resize 100 300%Q 200%Q closed_panel).1 = Ok tt /\
  styles (resize 100 300%Q 200%Q closed_panel).2 !! (101, "width")
    = None /\
  styles (resize 100 300%Q 200%Q closed_panel).2 !! (101, "height")
    = None /\
  styles (resize 100 300%Q 200%Q closed_panel).2 !! (102, "width")
    = Some (CssPx 300%Q).
Proof. repeat split; vm_compute; reflexivity. Qed.

Lemma resize_sizes_firstChild_witness :
  firstChild closed_panel 100 = Some 102 /\
  exists s',
    resize 100 300%Q 200%Q closed_panel = (Ok tt, s') /\
    styles s' !! (102, "width") = Some (CssPx 300%Q) /\
    styles s' !! (102, "height") = Some (CssPx 200%Q) /\
    trace s' = trace closed_panel.
Proof.
  assert (H : firstChild closed_panel 100 = Some 102)
    by (vm_compute; reflexivity).
  split; [exact H|].
  destruct (resize_sizes_firstChild _ 100 300%Q 200%Q 102 H) as (Hr & Hpost & _).
  eexists. split; [exact Hr|].
  destruct (Hpost _ Hr) as (Hw & Hh & Ht & _).
  split; [exact Hw|]. split; [exact Hh | exact Ht].
Defined.


Lemma dispose_releases_witness :
  exists s',
    dispose 100 closed_panel = (Ok tt, s') /\
    panel_backgroundFrame s' !! 100 = None /\
    parentNode s' !! 101 = None /\
    parentNode s' !! 100 = None /\
    ("document-element-inserted", Closure_onContentChange 100) ∉ observers s'.
Proof.
  destruct (dispose_releases closed_panel 100 101 4
              (Closure_onContentChange 100))
    as (s' & Hrun & Hpf & _ & Hbf & _ & Hobs & _ & Hpp & _).
  - vm_compute. reflexivity.
  - vm_compute. reflexivity.
  - vm_compute. reflexivity.
  - exists s'. repeat split; assumption.
Defined.


Lemma close_tolerates_missing_hidePopup_witness :
  close 100 open_unbound_panel = (Ok tt, made_state "open" false).
Proof.
  apply (proj1 (close_tolerates_missing_hidePopup open_unbound_panel 100)).
  reflexivity.
Defined.

Lemma getContentFrame_follows_isOpen_witness :
  getContentFrame open_panel 100 = firstChild open_panel 100 /\
  getContentFrame closed_panel 100 =
    panel_backgroundFrame closed_panel !! 100.
Proof.
  destruct (getContentFrame_follows_isOpen open_panel 100)
    as (_ & Hopen & _).
  destruct (getContentFrame_follows_isOpen closed_panel 100)
    as (_ & _ & Hclosed & _).
  split; [apply Hopen | apply Hclosed]; reflexivity.
Defined.

(** [make] in the sample window, then "DOMContentLoaded" for the content
    document [6] of the closed panel, and for another document. *)
Lemma onContentReady_styles_then_emits_witness :
  exists s1,
    make (Some 0) (sample_state (num := Q) "closed" true) = (Ok 100, s1) /\
    contentReady_listener 100 100 ∈ domListeners s1 /\
    run_handler 2 (Closure_onContentReady 100) "DOMContentLoaded" 9
      closed_panel = (Ok tt, made_state "closed" true) /\
    exists s2 rest,
      style 100 closed_panel = (Ok tt, s2) /\
      firstChild s2 7 = Some 103 /\
      run_handler 2 (Closure_onContentReady 100) "DOMContentLoaded" 6
        closed_panel =
        events_emit 2 (Some "sdk-panel-content-loaded") 100 s2 /\
      trace (events_emit 2 (Some "sdk-panel-content-loaded") 100 s2).2 =
        trace s2 ++ Emit (Some "sdk-panel-content-loaded") 100 :: rest.
Proof.
  assert (H : make (Some 0) (sample_state (num := Q) "closed" true) =
              (Ok 100, (make (Some 0) (sample_state (num := Q) "closed" true)).2))
    by (vm_compute; reflexivity).
  destruct (onContentReady_styles_then_emits 2 _ _ _ _ H) as ((bf & _ & Hl & _) & Hrun).
  exists (make (Some 0) (sample_state (num := Q) "closed" true)).2.
  split; [exact H|]. split; [exact Hl|].
  destruct (Hrun closed_panel 6) as (Hmatch & _).
  destruct (Hrun closed_panel 9) as (_ & Hother).
  split.
  - apply (Hother (Some 6)); [vm_compute; reflexivity | discriminate].
  - destruct Hmatch as (s2 & rest & Hstyle & Hinj & Hhandler & Htrace);
      [vm_compute; reflexivity|].
    exists s2, rest. split; [exact Hstyle|].
    split; [exact (proj1 (Hinj 7 made_state_stylable))|].
    split; [exact Hhandler | exact Htrace].
Defined.

(** * The further properties at work in the sample window *)

Lemma sample_state_wf (popupState : string) (bound : bool) :
  wf_tree (sample_state (num := Q) popupState bound).
Proof.
  apply wf_tree_check_sound.
  refine (bool_decide_unpack _ _). vm_compute. exact I.
Qed.

Lemma sample_state_fresh (popupState : string) (bound : bool) :
  fresh_from_next (sample_state (num := Q) popupState bound).
Proof.
  apply fresh_from_next_check_sound.
  refine (bool_decide_unpack _ _). vm_compute. exact I.
Qed.

(** The sample window before any panel is made. *)
Local Abbreviation empty_window := (sample_state (num := Q) "closed" true).

(** Detaching the sample panel empties the popup container [2]. *)
Lemma detach_detaches_witness :
  exists s',
    detach 100 closed_panel = (Ok tt, s') /\
    parentNode s' !! 100 = None /\
    children_of s' 2 = [].
Proof.
  destruct (detach_detaches closed_panel 100 (made_state_wf _ _))
    as (s' & Hrun & _ & Hp & _ & Hch & _).
  exists s'. split; [exact Hrun|]. split; [exact Hp|].
  rewrite Hch. vm_compute. reflexivity.
Defined.

(** The add-on document [3] has no popup container. *)
Lemma attach_without_container_witness :
  exists msg,
    attach 100 (Some 3) closed_panel =
      (Throw (TypeError msg), unlink 100 closed_panel) /\
    parentNode (unlink 100 closed_panel) !! 100 = None.
Proof.
  destruct (attach_without_container closed_panel 100 3) as [_ H].
  - vm_compute. reflexivity.
  - apply (H 2). vm_compute. reflexivity.
Defined.


(** The anchor [5] has no child to size. *)
Lemma resize_without_child_witness :
  exists msg,
    resize 5 300%Q 200%Q closed_panel = (Throw (TypeError msg), made_state "closed" true).
Proof.
  apply (resize_without_child closed_panel 5 300%Q 200%Q).
  vm_compute. reflexivity.
Defined.

Lemma resize_last_wins_witness :
  (resize 100 10%Q 10%Q >> resize 100 300%Q 200%Q) closed_panel =
  resize 100 300%Q 200%Q closed_panel.
Proof.
  apply (resize_last_wins closed_panel 100 10%Q 10%Q 300%Q 200%Q 102).
  vm_compute. reflexivity.
Defined.

(** The sample panel has the wrapper [8] under "panel-arrowcontent". *)
Lemma shimDefaultStyle_pads_wrappers_witness :
  exists s',
    shimDefaultStyle 100 closed_panel = (Ok tt, s') /\
    styles s' !! (8, "padding") = Some (CssNumber 0%Q) /\
    styles s' !! (8, "margin") = None.
Proof.
  destruct (shimDefaultStyle_pads_wrappers closed_panel 100 0)
    as (s' & Hrun & _ & Hst & _).
  - vm_compute. reflexivity.
  - exists s'. split; [exact Hrun|].
    split; rewrite Hst; vm_compute; reflexivity.
Defined.

Lemma display_opens_iff_returns_witness :
  parentNode (display 100 300%Q 200%Q (Some 5) closed_panel).2 =
    parentNode closed_panel /\
  timers (display 100 300%Q 200%Q (Some 5) closed_panel).2 = timers closed_panel.
Proof.
  destruct (display_opens_iff_returns closed_panel 100 300%Q 200%Q (Some 5) _ _
              (surjective_pairing _))
    as (Hp & _ & Ht & _).
  split; [exact Hp | exact Ht].
Defined.

Lemma dispose_twice_throws_witness :
  exists s' msg,
    dispose 100 closed_panel = (Ok tt, s') /\
    dispose 100 s' = (Throw (TypeError msg), s').
Proof.
  apply (dispose_twice_throws closed_panel 100 101 4 (Closure_onContentChange 100));
    vm_compute; reflexivity.
Defined.

Lemma dispose_leaves_dom_listeners_witness :
  exists s',
    dispose 100 closed_panel = (Ok tt, s') /\
    domListeners s' = domListeners closed_panel /\
    getContentFrame s' 100 = None.
Proof.
  destruct (dispose_leaves_dom_listeners closed_panel 100 101 4
              (Closure_onContentChange 100))
    as (s' & Hrun & Hdl & Hclosed).
  - vm_compute. reflexivity.
  - vm_compute. reflexivity.
  - vm_compute. reflexivity.
  - exists s'. split; [exact Hrun|]. split; [exact Hdl|].
    apply Hclosed. vm_compute. reflexivity.
Defined.

(** The content document of the closed sample panel is [6]: an insertion
    into the document [9] is not republished for it. *)
Lemma content_change_without_cross_talk_witness :
  exists rest,
    trace (events_emit 2 (Some "document-element-inserted") 9 closed_panel).2 =
      trace closed_panel ++
        Emit (Some "document-element-inserted") 9 :: rest /\
    (Emit (Some "sdk-panel-content-changed") 100 ∉ rest).
Proof.
  destruct (content_change_without_cross_talk 2 9 closed_panel _ _
              (surjective_pairing _))
    as (rest & Ht & Hall).
  exists rest. split; [exact Ht|].
  intros Hin. destruct (Hall 100 Hin) as (Hdoc & _).
  apply (f_equal fst) in Hdoc. vm_compute in Hdoc. discriminate.
Defined.

(** The sample panel in a host where the swap of frame loaders fails. *)
Local Abbreviation swap_failing_panel :=
  (set_host (with_failing_swap (InternalError "swap") (host closed_panel))
     closed_panel).


(** [make] in the sample window: the panel [100] under the container [2],
    with the view frame [102] and the background frame [101]. *)
Lemma make_builds_panel_witness :
  exists s',
    make (Some 0) empty_window = (Ok 100, s') /\
    parentNode s' !! 100 = Some 2 /\
    children_of s' 100 = [102] /\
    getContentFrame s' 100 = Some 101.
Proof.
  destruct (make_builds_panel (Some 0) empty_window 0 2 3) as (s' & H).
  - apply sample_state_wf.
  - apply sample_state_fresh.
  - reflexivity.
  - vm_compute. reflexivity.
  - vm_compute. lia.
  - vm_compute. lia.
  - vm_compute. reflexivity.
  - cbv zeta in H. destruct H as (Hrun & _ & _ & Hp & Hc & _ & _ & Hcf & _).
    exists s'. split; [exact Hrun|]. split; [exact Hp|]. split; [exact Hc|].
    exact Hcf.
Defined.

Lemma make_sets_frames_up_alike_witness :
  exists s',
    make (Some 0) empty_window = (Ok 100, s') /\
    attributes s' !! (101, "src") = attributes s' !! (102, "src") /\
    attributes s' !! (101, "flex") = Some "1" /\
    styles s' = ∅.
Proof.
  destruct (make_sets_frames_up_alike (Some 0) empty_window 0 2 3) as (s' & H).
  - apply sample_state_wf.
  - apply sample_state_fresh.
  - reflexivity.
  - vm_compute. reflexivity.
  - vm_compute. lia.
  - vm_compute. lia.
  - vm_compute. reflexivity.
  - intros x name _. apply lookup_empty.
  - intros x prop _. apply lookup_empty.
  - cbv zeta in H.
    destruct H as (Hrun & Hattr & _ & _ & Hflex & _ & _ & Hlinux & _).
    exists s'. split; [exact Hrun|]. split; [exact (Hattr "src")|].
    split; [exact (eq_trans (Hattr "flex") Hflex)|].
    apply Hlinux. discriminate.
Defined.

Lemma make_then_dispose_witness :
  exists s'',
    (let! panel := make (Some 0) in dispose panel) empty_window = (Ok tt, s'') /\
    observers s'' = [] /\
    children_of s'' 2 = [] /\
    children_of s'' 4 = [].
Proof.
  destruct (make_then_dispose (Some 0) empty_window 0 2 3)
    as (s'' & Hrun & _ & Hold & _ & _ & _ & _ & _ & Hobs).
  - apply sample_state_wf.
  - apply sample_state_fresh.
  - reflexivity.
  - vm_compute. reflexivity.
  - vm_compute. lia.
  - vm_compute. lia.
  - vm_compute. reflexivity.
  - exists s''. split; [exact Hrun|].
    split; [rewrite Hobs; vm_compute; reflexivity|].
    split.
    + rewrite (proj2 (Hold 2 ltac:(vm_compute; lia))). vm_compute. reflexivity.
    + rewrite (proj2 (Hold 4 ltac:(vm_compute; lia))). vm_compute. reflexivity.
Defined.

(** [show] for the anchor [5] on the sample panel whose binding is not there
    yet: the panel stays under the container [2], and one retry is queued. *)
Lemma show_attaches_then_opens_witness :
  exists s',
    show 100 300%Q 200%Q false (Some 5) unbound_panel = (Ok tt, s') /\
    parentNode s' !! 100 = Some 2 /\
    attributes s' !! (100, "noautofocus") = Some "true" /\
    timers s' =
      [{| delay := 50; callback := OpenTask 100 300%Q 200%Q (Some 5) |}].
Proof.
  destruct (show_attaches_then_opens unbound_panel 100 300%Q 200%Q false
              (Some 5) 0 2)
    as (r & s' & Hrun & _ & Hp & Hattr & Hoff & _).
  - apply made_state_wf.
  - vm_compute. reflexivity.
  - vm_compute. reflexivity.
  - left. vm_compute. reflexivity.
  - destruct Hoff as (-> & _ & Htm); [vm_compute; reflexivity|].
    exists s'. split; [exact Hrun|]. split; [exact Hp|]. split; [exact Hattr|].
    rewrite Htm. vm_compute. reflexivity.
Defined.
